(** * [mt5_bridge.py]: the metrics engine and the [/connect] handler

    The development is a shallow embedding of [src/mt5_bridge.py].

    - Python [float]s (and pandas float64 cells) are IEEE-754 binary64
      values, modelled bit-exactly with the Standard Library's [spec_float]
      operations at precision 53 and maximal exponent 1024.
    - Python [int]s are [Z]; strings are [string].
    - A [DataFrame] of deals is the list of its rows, in row order. The
      sum of a column is numpy's pairwise sum of its cells; the maximum
      and the minimum visit the cells in row order.
    - A timestamp of a row is a Python number, an [int] or a [float], as
      the dtype of its column has it; a missing value is NaN.
    - Exceptions are explicit: a computation returns [Ok v] or [Raise e].
    - The terminal behind the [MetaTrader5] package is a parameter of the
      handler; what the handler prints and how its answer is encoded as
      JSON text are left out. *)

From Stdlib Require Import ZArith QArith List String Ascii Bool Lia.
From Stdlib Require Import SpecFloat.
From stdpp Require Import base option list gmap strings pretty.
Import ListNotations.

Local Open Scope string_scope.
Local Open Scope Z_scope.

(** ** Binary64 arithmetic *)

Module F64.

Definition prec : Z := 53.
Definition emax : Z := 1024.

Definition float : Type := spec_float.

Definition add : float -> float -> float := SFadd prec emax.
Definition mul : float -> float -> float := SFmul prec emax.
Definition sub : float -> float -> float := SFsub prec emax.
Definition div : float -> float -> float := SFdiv prec emax.
Definition abs : float -> float := SFabs.
Definition compare : float -> float -> option comparison := SFcompare.
Definition eqb : float -> float -> bool := SFeqb.
Definition ltb : float -> float -> bool := SFltb.
Definition leb : float -> float -> bool := SFleb.

Definition zero : float := S754_zero false.
Definition neg_zero : float := S754_zero true.
Definition nan : float := S754_nan.

Definition is_nan (x : float) : bool :=
  match x with S754_nan => true | _ => false end.

(** [float(z)] for a Python int: the nearest binary64, ties to even. *)
Definition of_Z (z : Z) : float := binary_normalize prec emax z 0 false.

(** The quotient of two integers rounded once to binary64 ([SFdiv] needs
    no canonical mantissas, so the integers are divided exactly). *)
Definition of_ratio (a b : Z) : float :=
  match a, b with
  | Z0, _ => S754_zero false
  | _, Z0 => S754_nan
  | Zpos p, Zpos q => div (S754_finite false p 0) (S754_finite false q 0)
  | Zneg p, Zpos q => div (S754_finite true p 0) (S754_finite false q 0)
  | Zpos p, Zneg q => div (S754_finite false p 0) (S754_finite true q 0)
  | Zneg p, Zneg q => div (S754_finite true p 0) (S754_finite true q 0)
  end.

(** The integer part of a float, truncated towards zero (C [modf]). *)
Definition trunc (x : float) : option Z :=
  match x with
  | S754_zero _ => Some 0
  | S754_finite s m e =>
      let a := match e with
               | Zneg k => Z.shiftr (Zpos m) (Zpos k)
               | _ => Z.shiftl (Zpos m) e
               end in
      Some (if s then - a else a)
  | _ => None
  end.

(** The fractional part of a float, with the sign of the float; it is
    always representable (C [modf]). *)
Definition frac (x : float) : float :=
  match x with
  | S754_finite s m (Zneg k) =>
      let r := Z.land (Zpos m) (Z.ones (Zpos k)) in
      binary_normalize prec emax (if s then - r else r) (Zneg k) s
  | S754_finite s _ _ => S754_zero s
  | S754_zero s => S754_zero s
  | S754_infinity s => S754_zero s
  | S754_nan => S754_nan
  end.

Definition half : float := of_ratio 1 2.

End F64.

Abbreviation float := F64.float.

(** ** Python values, exceptions and results *)

Inductive exn : Type :=
  | TypeError
  | ValueError
  | OverflowError
  | ZeroDivisionError
  | IndexError.

Inductive result (A : Type) : Type :=
  | Ok (a : A)
  | Raise (e : exn).

Arguments Ok {A} a.
Arguments Raise {A} e.

#[global] Instance result_ret : MRet result := fun A a => Ok a.
#[global] Instance result_bind : MBind result := fun A B k c =>
  match c with
  | Ok a => k a
  | Raise e => Raise e
  end.

(** A number or a string, as a JSON-serialisable metric value: Python keeps
    the literal [0] of a guard (an [int]) apart from a computed [float]. *)
Inductive pyval : Type :=
  | PyInt (z : Z)
  | PyFloat (f : float)
  | PyStr (s : string).

(** [x > 0] and [x != 0] on a Python number. *)
Definition py_gt0 (v : pyval) : bool :=
  match v with
  | PyInt z => 0 <? z
  | PyFloat f => F64.ltb F64.zero f
  | PyStr _ => false
  end.

Definition py_ne0 (v : pyval) : bool :=
  match v with
  | PyInt z => negb (z =? 0)
  | PyFloat f => negb (F64.eqb f F64.zero)
  | PyStr _ => true
  end.

(** The float a number becomes when it meets a float in arithmetic. *)
Definition as_float (v : pyval) : float :=
  match v with
  | PyInt z => F64.of_Z z
  | PyFloat f => f
  | PyStr _ => F64.nan
  end.

(** [a / b] on Python ints: the exact quotient rounded once to binary64; a
    zero divisor raises [ZeroDivisionError], a quotient beyond the binary64
    range raises [OverflowError]. *)
Definition int_truediv (a b : Z) : result float :=
  if b =? 0 then Raise ZeroDivisionError
  else
    match F64.of_ratio a b with
    | S754_infinity _ => Raise OverflowError
    | q => Ok q
    end.

(** A timestamp as [itertuples] hands it out: a Python [int] from an int64
    column, a Python [float] from a float64 column. A value that is missing
    in a column makes the column float64 and is NaN there. *)
Inductive number : Type :=
  | Int (z : Z)
  | Float (f : float).

(** An int that meets a float is converted, and an int beyond the binary64
    range raises [OverflowError]. *)
Definition float_of_int (z : Z) : result float :=
  match F64.of_Z z with
  | S754_infinity _ => Raise OverflowError
  | q => Ok q
  end.

Definition to_float (x : number) : result float :=
  match x with
  | Int z => float_of_int z
  | Float f => Ok f
  end.

(** [x - y] and [x + y] on Python numbers: exact on two ints, binary64
    otherwise. *)
Definition py_sub (x y : number) : result number :=
  match x, y with
  | Int a, Int b => Ok (Int (a - b))
  | _, _ => a ← to_float x; b ← to_float y; Ok (Float (F64.sub a b))
  end.

Definition py_add (x y : number) : result number :=
  match x, y with
  | Int a, Int b => Ok (Int (a + b))
  | _, _ => a ← to_float x; b ← to_float y; Ok (Float (F64.add a b))
  end.

(** The builtin [sum]: the items are added from left to right, starting
    from the int [0]. (From CPython 3.12 on a sum of floats carries a
    compensation term as well; it is zero as long as the additions are
    exact, and it leaves a sum with a NaN as it is.) *)
Fixpoint sum_from (acc : number) (xs : list number) : result number :=
  match xs with
  | [] => Ok acc
  | x :: rest => acc' ← py_add acc x; sum_from acc' rest
  end.

Definition py_sum (xs : list number) : result number := sum_from (Int 0) xs.

(** [x / n] for a Python number and an int. *)
Definition py_truediv (x : number) (n : Z) : result float :=
  match x with
  | Int a => int_truediv a n
  | Float f =>
      b ← float_of_int n;
      if n =? 0 then Raise ZeroDivisionError else Ok (F64.div f b)
  end.

(** ** Data model *)

(** The two constants of the [MetaTrader5] package that the engine compares
    the [entry] column with. *)
Module mt5.
Definition ORDER_TYPE_BUY : Z := 0.
Definition ORDER_TYPE_SELL : Z := 1.
End mt5.

(** One row of [trades_df], as [itertuples] yields it. A timestamp is
    [None] when the frame has no such column, so that [hasattr] fails on the
    row. The rows of one [DataFrame] are instances of one class: a column is
    there for all rows or for none. In a column that is there a row holds a
    number, seconds since the epoch, and a row whose value is missing holds
    the float NaN. *)
Record deal : Type := Deal {
  profit : float;
  volume : float;
  entry : Z;
  time_setup : option number;
  time_update : option number
}.

Module Account.
Record t : Type := Make {
  balance : float;
  equity : float;
  profit : float;
  margin_level : float
}.
End Account.

Record metric : Type := Metric {
  name : string;
  value : pyval;
  isCustom : bool
}.

Module Metrics.
Record t : Type := Make {
  default : list metric;
  custom : list metric
}.
End Metrics.

(** ** pandas reductions over a float64 column *)

Definition len {A : Type} (l : list A) : Z := Z.of_nat (length l).

Definition df_empty {A : Type} (df : list A) : bool :=
  match df with [] => true | _ => false end.

(** numpy adds the cells of a float64 array pairwise. Up to 7 cells are
    added in row order. From 8 cells on, eight accumulators take every
    eighth cell each, are added up two by two, and the cells left over
    after the last full group of eight are added in row order. Above 128
    cells the array is cut in two, the first part a multiple of eight
    long, and the sums of the two parts are added. *)
Record lanes : Type := Lanes {
  lane0 : float; lane1 : float; lane2 : float; lane3 : float;
  lane4 : float; lane5 : float; lane6 : float; lane7 : float
}.

Fixpoint unrolled (r : lanes) (a : list float) : lanes * list float :=
  match a with
  | a0 :: a1 :: a2 :: a3 :: a4 :: a5 :: a6 :: a7 :: rest =>
      unrolled
        (Lanes (F64.add (lane0 r) a0) (F64.add (lane1 r) a1)
               (F64.add (lane2 r) a2) (F64.add (lane3 r) a3)
               (F64.add (lane4 r) a4) (F64.add (lane5 r) a5)
               (F64.add (lane6 r) a6) (F64.add (lane7 r) a7))
        rest
  | _ => (r, a)
  end.

(** The sum of at most [PW_BLOCKSIZE] cells. The short loop starts from a
    negative zero, which keeps the sign of a sum of negative zeros. *)
Definition block_sum (a : list float) : float :=
  match a with
  | a0 :: a1 :: a2 :: a3 :: a4 :: a5 :: a6 :: a7 :: rest =>
      let '(r, tail) := unrolled (Lanes a0 a1 a2 a3 a4 a5 a6 a7) rest in
      fold_left F64.add tail
        (F64.add (F64.add (F64.add (lane0 r) (lane1 r))
                          (F64.add (lane2 r) (lane3 r)))
                 (F64.add (F64.add (lane4 r) (lane5 r))
                          (F64.add (lane6 r) (lane7 r))))
  | _ => fold_left F64.add a F64.neg_zero
  end.

Definition PW_BLOCKSIZE : nat := 128.

(** [depth] bounds the number of cuts; the length of the array is enough
    ([pairwise_sum_cut] below). *)
Fixpoint pairwise_sum_upto (depth : nat) (a : list float) : float :=
  match depth with
  | O => block_sum a
  | S depth' =>
      let n := length a in
      if (n <=? PW_BLOCKSIZE)%nat then block_sum a
      else
        let n2 := (Nat.div n 2 - Nat.modulo (Nat.div n 2) 8)%nat in
        F64.add (pairwise_sum_upto depth' (take n2 a))
                (pairwise_sum_upto depth' (drop n2 a))
  end.

Definition pairwise_sum (a : list float) : float :=
  pairwise_sum_upto (length a) a.

(** [Series.sum()]: missing cells (NaN) count as zero, and numpy adds the
    pairwise sum of the cells to the initial value [0.0]; the sum of no
    cell is [0.0]. *)
Definition series_sum (xs : list float) : float :=
  F64.add F64.zero
    (pairwise_sum (map (fun x => if F64.is_nan x then F64.zero else x) xs)).

(** A property of all eight accumulators. *)
Definition lanes_all (P : float -> Prop) (r : lanes) : Prop :=
  P (lane0 r) /\ P (lane1 r) /\ P (lane2 r) /\ P (lane3 r)
  /\ P (lane4 r) /\ P (lane5 r) /\ P (lane6 r) /\ P (lane7 r).

Definition series_count (xs : list float) : Z :=
  len (List.filter (fun x => negb (F64.is_nan x)) xs).

(** [Series.mean()]: the sum over the number of cells that are present. *)
Definition series_mean (xs : list float) : float :=
  F64.div (series_sum xs) (F64.of_Z (series_count xs)).

Definition fmax (a b : float) : float := if F64.ltb a b then b else a.
Definition fmin (a b : float) : float := if F64.ltb b a then b else a.

(** [Series.max()] and [Series.min()] over the cells that are present; NaN
    when there is none. *)
Definition series_max (xs : list float) : float :=
  match List.filter (fun x => negb (F64.is_nan x)) xs with
  | [] => F64.nan
  | x :: r => fold_left fmax r x
  end.

Definition series_min (xs : list float) : float :=
  match List.filter (fun x => negb (F64.is_nan x)) xs with
  | [] => F64.nan
  | x :: r => fold_left fmin r x
  end.

(** ** [datetime.timedelta] *)

(** ["%0wd"] on a non-negative integer. *)
Fixpoint zeros (n : nat) : string :=
  match n with
  | O => EmptyString
  | S n' => String "0" (zeros n')
  end.

Definition zero_pad (w : nat) (s : string) : string :=
  zeros (w - String.length s) +:+ s.

Definition fmt_d (z : Z) : string := pretty z.
Definition fmt_02d (z : Z) : string := zero_pad 2 (pretty z).
Definition fmt_06d (z : Z) : string := zero_pad 6 (pretty z).

(** [s.split('.')[0]]: the text before the first dot. *)
Fixpoint before_dot (s : string) : string :=
  match s with
  | EmptyString => EmptyString
  | String c r =>
      if Ascii.eqb c "." then EmptyString else String c (before_dot r)
  end.

Module timedelta.

Record t : Type := Make {
  days : Z;
  seconds : Z;
  microseconds : Z
}.

Definition MAX_DELTA_DAYS : Z := 999999999.

(** The microseconds of [timedelta(seconds=x)] before normalisation: the
    whole seconds are scaled exactly, the fraction is scaled in binary64,
    and what is left below one microsecond is rounded half to even. *)
Definition total_microseconds (x : float) : result Z :=
  match F64.trunc x with
  | None => Raise (if F64.is_nan x then ValueError else OverflowError)
  | Some intpart =>
      let fracpart := F64.frac x in
      let sum := intpart * 1000000 in
      if F64.eqb fracpart F64.zero then Ok sum
      else
        let dnum := F64.mul (F64.of_Z 1000000) fracpart in
        let y := sum + default 0 (F64.trunc dnum) in
        let leftover_us := F64.frac dnum in
        let toward := if F64.ltb leftover_us F64.zero then -1 else 1 in
        let whole_us :=
          match F64.compare (F64.abs leftover_us) F64.half with
          | Some Gt => toward
          | Some Eq => if Z.odd y then toward else 0
          | _ => 0
          end in
        Ok (y + whole_us)
  end.

(** Normalisation into days, seconds of the day and microseconds of the
    second, with the range check on the days. *)
Definition microseconds_to_delta (us : Z) : result t :=
  let s := us `div` 1000000 in
  let d := s `div` 86400 in
  if (Z.leb (- MAX_DELTA_DAYS) d && Z.leb d MAX_DELTA_DAYS)%bool
  then Ok (Make d (s `mod` 86400) (us `mod` 1000000))
  else Raise OverflowError.

Definition of_seconds (x : float) : result t :=
  us ← total_microseconds x; microseconds_to_delta us.

(** [str(delta)]. *)
Definition str (delta : t) : string :=
  let us := microseconds delta in
  let minutes := seconds delta `div` 60 in
  let secs := seconds delta `mod` 60 in
  let hours := minutes `div` 60 in
  let mins := minutes `mod` 60 in
  let clock := fmt_d hours +:+ ":" +:+ fmt_02d mins +:+ ":" +:+ fmt_02d secs in
  let clock_us := if (us =? 0)%Z then clock else clock +:+ "." +:+ fmt_06d us in
  if (days delta =? 0)%Z then clock_us
  else
    fmt_d (days delta) +:+ " day"
      +:+ (if ((days delta =? 1) || (days delta =? -1))%Z then "" else "s")
      +:+ ", " +:+ clock_us.

End timedelta.

(** ** The metrics engine: [calculate_metrics] *)

#[global] Instance result_fmap : FMap result := fun A B f c =>
  match c with
  | Ok a => Ok (f a)
  | Raise e => Raise e
  end.

Definition hundred : float := F64.of_Z 100.

(** [k / n * 100] on two counts: an int division, then a float product.
    The quotient of a count by the total lies in the unit interval, so the
    division cannot raise ([int_truediv_count] below). *)
Definition percentage (k n : Z) : float :=
  F64.mul (F64.of_ratio k n) hundred.

(** [[(trade.time_update - trade.time_setup) for trade in rows if
    hasattr(trade, 'time_update') and hasattr(trade, 'time_setup')]]: the
    rows kept are those on which both [hasattr] tests succeed. *)
Fixpoint durations_of (rows : list deal) : result (list number) :=
  match rows with
  | [] => Ok []
  | trade :: rest =>
      match time_update trade, time_setup trade with
      | Some u, Some s =>
          d ← py_sub u s; ds ← durations_of rest; Ok (d :: ds)
      | _, _ => durations_of rest
      end
  end.

(** [sum(durations) / len(durations) if durations else 0] *)
Definition mean_or_zero (durations : list number) : result pyval :=
  if negb (df_empty durations)
  then total ← py_sum durations;
       PyFloat <$> py_truediv total (len durations)
  else Ok (PyInt 0).

Section Engine.

Variable trades_df : list deal.
Variable account_info : Account.t.

Definition profitable_trades : list deal :=
  List.filter (fun t => F64.ltb F64.zero (profit t)) trades_df.

Definition losing_trades : list deal :=
  List.filter (fun t => F64.ltb (profit t) F64.zero) trades_df.

Definition total_trades : Z := len trades_df.

Definition lots : pyval :=
  if negb (df_empty trades_df)
  then PyFloat (series_sum (map volume trades_df))
  else PyInt 0.

Definition win_rate : pyval :=
  if 0 <? total_trades
  then PyFloat (percentage (len profitable_trades) total_trades)
  else PyInt 0.

Definition loss_rate : pyval :=
  if 0 <? total_trades
  then PyFloat (percentage (len losing_trades) total_trades)
  else PyInt 0.

Definition gross_profit : float :=
  series_sum (map profit profitable_trades).

Definition gross_loss : float :=
  F64.abs (series_sum (map profit losing_trades)).

Definition profit_factor : pyval :=
  if F64.ltb F64.zero gross_loss
  then PyFloat (F64.div gross_profit gross_loss)
  else PyInt 0.

Definition best_trade : pyval :=
  if negb (df_empty profitable_trades)
  then PyFloat (series_max (map profit profitable_trades))
  else PyInt 0.

Definition worst_trade : pyval :=
  if negb (df_empty losing_trades)
  then PyFloat (series_min (map profit losing_trades))
  else PyInt 0.

Definition long_trades : list deal :=
  List.filter (fun t => entry t =? mt5.ORDER_TYPE_BUY) trades_df.

Definition short_trades : list deal :=
  List.filter (fun t => entry t =? mt5.ORDER_TYPE_SELL) trades_df.

Definition long_won : pyval :=
  if 0 <? len long_trades
  then PyFloat
         (percentage
            (len (List.filter (fun t => F64.ltb F64.zero (profit t)) long_trades))
            (len long_trades))
  else PyInt 0.

Definition short_won : pyval :=
  if 0 <? len short_trades
  then PyFloat
         (percentage
            (len (List.filter (fun t => F64.ltb F64.zero (profit t)) short_trades))
            (len short_trades))
  else PyInt 0.

Definition trade_durations : result (list number) := durations_of trades_df.

Definition avg_duration_seconds : result pyval :=
  durations ← trade_durations;
  mean_or_zero durations.

Definition avg_duration_hours : result string :=
  avg ← avg_duration_seconds;
  if py_gt0 avg
  then (fun d => before_dot (timedelta.str d))
         <$> timedelta.of_seconds (as_float avg)
  else Ok "0h".

Definition avg_profit_per_trade : pyval :=
  if negb (df_empty profitable_trades)
  then PyFloat (series_mean (map profit profitable_trades))
  else PyInt 0.

Definition avg_loss_per_trade : pyval :=
  if negb (df_empty losing_trades)
  then PyFloat (series_mean (map profit losing_trades))
  else PyInt 0.

Definition avg_rrr : pyval :=
  if py_ne0 avg_loss_per_trade
  then PyFloat (F64.div (F64.abs (as_float avg_profit_per_trade))
                        (F64.abs (as_float avg_loss_per_trade)))
  else PyInt 0.

Definition custom_roi : pyval :=
  if F64.ltb F64.zero (Account.balance account_info)
  then PyFloat (F64.mul (F64.div (Account.profit account_info)
                                 (Account.balance account_info)) hundred)
  else PyInt 0.

Definition equity_to_balance : pyval :=
  if F64.ltb F64.zero (Account.balance account_info)
  then PyFloat (F64.mul (F64.div (Account.equity account_info)
                                 (Account.balance account_info)) hundred)
  else PyInt 0.

Definition margin_level_metric : pyval :=
  if F64.ltb F64.zero (Account.margin_level account_info)
  then PyFloat (Account.margin_level account_info)
  else PyInt 0.

Definition calculate_metrics : result Metrics.t :=
  if df_empty trades_df then
    Ok {| Metrics.default := [
            Metric "Lots" (PyInt 0) false;
            Metric "Avg. RRR" (PyInt 0) false;
            Metric "Win Rate" (PyInt 0) false;
            Metric "Loss Rate" (PyInt 0) false;
            Metric "Profit Factor" (PyInt 0) false;
            Metric "Best Trade" (PyInt 0) false;
            Metric "Worst Trade" (PyInt 0) false;
            Metric "Long Won" (PyInt 0) false;
            Metric "Short Won" (PyInt 0) false;
            Metric "Gross Profit" (PyInt 0) false;
            Metric "Gross Loss" (PyInt 0) false;
            Metric "Average Trade Duration" (PyStr "0h") false;
            Metric "Average Profit per Trade" (PyInt 0) false;
            Metric "Average Loss per Trade" (PyInt 0) false ];
          Metrics.custom := [
            Metric "Custom ROI" custom_roi true ] |}
  else
    duration ← avg_duration_hours;
    Ok {| Metrics.default := [
            Metric "Lots" lots false;
            Metric "Avg. RRR" avg_rrr false;
            Metric "Win Rate" win_rate false;
            Metric "Loss Rate" loss_rate false;
            Metric "Profit Factor" profit_factor false;
            Metric "Best Trade" best_trade false;
            Metric "Worst Trade" worst_trade false;
            Metric "Long Won" long_won false;
            Metric "Short Won" short_won false;
            Metric "Gross Profit" (PyFloat gross_profit) false;
            Metric "Gross Loss" (PyFloat gross_loss) false;
            Metric "Average Trade Duration" (PyStr duration) false;
            Metric "Average Profit per Trade" avg_profit_per_trade false;
            Metric "Average Loss per Trade" avg_loss_per_trade false ];
          Metrics.custom := [
            Metric "Custom ROI" custom_roi true;
            Metric "Equity to Balance Ratio" equity_to_balance true;
            Metric "Margin Level" margin_level_metric true ] |}.

End Engine.

(** The value of the metric called [n] in a list of metrics. *)
Definition lookup_metric (n : string) (ms : list metric) : option pyval :=
  value <$> List.find (fun m => String.eqb (name m) n) ms.

(** ** Predicates used in the statements *)

(** [x >= 0] on floats: a zero of either sign, a positive number or plus
    infinity. *)
Definition nonneg (x : float) : bool :=
  match x with
  | S754_zero _ => true
  | S754_infinity s => negb s
  | S754_finite s _ _ => negb s
  | S754_nan => false
  end.

Definition nonpos (x : float) : bool :=
  match x with
  | S754_zero _ => true
  | S754_infinity s => s
  | S754_finite s _ _ => s
  | S754_nan => false
  end.

(** [|x| < 2^k]: [x] is a zero or a finite float below that power of two. *)
Definition below (k : Z) (x : float) : Prop :=
  match x with
  | S754_zero _ => True
  | S754_finite _ m e => Zdigits2 (Zpos m) + e <= k
  | _ => False
  end.

(** [v >= 0] and [v == 0] on a Python number. *)
Definition py_ge0 (v : pyval) : bool :=
  match v with
  | PyInt z => 0 <=? z
  | PyFloat f => F64.leb F64.zero f
  | PyStr _ => false
  end.

Definition py_eq0 (v : pyval) : bool :=
  match v with
  | PyInt z => z =? 0
  | PyFloat f => F64.eqb f F64.zero
  | PyStr _ => false
  end.

(** The names of the default metrics, in the order of the source. *)
Definition default_names : list string :=
  [ "Lots"; "Avg. RRR"; "Win Rate"; "Loss Rate"; "Profit Factor";
    "Best Trade"; "Worst Trade"; "Long Won"; "Short Won"; "Gross Profit";
    "Gross Loss"; "Average Trade Duration"; "Average Profit per Trade";
    "Average Loss per Trade" ].

(** ** Concrete inputs used in examples *)

Module Scenario.

(** [[{profit: 100, volume: 1, entry: BUY}, {profit: -50, volume: 2,
    entry: SELL}]] and [{balance: 1000, equity: 1050, profit: 50,
    margin_level: 200}]. *)
Definition records : list deal :=
  [ Deal (F64.of_Z 100) (F64.of_Z 1) mt5.ORDER_TYPE_BUY None None;
    Deal (F64.of_Z (-50)) (F64.of_Z 2) mt5.ORDER_TYPE_SELL None None ].

Definition account : Account.t :=
  Account.Make (F64.of_Z 1000) (F64.of_Z 1050) (F64.of_Z 50) (F64.of_Z 200).

Definition no_metrics : Metrics.t := Metrics.Make [] [].

Definition run (rs : list deal) (a : Account.t) : Metrics.t :=
  match calculate_metrics rs a with
  | Ok m => m
  | Raise _ => no_metrics
  end.

Definition result : Metrics.t := Eval vm_compute in run records account.

(** One winning deal and no losing deal. *)
Definition one_win : list deal :=
  [ Deal (F64.of_Z 100) (F64.of_Z 1) mt5.ORDER_TYPE_BUY None None ].

Definition one_win_result : Metrics.t := Eval vm_compute in run one_win account.

Definition empty_result : Metrics.t := Eval vm_compute in run [] account.

End Scenario.

(** ** Exact values of floats *)

(** The rational number a finite float stands for. *)
Definition to_Q (x : float) : option Q :=
  match x with
  | S754_zero _ => Some 0%Q
  | S754_finite s m e =>
      Some (inject_Z (if s then Zneg m else Zpos m) * Qpower 2 e)%Q
  | _ => None
  end.

(** The exact sum of [a] and [b] compared with [c]. *)
Definition exact_sum_cmp (a b c : float) : option comparison :=
  match to_Q a, to_Q b, to_Q c with
  | Some qa, Some qb, Some qc => Some (Qcompare (qa + qb) qc)
  | _, _, _ => None
  end.

(** Record sets on which the two rates do not add up to 100. *)
Module Rounding.

Definition win : deal :=
  Deal (F64.of_Z 1) (F64.of_Z 1) mt5.ORDER_TYPE_BUY None None.
Definition loss : deal :=
  Deal (F64.of_Z (-1)) (F64.of_Z 1) mt5.ORDER_TYPE_SELL None None.

(** Two winning and nine losing deals. *)
Definition eleven : list deal := replicate 2 win ++ replicate 9 loss.

(** One winning and two losing deals. *)
Definition three : list deal := win :: replicate 2 loss.

End Rounding.

(** A deal that belongs to neither the profitable nor the losing subset. *)
Definition flat (t : deal) : bool :=
  negb (F64.ltb F64.zero (profit t)) && negb (F64.ltb (profit t) F64.zero).

(** ** Wording of the duration metric *)

(** A row of a frame that has both timestamp columns. *)
Definition has_both (t : deal) : bool :=
  match time_update t, time_setup t with
  | Some _, Some _ => true
  | _, _ => false
  end.

(** A row whose timestamps, where it has them, are whole seconds (the
    cells of int64 columns). *)
Definition whole (t : deal) : bool :=
  match time_update t, time_setup t with
  | Some (Float _), _ | _, Some (Float _) => false
  | _, _ => true
  end.

Definition seconds (x : option number) : Z :=
  match x with
  | Some (Int z) => z
  | _ => 0
  end.

(** The duration of a row in whole seconds, and the durations of the rows
    of a frame with both columns. *)
Definition duration (t : deal) : Z :=
  seconds (time_update t) - seconds (time_setup t).

Definition int_durations (rs : list deal) : list Z :=
  map duration (List.filter has_both rs).

(** A row of a frame that has both timestamp columns, one of them at
    least float64; the cells of an int64 column are 64-bit integers. *)
Definition floating (t : deal) : bool := has_both t && negb (whole t).

Definition int64 (x : option number) : bool :=
  match x with
  | Some (Int z) => Z.abs z <? 2 ^ 63
  | _ => true
  end.

(** The duration of a row of such a frame, and a row with a timestamp that
    is missing. *)
Definition float_of (x : option number) : float :=
  match x with
  | Some (Float f) => f
  | Some (Int z) => F64.of_Z z
  | None => F64.nan
  end.

Definition float_duration (t : deal) : float :=
  F64.sub (float_of (time_update t)) (float_of (time_setup t)).

Definition lacks_timestamp (t : deal) : bool :=
  F64.is_nan (float_of (time_update t)) || F64.is_nan (float_of (time_setup t)).

(** [H:MM:SS] for a whole number of seconds, the hours unbounded. *)
Definition hms (s : Z) : string :=
  fmt_d (s `div` 3600) +:+ ":" +:+ fmt_02d ((s `div` 60) `mod` 60)
    +:+ ":" +:+ fmt_02d (s `mod` 60).

(** ["D day, "] or ["D days, "]. *)
Definition day_prefix (d : Z) : string :=
  fmt_d d +:+ " day" +:+ (if (d =? 1) || (d =? -1) then "" else "s") +:+ ", ".

(** The text for a whole number of seconds: [H:MM:SS] below one day, the
    days in front from one day on. *)
Definition duration_text (s : Z) : string :=
  if s <? 86400 then hms s
  else day_prefix (s `div` 86400) +:+ hms (s `mod` 86400).

(** A string without a dot. *)
Fixpoint dotless (s : string) : bool :=
  match s with
  | EmptyString => true
  | String c r => negb (Ascii.eqb c ".") && dotless r
  end.

(** One deal that stays open for 90000 seconds, 25 hours. *)
Definition day_long : list deal :=
  [ Deal (F64.of_Z 100) (F64.of_Z 1) mt5.ORDER_TYPE_BUY
         (Some (Int 1700000000)) (Some (Int 1700090000)) ].

(** Two deals that stay open for 5400 seconds each. *)
Definition ninety_minutes : list deal :=
  [ Deal (F64.of_Z 100) (F64.of_Z 1) mt5.ORDER_TYPE_BUY
         (Some (Int 1700000000)) (Some (Int 1700005400));
    Deal (F64.of_Z (-50)) (F64.of_Z 2) mt5.ORDER_TYPE_SELL
         (Some (Int 1700000600)) (Some (Int 1700006000)) ].

(** The first deal of [ninety_minutes] and a deal without timestamps in one
    frame: the two columns are float64 and the cells of the second row are
    NaN. *)
Definition one_missing : list deal :=
  [ Deal (F64.of_Z 100) (F64.of_Z 1) mt5.ORDER_TYPE_BUY
         (Some (Float (F64.of_Z 1700000000)))
         (Some (Float (F64.of_Z 1700005400)));
    Deal (F64.of_Z (-50)) (F64.of_Z 2) mt5.ORDER_TYPE_SELL
         (Some (Float F64.nan)) (Some (Float F64.nan)) ].

(** One deal whose timestamps are 10^14 seconds apart. *)
Definition aeon : list deal :=
  [ Deal (F64.of_Z 100) (F64.of_Z 1) mt5.ORDER_TYPE_BUY
         (Some (Int 0)) (Some (Int 100000000000000)) ].

(** ** The HTTP layer: [POST /connect] *)

(** A JSON value of the request body; [JNull] is Python's [None]. *)
#[local] Unset Elimination Schemes.
Inductive json : Type :=
  | JNull
  | JBool (b : bool)
  | JInt (z : Z)
  | JFloat (f : float)
  | JStr (s : string)
  | JArray (items : list json)
  | JObject (fields : list (string * json)).
#[local] Set Elimination Schemes.

(** [data.get(key)] and [data.get(key, fallback)] on the body. *)
Definition dict_get (data : gmap string json) (key : string) : json :=
  default JNull (data !! key).

Definition dict_get_or (data : gmap string json) (key : string) (fallback : json)
  : json :=
  default fallback (data !! key).

(** Truth value of a Python object. *)
Definition truthy (v : json) : bool :=
  match v with
  | JNull => false
  | JBool b => b
  | JInt z => negb (z =? 0)
  | JFloat f => negb (F64.eqb f F64.zero)
  | JStr s => negb (String.eqb s "")
  | JArray items => negb (df_empty items)
  | JObject fields => negb (df_empty fields)
  end.

Definition py_all (vs : list json) : bool := forallb truthy vs.

Inductive reply : Type :=
  | Failure (error : string)
  | Success (metrics : Metrics.t)
  | Plain
  | InternalServerError.

Record response : Type := Response {
  status : Z;
  body : reply
}.

(** Calls into the terminal, as the session sees them. *)
Inductive mt5_call : Type :=
  | Shutdown
  | Initialize (path : json) (login : Z) (password server : json)
  | LastError
  | AccountInfo
  | HistoryDealsGet.

Section Gateway.

(** The terminal is an external collaborator: its state and its answers
    are parameters. *)
Variable terminal : Type.
Variable mt5_shutdown : terminal -> terminal.
Variable mt5_initialize : json -> Z -> json -> json -> terminal -> bool * terminal.
Variable mt5_last_error : terminal -> string.
Variable mt5_account_info : terminal -> option Account.t.
Variable mt5_history_deals_get : terminal -> option (list deal).

(** [int(text)], the parser of Python's builtin. *)
Variable int_of_str : string -> result Z.

(** The process-wide session: the terminal and the calls made so far. *)
Record session : Type := Session {
  term : terminal;
  calls : list mt5_call
}.

Definition handler (A : Type) : Type := session -> result A * session.

#[local] Instance handler_ret : MRet handler := fun A a s => (Ok a, s).
#[local] Instance handler_bind : MBind handler := fun A B k c s =>
  match c s with
  | (Ok a, s') => k a s'
  | (Raise e, s') => (Raise e, s')
  end.

Definition lift {A : Type} (r : result A) : handler A := fun s => (r, s).

Definition shutdown : handler unit := fun s =>
  (Ok tt, Session (mt5_shutdown (term s)) (calls s ++ [Shutdown])).

Definition initialize (path : json) (login : Z) (password server : json)
  : handler bool := fun s =>
  let '(ok, t) := mt5_initialize path login password server (term s) in
  (Ok ok, Session t (calls s ++ [Initialize path login password server])).

Definition last_error : handler string := fun s =>
  (Ok (mt5_last_error (term s)), Session (term s) (calls s ++ [LastError])).

Definition account_info : handler (option Account.t) := fun s =>
  (Ok (mt5_account_info (term s)), Session (term s) (calls s ++ [AccountInfo])).

Definition history_deals_get : handler (option (list deal)) := fun s =>
  (Ok (mt5_history_deals_get (term s)),
   Session (term s) (calls s ++ [HistoryDealsGet])).

(** [int(x)] on a value of the body. *)
Definition py_int (v : json) : result Z :=
  match v with
  | JNull => Raise TypeError
  | JBool b => Ok (if b then 1 else 0)
  | JInt z => Ok z
  | JFloat f =>
      match F64.trunc f with
      | Some z => Ok z
      | None => Raise (if F64.is_nan f then ValueError else OverflowError)
      end
  | JStr s => int_of_str s
  | JArray _ | JObject _ => Raise TypeError
  end.

Definition default_path : string :=
  "C:\Users\Administrator\AppData\Roaming\MetaTrader 5\terminal64.exe".

Definition MISSING : string := "Missing required credentials".

Definition connect_mt5 (data : gmap string json) : handler response :=
  login ← lift (py_int (dict_get data "login"));
  let password := dict_get data "password" in
  let server := dict_get data "server" in
  let path := dict_get_or data "path" (JStr default_path) in
  if negb (py_all [JInt login; password; server])
  then mret (Response 400 (Failure MISSING))
  else
    _ ← shutdown;
    ok ← initialize path login password server;
    if negb ok then
      error ← last_error;
      mret (Response 400 (Failure error))
    else
      account ← account_info;
      match account with
      | None =>
          error ← last_error;
          _ ← shutdown;
          mret (Response 400 (Failure error))
      | Some account =>
          history ← history_deals_get;
          trades_df ← lift (match history with
                            | None => Ok []
                            | Some [] => Raise IndexError
                            | Some rows => Ok rows
                            end);
          metrics ← lift (calculate_metrics trades_df account);
          _ ← shutdown;
          mret (Response 200 (Success metrics))
      end.

Definition shutdown_mt5 : handler response :=
  _ ← shutdown; mret (Response 200 Plain).

(** What the client receives: an exception that leaves a view becomes the
    framework's 500 answer. *)
Definition served (r : result response) : response :=
  match r with
  | Ok resp => resp
  | Raise _ => Response 500 InternalServerError
  end.

End Gateway.

(** The rows the handler hands to the engine. *)
Definition frame_of (history : option (list deal)) : result (list deal) :=
  match history with
  | None => Ok []
  | Some [] => Raise IndexError
  | Some rows => Ok rows
  end.

(** A body with a password and a server and without a login. *)
Definition no_login : gmap string json :=
  {[ "password" := JStr "secret"; "server" := JStr "Demo-Server" ]}.

(** A body with a login and a server and without a password. *)
Definition no_password : gmap string json :=
  {[ "login" := JInt 12345; "server" := JStr "Demo-Server" ]}.

(** ** The engine over a store of frame objects

    [trades_df] is a reference to a [DataFrame] object. Indexing a frame by
    a boolean mask builds a new frame object; every other operation of the
    engine reads. The engine is written once more with the objects
    explicit, so that what it does to its argument can be stated. *)

Module Store.

Definition prog (A : Type) : Type :=
  gmap positive (list deal) -> A * gmap positive (list deal).

#[global] Instance prog_ret : MRet prog := fun A a sigma => (a, sigma).
#[global] Instance prog_bind : MBind prog := fun A B k c sigma =>
  let '(a, sigma') := c sigma in k a sigma'.

Definition rows (df : positive) (sigma : gmap positive (list deal)) : list deal :=
  default [] (sigma !! df).

(** [df.empty] *)
Definition empty (df : positive) : prog bool := fun sigma =>
  (df_empty (rows df sigma), sigma).

(** [len(df)] *)
Definition length_of (df : positive) : prog Z := fun sigma =>
  (len (rows df sigma), sigma).

(** [df[name]], the cells of one column in row order *)
Definition column (df : positive) (cell : deal -> float) : prog (list float) :=
  fun sigma => (map cell (rows df sigma), sigma).

(** [df[mask]], a new frame with the selected rows in row order *)
Definition getitem_mask (df : positive) (mask : deal -> bool) : prog positive :=
  fun sigma =>
    let new := fresh (dom sigma) in
    (new, <[new := List.filter mask (rows df sigma)]> sigma).

(** [df.itertuples()] *)
Definition itertuples (df : positive) : prog (list deal) := fun sigma =>
  (rows df sigma, sigma).

(** [(len(df[df['profit'] > 0]) / len(df) * 100) if len(df) > 0 else 0] *)
Definition won_share (df : positive) : prog pyval :=
  n ← length_of df;
  if 0 <? n then
    won ← getitem_mask df (fun t => F64.ltb F64.zero (profit t));
    k ← length_of won;
    n' ← length_of df;
    mret (PyFloat (percentage k n'))
  else mret (PyInt 0).

(** [(len(df) / total_trades * 100) if total_trades > 0 else 0] *)
Definition rate (df : positive) (total_trades : Z) : prog pyval :=
  if 0 <? total_trades then
    k ← length_of df;
    mret (PyFloat (percentage k total_trades))
  else mret (PyInt 0).

(** [df[name].reduce() if not df.empty else 0] *)
Definition reduce_or_zero (df : positive) (cell : deal -> float)
    (reduce : list float -> float) : prog pyval :=
  is_empty ← empty df;
  if negb is_empty then
    cells ← column df cell;
    mret (PyFloat (reduce cells))
  else mret (PyInt 0).

Definition calculate_metrics (trades_df : positive) (account_info : Account.t)
  : prog (result Metrics.t) :=
  is_empty ← empty trades_df;
  if (is_empty : bool) then
    (mret (Ok {| Metrics.default := [
            Metric "Lots" (PyInt 0) false;
            Metric "Avg. RRR" (PyInt 0) false;
            Metric "Win Rate" (PyInt 0) false;
            Metric "Loss Rate" (PyInt 0) false;
            Metric "Profit Factor" (PyInt 0) false;
            Metric "Best Trade" (PyInt 0) false;
            Metric "Worst Trade" (PyInt 0) false;
            Metric "Long Won" (PyInt 0) false;
            Metric "Short Won" (PyInt 0) false;
            Metric "Gross Profit" (PyInt 0) false;
            Metric "Gross Loss" (PyInt 0) false;
            Metric "Average Trade Duration" (PyStr "0h") false;
            Metric "Average Profit per Trade" (PyInt 0) false;
            Metric "Average Loss per Trade" (PyInt 0) false ];
          Metrics.custom := [
            Metric "Custom ROI" (custom_roi account_info) true ] |})
     : prog (result Metrics.t))
  else
    profitable_trades ←
      getitem_mask trades_df (fun t => F64.ltb F64.zero (profit t));
    losing_trades ←
      getitem_mask trades_df (fun t => F64.ltb (profit t) F64.zero);
    total_trades ← length_of trades_df;
    lots ← reduce_or_zero trades_df volume series_sum;
    win_rate ← rate profitable_trades total_trades;
    loss_rate ← rate losing_trades total_trades;
    won ← column profitable_trades profit;
    let gross_profit := series_sum won in
    lost ← column losing_trades profit;
    let gross_loss := F64.abs (series_sum lost) in
    let profit_factor :=
      if F64.ltb F64.zero gross_loss
      then PyFloat (F64.div gross_profit gross_loss) else PyInt 0 in
    best_trade ← reduce_or_zero profitable_trades profit series_max;
    worst_trade ← reduce_or_zero losing_trades profit series_min;
    long_trades ←
      getitem_mask trades_df (fun t => entry t =? mt5.ORDER_TYPE_BUY);
    short_trades ←
      getitem_mask trades_df (fun t => entry t =? mt5.ORDER_TYPE_SELL);
    long_won ← won_share long_trades;
    short_won ← won_share short_trades;
    tuples ← itertuples trades_df;
    let trade_durations := durations_of tuples in
    let avg_duration_seconds : result pyval :=
      durations ← trade_durations;
      mean_or_zero durations in
    let avg_duration_hours : result string :=
      avg ← avg_duration_seconds;
      if py_gt0 avg
      then (fun d => before_dot (timedelta.str d))
             <$> timedelta.of_seconds (as_float avg)
      else Ok "0h" in
    avg_profit_per_trade ← reduce_or_zero profitable_trades profit series_mean;
    avg_loss_per_trade ← reduce_or_zero losing_trades profit series_mean;
    let avg_rrr :=
      if py_ne0 avg_loss_per_trade
      then PyFloat (F64.div (F64.abs (as_float avg_profit_per_trade))
                            (F64.abs (as_float avg_loss_per_trade)))
      else PyInt 0 in
    mret (
      (duration ← avg_duration_hours;
       Ok {| Metrics.default := [
               Metric "Lots" lots false;
               Metric "Avg. RRR" avg_rrr false;
               Metric "Win Rate" win_rate false;
               Metric "Loss Rate" loss_rate false;
               Metric "Profit Factor" profit_factor false;
               Metric "Best Trade" best_trade false;
               Metric "Worst Trade" worst_trade false;
               Metric "Long Won" long_won false;
               Metric "Short Won" short_won false;
               Metric "Gross Profit" (PyFloat gross_profit) false;
               Metric "Gross Loss" (PyFloat gross_loss) false;
               Metric "Average Trade Duration" (PyStr duration) false;
               Metric "Average Profit per Trade" avg_profit_per_trade false;
               Metric "Average Loss per Trade" avg_loss_per_trade false ];
             Metrics.custom := [
               Metric "Custom ROI" (custom_roi account_info) true;
               Metric "Equity to Balance Ratio"
                      (equity_to_balance account_info) true;
               Metric "Margin Level" (margin_level_metric account_info) true ] |})
      : result Metrics.t).

End Store.

(** ** A small terminal for examples

    Its state says whether it accepts a login, which account it knows and
    which deals it reports; closing it changes nothing. *)

Module Demo.

Record config : Type := Config {
  accepts : bool;
  account : option Account.t;
  history : option (list deal)
}.

Definition shutdown (t : config) : config := t.

Definition initialize (path : json) (login : Z) (password server : json)
    (t : config) : bool * config :=
  (accepts t, t).

Definition last_error (t : config) : string :=
  if accepts t then "(1, 'Success')" else "(-6, 'Terminal: Authorization failed')".

Definition int_of_str (text : string) : result Z :=
  if String.eqb text "12345" then Ok 12345 else Raise ValueError.

Definition connect : gmap string json -> handler config response :=
  connect_mt5 config shutdown initialize last_error account history int_of_str.

Definition start (t : config) : session config := Session config t [].

(** A body with all three credentials and no path. *)
Definition body : gmap string json :=
  {[ "login" := JInt 12345; "password" := JStr "secret";
     "server" := JStr "Demo-Server" ]}.

(** The same body with an empty password. *)
Definition empty_password : gmap string json :=
  {[ "login" := JInt 12345; "password" := JStr "";
     "server" := JStr "Demo-Server" ]}.

(** The same body with a login that is a list. *)
Definition list_login : gmap string json :=
  {[ "login" := JArray [JInt 12345]; "password" := JStr "secret";
     "server" := JStr "Demo-Server" ]}.

Definition good : config :=
  Config true (Some Scenario.account) (Some Scenario.records).
Definition refusing : config :=
  Config false (Some Scenario.account) (Some Scenario.records).
Definition no_account : config := Config true None (Some Scenario.records).
Definition no_deals : config := Config true (Some Scenario.account) (Some []).
Definition no_history : config := Config true (Some Scenario.account) None.
Definition far_apart : config := Config true (Some Scenario.account) (Some aeon).

End Demo.

(** ** More record sets for examples *)

Module Samples.

(** A deal that closed at zero profit. *)
Definition break_even : deal :=
  Deal (F64.of_Z 0) (F64.of_Z 1) mt5.ORDER_TYPE_BUY None None.

(** Two losing deals and nothing else. *)
Definition only_losses : list deal := replicate 2 Rounding.loss.

(** The deals of the scenario in the opposite order. *)
Definition reversed : list deal := rev Scenario.records.

(** The deals of the scenario with a break-even deal between them. *)
Definition with_break_even : list deal :=
  [ Deal (F64.of_Z 100) (F64.of_Z 1) mt5.ORDER_TYPE_BUY None None;
    break_even;
    Deal (F64.of_Z (-50)) (F64.of_Z 2) mt5.ORDER_TYPE_SELL None None ].

End Samples.

(** * Properties *)

(** ** Signs of binary64 sums *)

Lemma leb_zero_nonneg (x : float) : F64.leb F64.zero x = nonneg x.
Proof. by destruct x as [[]|[]| |[] ? ?]. Qed.

Lemma ltb_zero_nonneg (x : float) : F64.ltb F64.zero x = true -> nonneg x = true.
Proof. by destruct x as [[]|[]| |[] ? ?]. Qed.

Lemma ltb_zero_nonpos (x : float) : F64.ltb x F64.zero = true -> nonpos x = true.
Proof. by destruct x as [[]|[]| |[] ? ?]. Qed.

Lemma ltb_zero_not_nan (x : float) :
  F64.ltb F64.zero x = true -> F64.is_nan x = false.
Proof. by destruct x as [[]|[]| |[] ? ?]. Qed.

Lemma ltb_neg_not_nan (x : float) :
  F64.ltb x F64.zero = true -> F64.is_nan x = false.
Proof. by destruct x as [[]|[]| |[] ? ?]. Qed.

Lemma eqb_zero_not_gt (x : float) :
  F64.eqb x F64.zero = true -> F64.ltb F64.zero x = false.
Proof. by destruct x as [[]|[]| |[] ? ?]. Qed.

Lemma leb_zero_not_gt (x : float) :
  F64.leb x F64.zero = true -> F64.ltb F64.zero x = false.
Proof. by destruct x as [[]|[]| |[] ? ?]. Qed.

Lemma abs_nonneg (x : float) : F64.is_nan x = false -> nonneg (F64.abs x) = true.
Proof. by destruct x as [[]|[]| |[] ? ?]. Qed.

Lemma nonpos_not_nan (x : float) : nonpos x = true -> F64.is_nan x = false.
Proof. by destruct x. Qed.

(** Right shifts keep a mantissa non-negative. *)
Lemma shr_1_nonneg (mrs : shr_record) : 0 <= shr_m mrs -> 0 <= shr_m (shr_1 mrs).
Proof.
  destruct mrs as [m r s]; simpl; intros Hm.
  destruct m as [|[p|p|]|p]; simpl; lia.
Qed.

Lemma iter_pos_shr_1_nonneg (p : positive) (mrs : shr_record) :
  0 <= shr_m mrs -> 0 <= shr_m (SpecFloat.iter_pos shr_1 p mrs).
Proof.
  revert mrs; induction p as [p IH|p IH|]; simpl; intros mrs Hm.
  - apply IH, IH, shr_1_nonneg, Hm.
  - apply IH, IH, Hm.
  - apply shr_1_nonneg, Hm.
Qed.

Lemma shr_fexp_nonneg (m e : Z) (l : location) :
  0 <= m -> 0 <= shr_m (fst (shr_fexp F64.prec F64.emax m e l)).
Proof.
  intros Hm. unfold shr_fexp, shr.
  assert (H0 : 0 <= shr_m (shr_record_of_loc m l)) by (by destruct l as [|[]]).
  destruct (fexp F64.prec F64.emax (Zdigits2 m + e) - e) as [|p|p]; simpl; auto.
  by apply iter_pos_shr_1_nonneg.
Qed.

Lemma round_nearest_even_nonneg (m : Z) (l : location) :
  0 <= m -> 0 <= round_nearest_even m l.
Proof.
  intros Hm. destruct l as [|[]]; simpl; try lia.
  destruct (Z.even m); lia.
Qed.

(** Rounding a non-negative mantissa yields a zero, a finite number or an
    infinity of the sign that was asked for, never NaN. *)
Lemma binary_round_aux_sign (s : bool) (m e : Z) (l : location) :
  0 <= m ->
  match binary_round_aux F64.prec F64.emax s m e l with
  | S754_zero s' | S754_infinity s' | S754_finite s' _ _ => s' = s
  | S754_nan => False
  end.
Proof.
  intros Hm. unfold binary_round_aux.
  pose proof (shr_fexp_nonneg m e l Hm) as H1.
  destruct (shr_fexp F64.prec F64.emax m e l) as [mrs' e']; simpl in H1.
  pose proof (round_nearest_even_nonneg (shr_m mrs') (loc_of_shr_record mrs') H1) as H2.
  pose proof (shr_fexp_nonneg _ e' loc_Exact H2) as H3.
  destruct (shr_fexp F64.prec F64.emax _ e' loc_Exact) as [mrs'' e'']; simpl in H3.
  destruct (shr_m mrs'') as [|p|p]; try done; try lia.
  by destruct (e'' <=? F64.emax - F64.prec).
Qed.

Lemma binary_round_sign (s : bool) (m : positive) (e : Z) :
  match binary_round F64.prec F64.emax s m e with
  | S754_zero s' | S754_infinity s' | S754_finite s' _ _ => s' = s
  | S754_nan => False
  end.
Proof.
  unfold binary_round.
  destruct (shl_align m e _) as [mz ez].
  by apply binary_round_aux_sign.
Qed.

Lemma div_finite_sign (sa sb : bool) (a b : positive) (ea eb : Z) :
  match F64.div (S754_finite sa a ea) (S754_finite sb b eb) with
  | S754_zero s | S754_infinity s | S754_finite s _ _ => s = xorb sa sb
  | S754_nan => False
  end.
Proof.
  unfold F64.div, SFdiv, SFdiv_core_binary.
  set (s := ea - eb - _).
  set (m' := match s with
             | Z0 => Zpos a
             | Zpos _ => Z.shiftl (Zpos a) s
             | Zneg _ => 0
             end).
  assert (Hm' : 0 <= m').
  { unfold m'. destruct s as [|p|p]; [lia| |lia].
    rewrite Z.shiftl_mul_pow2 by lia.
    assert (0 < 2 ^ Zpos p) by (apply Z.pow_pos_nonneg; lia). nia. }
  pose proof (Z.div_pos m' (Zpos b) Hm' ltac:(lia)) as Hq.
  unfold Z.div in Hq.
  destruct (Z.div_eucl m' (Zpos b)) as [q r].
  by apply binary_round_aux_sign.
Qed.

Lemma of_ratio_not_nan (a b : Z) :
  b <> 0 -> F64.is_nan (F64.of_ratio a b) = false.
Proof.
  intros Hb. unfold F64.of_ratio.
  destruct a as [|p|p], b as [|q|q]; try done;
    match goal with
    | |- F64.is_nan (F64.div (S754_finite ?sa ?a 0) (S754_finite ?sb ?b 0)) = _ =>
        pose proof (div_finite_sign sa sb a b 0 0) as H;
        by destruct (F64.div _ _)
    end.
Qed.

Lemma of_ratio_nonneg (k n : Z) :
  0 <= k -> 0 < n -> nonneg (F64.of_ratio k n) = true.
Proof.
  intros Hk Hn. unfold F64.of_ratio.
  destruct k as [|p|p], n as [|q|q]; try done; try lia.
  pose proof (div_finite_sign false false p q 0 0) as H.
  destruct (F64.div _ _) as [s|s| |s m e]; try done; by subst s.
Qed.

Lemma of_ratio_nonpos (k n : Z) :
  k <= 0 -> 0 < n -> F64.ltb F64.zero (F64.of_ratio k n) = false.
Proof.
  intros Hk Hn. unfold F64.of_ratio.
  destruct k as [|p|p], n as [|q|q]; try done; try lia.
  pose proof (div_finite_sign true false p q 0 0) as H.
  destruct (F64.div _ _) as [s|s| |s m e]; try done; by subst s.
Qed.

Lemma add_nonneg (x y : float) :
  nonneg x = true -> nonneg y = true -> nonneg (F64.add x y) = true.
Proof.
  destruct x as [[]|[]| |[] mx ex], y as [[]|[]| |[] my ey]; try done.
  intros _ _. unfold F64.add, SFadd, cond_Zopp, binary_normalize.
  destruct (shl_align mx ex _) as [ma ea], (shl_align my ey _) as [mb eb]; simpl.
  pose proof (binary_round_sign false (ma + mb) (Z.min ex ey)) as H.
  by destruct (binary_round _ _ _ _ _) as [|?| |? ? ?]; simplify_eq.
Qed.

Lemma add_nonpos (x y : float) :
  nonpos x = true -> nonpos y = true -> nonpos (F64.add x y) = true.
Proof.
  destruct x as [[]|[]| |[] mx ex], y as [[]|[]| |[] my ey]; try done.
  intros _ _. unfold F64.add, SFadd, cond_Zopp, binary_normalize.
  destruct (shl_align mx ex _) as [ma ea], (shl_align my ey _) as [mb eb]; simpl.
  pose proof (binary_round_sign true (ma + mb) (Z.min ex ey)) as H.
  by destruct (binary_round _ _ _ _ _) as [|?| |? ? ?]; simplify_eq.
Qed.

(** ** Pairwise sums

    What holds of the cells and is kept by an addition holds of their sum,
    in whatever order numpy adds them. *)

Section Closed.

Variable P : float -> Prop.
Hypothesis P_add : forall x y, P x -> P y -> P (F64.add x y).

Lemma fold_add_closed (xs : list float) (acc : float) :
  P acc -> Forall P xs -> P (fold_left F64.add xs acc).
Proof.
  intros Hacc Hxs; revert acc Hacc.
  induction Hxs as [|x xs Hx _ IH]; simpl; intros acc Hacc; [done|].
  by apply IH, P_add.
Qed.

Lemma unrolled_closed (n : nat) (r : lanes) (a : list float) :
  (length a <= n)%nat -> lanes_all P r -> Forall P a ->
  lanes_all P (unrolled r a).1 /\ Forall P (unrolled r a).2.
Proof.
  revert r a. induction n as [|n IH]; intros r a Hlen Hr Ha.
  { destruct a; [by split|simpl in Hlen; lia]. }
  destruct a as [|a0 [|a1 [|a2 [|a3 [|a4 [|a5 [|a6 [|a7 rest]]]]]]]];
    try (by split).
  change (unrolled r (a0 :: a1 :: a2 :: a3 :: a4 :: a5 :: a6 :: a7 :: rest))
    with (unrolled
            (Lanes (F64.add (lane0 r) a0) (F64.add (lane1 r) a1)
                   (F64.add (lane2 r) a2) (F64.add (lane3 r) a3)
                   (F64.add (lane4 r) a4) (F64.add (lane5 r) a5)
                   (F64.add (lane6 r) a6) (F64.add (lane7 r) a7))
            rest).
  destruct Hr as (H0 & H1 & H2 & H3 & H4 & H5 & H6 & H7).
  repeat match goal with
         | H : Forall _ (_ :: _) |- _ => apply Forall_cons in H as [? H]
         end.
  apply IH; [simpl in Hlen; lia| |done].
  unfold lanes_all; simpl. repeat split; by apply P_add.
Qed.

Lemma block_sum_closed (a : list float) :
  P F64.neg_zero -> Forall P a -> P (block_sum a).
Proof.
  intros Hz Ha. unfold block_sum.
  destruct a as [|a0 [|a1 [|a2 [|a3 [|a4 [|a5 [|a6 [|a7 rest]]]]]]]];
    try (by apply fold_add_closed).
  repeat match goal with
         | H : Forall _ (_ :: _) |- _ => apply Forall_cons in H as [? H]
         end.
  destruct (unrolled_closed (length rest) (Lanes a0 a1 a2 a3 a4 a5 a6 a7) rest)
    as [(L0 & L1 & L2 & L3 & L4 & L5 & L6 & L7) Htail];
    [done|by repeat split|done|].
  destruct (unrolled _ rest) as [r tail]. simpl in *.
  apply fold_add_closed; [|done]. repeat apply P_add; done.
Qed.

Lemma pairwise_sum_upto_closed (depth : nat) (a : list float) :
  P F64.neg_zero -> Forall P a -> P (pairwise_sum_upto depth a).
Proof.
  intros Hz. revert a. induction depth as [|depth IH]; intros a Ha; simpl.
  { by apply block_sum_closed. }
  destruct (length a <=? PW_BLOCKSIZE)%nat; [by apply block_sum_closed|].
  apply P_add; apply IH.
  - by apply Forall_take.
  - by apply Forall_drop.
Qed.

Lemma series_sum_closed (xs : list float) :
  P F64.zero -> P F64.neg_zero ->
  Forall (fun x => P (if F64.is_nan x then F64.zero else x)) xs ->
  P (series_sum xs).
Proof.
  intros Hz Hnz Hxs. unfold series_sum, pairwise_sum.
  apply P_add; [done|]. apply pairwise_sum_upto_closed; [done|].
  by apply Forall_map.
Qed.

End Closed.

Lemma series_sum_nonneg_cells (xs : list float) :
  Forall (fun x => nonneg x = true \/ F64.is_nan x = true) xs ->
  nonneg (series_sum xs) = true.
Proof.
  intros Hxs.
  apply (series_sum_closed (fun x => nonneg x = true)); [apply add_nonneg|done..|].
  eapply Forall_impl; [exact Hxs|]. intros x [Hx|Hx]; simpl; [|by rewrite Hx].
  by destruct (F64.is_nan x).
Qed.

Lemma series_sum_nonneg (xs : list float) :
  Forall (fun x => F64.ltb F64.zero x = true) xs -> nonneg (series_sum xs) = true.
Proof.
  intros Hxs. apply series_sum_nonneg_cells.
  eapply Forall_impl; [exact Hxs|]. intros x Hx. left. by apply ltb_zero_nonneg.
Qed.

Lemma series_sum_nonpos (xs : list float) :
  Forall (fun x => F64.ltb x F64.zero = true) xs -> nonpos (series_sum xs) = true.
Proof.
  intros Hxs.
  apply (series_sum_closed (fun x => nonpos x = true)); [apply add_nonpos|done..|].
  eapply Forall_impl; [exact Hxs|].
  intros x Hx; simpl. rewrite (ltb_neg_not_nan x Hx). by apply ltb_zero_nonpos.
Qed.

Lemma pairwise_sum_upto_S (d : nat) (a : list float) :
  pairwise_sum_upto (S d) a
  = if (length a <=? PW_BLOCKSIZE)%nat then block_sum a
    else
      let n2 := (Nat.div (length a) 2 - Nat.modulo (Nat.div (length a) 2) 8)%nat in
      F64.add (pairwise_sum_upto d (take n2 a)) (pairwise_sum_upto d (drop n2 a)).
Proof. reflexivity. Qed.

(** The array is cut as often as its length asks for: the bound on the
    number of cuts is never reached. *)
Lemma pairwise_sum_upto_enough (d d' : nat) (a : list float) :
  (length a <= d)%nat -> (length a <= d')%nat ->
  pairwise_sum_upto d a = pairwise_sum_upto d' a.
Proof.
  revert d' a. induction d as [|d IH]; intros d' a Hd Hd'.
  - destruct a; [|simpl in Hd; lia]. by destruct d'.
  - rewrite pairwise_sum_upto_S.
    destruct (length a <=? PW_BLOCKSIZE)%nat eqn:Hn.
    + destruct d'; [done|]. by rewrite pairwise_sum_upto_S, Hn.
    + assert (Hn' := Hn). apply Nat.leb_gt in Hn. unfold PW_BLOCKSIZE in Hn.
      destruct d' as [|d']; [lia|]. rewrite pairwise_sum_upto_S, Hn'.
      cbv zeta.
      set (n2 := (Nat.div (length a) 2 - Nat.modulo (Nat.div (length a) 2) 8)%nat).
      assert (Hn2 : (0 < n2 < length a)%nat).
      { unfold n2.
        pose proof (Nat.div_mod (length a) 2 ltac:(lia)).
        pose proof (Nat.mod_upper_bound (length a) 2 ltac:(lia)).
        pose proof (Nat.mod_upper_bound (Nat.div (length a) 2) 8 ltac:(lia)).
        lia. }
      f_equal; apply IH; rewrite ?length_take, ?length_drop; lia.
Qed.

Lemma pairwise_sum_short (a : list float) :
  (length a <= PW_BLOCKSIZE)%nat -> pairwise_sum a = block_sum a.
Proof.
  intros Hn. unfold pairwise_sum.
  destruct (length a) eqn:Hlen; [done|].
  rewrite pairwise_sum_upto_S, Hlen. by apply Nat.leb_le in Hn as ->.
Qed.

Lemma pairwise_sum_cut (a : list float) :
  (PW_BLOCKSIZE < length a)%nat ->
  let n2 := (Nat.div (length a) 2 - Nat.modulo (Nat.div (length a) 2) 8)%nat in
  pairwise_sum a = F64.add (pairwise_sum (take n2 a)) (pairwise_sum (drop n2 a)).
Proof.
  intros Hn n2. unfold pairwise_sum at 1.
  destruct (length a) as [|d] eqn:Hlen; [unfold PW_BLOCKSIZE in Hn; lia|].
  rewrite pairwise_sum_upto_S, Hlen.
  assert (Hn' : (S d <=? PW_BLOCKSIZE)%nat = false) by (by apply Nat.leb_gt).
  rewrite Hn'. cbv zeta. fold n2.
  assert (Hn2 : (0 < n2 < S d)%nat).
  { unfold n2. unfold PW_BLOCKSIZE in Hn.
    pose proof (Nat.div_mod (S d) 2 ltac:(lia)).
    pose proof (Nat.mod_upper_bound (S d) 2 ltac:(lia)).
    pose proof (Nat.mod_upper_bound (Nat.div (S d) 2) 8 ltac:(lia)).
    lia. }
  unfold pairwise_sum.
  f_equal; apply pairwise_sum_upto_enough;
    rewrite ?length_take, ?length_drop; lia.
Qed.

(** Eight cells of 0.1 add up to 0.8, and not to the 0.7999999999999999
    that adding them in row order gives; their mean is 0.1. *)
Lemma series_sum_eight_tenths :
  series_sum (replicate 8 (F64.of_ratio 1 10)) = F64.of_ratio 4 5
  /\ fold_left F64.add (replicate 8 (F64.of_ratio 1 10)) F64.zero
     <> F64.of_ratio 4 5
  /\ series_mean (replicate 8 (F64.of_ratio 1 10)) = F64.of_ratio 1 10.
Proof.
  split; [vm_compute; reflexivity|]. split; [vm_compute; discriminate|].
  vm_compute. reflexivity.
Qed.

Lemma profitable_trades_positive (rs : list deal) :
  Forall (fun x => F64.ltb F64.zero x = true) (map profit (profitable_trades rs)).
Proof.
  apply Forall_map, Forall_forall. intros t Ht.
  apply list_elem_of_In, filter_In in Ht as [_ Ht]. exact Ht.
Qed.

Lemma losing_trades_negative (rs : list deal) :
  Forall (fun x => F64.ltb x F64.zero = true) (map profit (losing_trades rs)).
Proof.
  apply Forall_map, Forall_forall. intros t Ht.
  apply list_elem_of_In, filter_In in Ht as [_ Ht]. exact Ht.
Qed.

Lemma gross_profit_nonneg (rs : list deal) : nonneg (gross_profit rs) = true.
Proof. apply series_sum_nonneg, profitable_trades_positive. Qed.

Lemma gross_loss_nonneg (rs : list deal) : nonneg (gross_loss rs) = true.
Proof.
  apply abs_nonneg, nonpos_not_nan, series_sum_nonpos, losing_trades_negative.
Qed.

(** ** Magnitudes of binary64 results, and when the engine returns *)

Lemma Zdigits2_log2 (m : Z) : 0 < m -> Zdigits2 m = Z.log2 m + 1.
Proof.
  destruct m as [|p|p]; try lia. intros _. simpl.
  assert (H : forall q, Zpos (digits2_pos q) = Zpos (Pos.size q)).
  { induction q as [q IH|q IH|]; simpl; [| |done]; by rewrite !Pos2Z.inj_succ, IH. }
  destruct p as [p|p|]; simpl; rewrite ?Pos2Z.inj_succ, ?H; lia.
Qed.

Lemma Zdigits2_nonneg (m : Z) : 0 <= Zdigits2 m.
Proof. destruct m; simpl; lia. Qed.

Lemma Zdigits2_pos (m : Z) : 0 < m -> 0 < Zdigits2 m.
Proof. destruct m; simpl; lia. Qed.

Lemma Zdigits2_le (m k : Z) : 0 <= m -> 0 <= k -> m < 2 ^ k -> Zdigits2 m <= k.
Proof.
  intros Hm Hk Hlt. destruct (Z.eq_dec m 0) as [->|Hne]; [simpl; lia|].
  rewrite Zdigits2_log2 by lia.
  apply Z.log2_lt_pow2 in Hlt; lia.
Qed.

Lemma Zdigits2_mono (a b : Z) : 0 <= a -> a <= b -> Zdigits2 a <= Zdigits2 b.
Proof.
  intros Ha Hab. destruct (Z.eq_dec a 0) as [->|Hne].
  - apply Zdigits2_nonneg.
  - rewrite !Zdigits2_log2 by lia. pose proof (Z.log2_le_mono a b Hab). lia.
Qed.

Lemma Zdigits2_succ (m : Z) : 0 <= m -> Zdigits2 (m + 1) <= Zdigits2 m + 1.
Proof.
  intros Hm. destruct (Z.eq_dec m 0) as [->|Hne]; [simpl; lia|].
  rewrite !Zdigits2_log2 by lia.
  pose proof (Z.log2_succ_le m). unfold Z.succ in *. lia.
Qed.

Lemma Zdigits2_shiftr (m n : Z) :
  0 <= m -> 0 <= n -> Zdigits2 (m / 2 ^ n) <= Z.max 0 (Zdigits2 m - n).
Proof.
  intros Hm Hn. destruct (Z.eq_dec m 0) as [->|Hne].
  { rewrite Z.div_0_l by lia. simpl. lia. }
  destruct (Z.eq_dec (m / 2 ^ n) 0) as [->|Hq]; [simpl; lia|].
  assert (0 <= m / 2 ^ n) by (apply Z.div_pos; lia).
  rewrite !Zdigits2_log2 by lia.
  rewrite <- Z.shiftr_div_pow2 by lia.
  rewrite Z.log2_shiftr by lia.
  pose proof (Z.log2_nonneg m).
  assert (n <= Z.log2 m).
  { destruct (Z.le_gt_cases n (Z.log2 m)) as [?|Hgt]; [done|].
    exfalso. apply Hq. apply Z.div_small. split; [lia|].
    apply Z.log2_lt_pow2; lia. }
  lia.
Qed.

Lemma Zdigits2_mul (a b : Z) :
  0 <= a -> 0 <= b -> Zdigits2 (a * b) <= Zdigits2 a + Zdigits2 b.
Proof.
  intros Ha Hb.
  destruct (Z.eq_dec a 0) as [->|Hna]; [simpl; apply Zdigits2_nonneg|].
  destruct (Z.eq_dec b 0) as [->|Hnb].
  { rewrite Z.mul_0_r. simpl. pose proof (Zdigits2_nonneg a). lia. }
  rewrite !Zdigits2_log2 by nia.
  pose proof (Z.log2_mul_above a b Ha Hb). lia.
Qed.

Lemma shr_1_m (mrs : shr_record) :
  0 <= shr_m mrs -> shr_m (shr_1 mrs) = shr_m mrs / 2.
Proof.
  destruct mrs as [m r s]; simpl; intros Hm. rewrite <- Z.div2_div.
  destruct m as [|[p|p|]|p]; simpl; lia.
Qed.

Lemma iter_pos_shr_1_m (p : positive) (mrs : shr_record) :
  0 <= shr_m mrs ->
  shr_m (SpecFloat.iter_pos shr_1 p mrs) = shr_m mrs / 2 ^ Zpos p.
Proof.
  revert mrs; induction p as [p IH|p IH|]; simpl SpecFloat.iter_pos; intros mrs Hm.
  - rewrite IH by (apply iter_pos_shr_1_nonneg, shr_1_nonneg, Hm).
    rewrite IH by (apply shr_1_nonneg, Hm).
    rewrite shr_1_m by done.
    assert (Hpos : 0 < 2 ^ Zpos p) by (apply Z.pow_pos_nonneg; lia).
    rewrite !Z.div_div by lia. f_equal.
    replace (Zpos p~1) with (1 + Zpos p + Zpos p) by lia.
    rewrite !Z.pow_add_r by lia. change (2 ^ 1) with 2. ring.
  - rewrite IH by (apply iter_pos_shr_1_nonneg, Hm).
    rewrite IH by done.
    assert (Hpos : 0 < 2 ^ Zpos p) by (apply Z.pow_pos_nonneg; lia).
    rewrite !Z.div_div by lia. f_equal.
    replace (Zpos p~0) with (Zpos p + Zpos p) by lia.
    rewrite !Z.pow_add_r by lia. ring.
  - rewrite shr_1_m by done. done.
Qed.

(** What [shr_fexp] does to a non-negative mantissa: the exponent is raised
    to the exponent of the format and the mantissa is shifted to match. *)
Lemma shr_fexp_spec (m e : Z) (l : location) :
  0 <= m ->
  let e1 := Z.max e (fexp F64.prec F64.emax (Zdigits2 m + e)) in
  snd (shr_fexp F64.prec F64.emax m e l) = e1
  /\ shr_m (fst (shr_fexp F64.prec F64.emax m e l)) = m / 2 ^ (e1 - e).
Proof.
  intros Hm e1. unfold shr_fexp, shr.
  assert (H0 : shr_m (shr_record_of_loc m l) = m) by (by destruct l as [|[]]).
  destruct (fexp F64.prec F64.emax (Zdigits2 m + e) - e) as [|p|p] eqn:Hn;
    simpl fst; simpl snd.
  - split; [lia|]. rewrite H0. replace (e1 - e) with 0 by lia.
    by rewrite Z.pow_0_r, Z.div_1_r.
  - split; [lia|]. rewrite iter_pos_shr_1_m by lia. rewrite H0.
    f_equal. f_equal. lia.
  - split; [lia|]. rewrite H0. replace (e1 - e) with 0 by lia.
    by rewrite Z.pow_0_r, Z.div_1_r.
Qed.

Lemma round_nearest_even_le (m : Z) (l : location) :
  m <= round_nearest_even m l <= m + 1.
Proof.
  destruct l as [|[]]; simpl; try lia. destruct (Z.even m); lia.
Qed.

(** Rounding keeps a value below the power of two it was below, up to one
    binade, and does not overflow below the largest binade. *)
Lemma binary_round_aux_below (s : bool) (m e : Z) (l : location) (k : Z) :
  0 <= m ->
  Zdigits2 m + e <= k -> e <= k -> -1074 <= k <= 971 ->
  below (k + 1) (binary_round_aux F64.prec F64.emax s m e l).
Proof.
  intros Hm HB He Hk. unfold binary_round_aux.
  pose proof (shr_fexp_spec m e l Hm) as [He1 Hm1].
  pose proof (shr_fexp_nonneg m e l Hm) as Hn1.
  destruct (shr_fexp F64.prec F64.emax m e l) as [mrs' e1].
  simpl fst in *; simpl snd in *.
  set (m1 := round_nearest_even (shr_m mrs') (loc_of_shr_record mrs')).
  pose proof (round_nearest_even_le (shr_m mrs') (loc_of_shr_record mrs')) as Hr.
  fold m1 in Hr.
  assert (Hm1n : 0 <= m1) by lia.
  pose proof (shr_fexp_spec m1 e1 loc_Exact Hm1n) as [He2 Hm2].
  destruct (shr_fexp F64.prec F64.emax m1 e1 loc_Exact) as [mrs'' e2].
  simpl fst in *; simpl snd in *.
  rewrite <- He1 in Hm1. rewrite <- He2 in Hm2.
  assert (Hd1 : Zdigits2 (shr_m mrs') + e1 <= Z.max (Zdigits2 m + e) e1).
  { rewrite Hm1.
    pose proof (Zdigits2_shiftr m (e1 - e) Hm ltac:(lia)). lia. }
  assert (Hd1' : Zdigits2 m1 <= Zdigits2 (shr_m mrs') + 1).
  { etrans; [apply (Zdigits2_mono m1 (shr_m mrs' + 1)); lia|].
    apply Zdigits2_succ; lia. }
  assert (Hfexp : forall x, fexp F64.prec F64.emax x = Z.max (x - 53) (-1074)).
  { intros x. unfold fexp, emin, F64.prec, F64.emax. lia. }
  rewrite Hfexp in He1, He2.
  assert (He1k : e1 <= k) by lia.
  assert (HB1 : Zdigits2 m1 + e1 <= k + 1) by lia.
  assert (He2k : e2 <= k) by lia.
  destruct (shr_m mrs'') as [|p|p] eqn:Hp; simpl; [done| |].
  - assert (Hle : (e2 <=? F64.emax - F64.prec) = true).
    { apply Z.leb_le. unfold F64.emax, F64.prec. lia. }
    rewrite Hle. simpl.
    change (Z.pos (digits2_pos p)) with (Zdigits2 (Zpos p)).
    rewrite Hm2.
    pose proof (Zdigits2_shiftr m1 (e2 - e1) Hm1n ltac:(lia)). lia.
  - pose proof (Z.div_pos m1 (2 ^ (e2 - e1)) Hm1n ltac:(lia)). lia.
Qed.

Lemma Zdigits2_spec (m : Z) : 0 <= m -> m < 2 ^ Zdigits2 m.
Proof.
  intros Hm. destruct (Z.eq_dec m 0) as [->|Hne]; [done|].
  rewrite Zdigits2_log2 by lia.
  pose proof (Z.log2_spec m ltac:(lia)) as [_ H]. exact H.
Qed.

(** The quotient of two positive integers below [2^k] is a float below
    [2^(k+1)], whatever the signs; it does not overflow. *)
Lemma div_below (sa sb : bool) (a b : positive) (k : Z) :
  Zpos a < Zpos b * 2 ^ k -> 0 <= k <= 971 ->
  below (k + 1) (F64.div (S754_finite sa a 0) (S754_finite sb b 0)).
Proof.
  intros Hab Hk. unfold F64.div, SFdiv, SFdiv_core_binary.
  set (e' := Z.min (fexp F64.prec F64.emax
                      (Zdigits2 (Zpos a) + 0 - (Zdigits2 (Zpos b) + 0))) (0 - 0)).
  set (s := 0 - 0 - e').
  assert (He' : e' <= 0) by (unfold e'; lia).
  assert (Hs : 0 <= s) by (unfold s; lia).
  set (m' := match s with
             | Z0 => Zpos a
             | Zpos _ => Z.shiftl (Zpos a) s
             | Zneg _ => 0
             end).
  assert (Hm' : m' = Zpos a * 2 ^ s).
  { unfold m'. destruct s as [|p|p] eqn:Hsp; [lia| |lia].
    by rewrite Z.shiftl_mul_pow2. }
  pose proof (Z.div_eucl_eq m' (Zpos b) ltac:(lia)) as Heucl.
  pose proof (Z.mod_pos_bound m' (Zpos b) ltac:(lia)) as Hmod.
  unfold Z.modulo in Hmod.
  assert (Hdiv : m' / Zpos b = fst (Z.div_eucl m' (Zpos b))) by done.
  destruct (Z.div_eucl m' (Zpos b)) as [q r]. simpl in Hdiv, Hmod.
  assert (Hpow : 0 < 2 ^ s) by (apply Z.pow_pos_nonneg; lia).
  assert (Hq0 : 0 <= q).
  { rewrite <- Hdiv. apply Z.div_pos; [rewrite Hm'|]; lia. }
  assert (Hq : q < 2 ^ (k + s)).
  { rewrite <- Hdiv. apply Z.div_lt_upper_bound; [lia|].
    rewrite Hm', Z.pow_add_r by lia. nia. }
  apply binary_round_aux_below; [done| | |lia].
  - pose proof (Zdigits2_le q (k + s) Hq0 ltac:(lia) Hq). lia.
  - lia.
Qed.

Lemma of_ratio_below (a b k : Z) :
  0 < b -> Z.abs a < b * 2 ^ k -> 0 <= k <= 971 ->
  below (k + 1) (F64.of_ratio a b).
Proof.
  intros Hb Hab Hk. unfold F64.of_ratio.
  destruct a as [|p|p], b as [|q|q]; try done; try lia.
  - apply div_below; [|done]. simpl in Hab. lia.
  - apply div_below; [|done]. simpl in Hab. lia.
Qed.

(** A float below [2^k] has an integer part below [2^k]. *)
Lemma trunc_below (k : Z) (x : float) :
  0 <= k -> below k x ->
  exists z, F64.trunc x = Some z /\ Z.abs z < 2 ^ k.
Proof.
  intros Hk Hx. destruct x as [s|s| |s m e]; try done.
  { exists 0. split; [done|]. simpl. apply Z.pow_pos_nonneg; lia. }
  unfold below in Hx. unfold F64.trunc.
  set (a := match e with
            | Zneg k0 => Z.shiftr (Zpos m) (Zpos k0)
            | _ => Z.shiftl (Zpos m) e
            end).
  exists (if s then - a else a). split; [done|].
  pose proof (Zdigits2_spec (Zpos m) ltac:(lia)) as Hm.
  pose proof (Zdigits2_pos (Zpos m) ltac:(lia)) as Hd.
  assert (Ha : 0 <= a < 2 ^ k).
  { unfold a. destruct e as [|p|p].
    - rewrite Z.shiftl_mul_pow2 by lia. rewrite Z.pow_0_r, Z.mul_1_r.
      split; [lia|]. eapply Z.lt_le_trans; [exact Hm|].
      apply Z.pow_le_mono_r; lia.
    - rewrite Z.shiftl_mul_pow2 by lia.
      assert (0 < 2 ^ Zpos p) by (apply Z.pow_pos_nonneg; lia).
      split; [lia|].
      apply Z.lt_le_trans with (2 ^ Zdigits2 (Zpos m) * 2 ^ Zpos p); [nia|].
      rewrite <- Z.pow_add_r by lia. apply Z.pow_le_mono_r; lia.
    - rewrite Z.shiftr_div_pow2 by lia.
      assert (0 < 2 ^ Zpos p) by (apply Z.pow_pos_nonneg; lia).
      split; [apply Z.div_pos; lia|].
      apply Z.div_lt_upper_bound; [lia|].
      rewrite <- Z.pow_add_r by lia.
      eapply Z.lt_le_trans; [exact Hm|]. apply Z.pow_le_mono_r; lia. }
  destruct s; lia.
Qed.

Lemma iter_xO_pow (d m : positive) : Zpos (Pos.iter xO m d) = Zpos m * 2 ^ Zpos d.
Proof.
  induction d as [|d IH] using Pos.peano_ind.
  - simpl. lia.
  - rewrite Pos.iter_succ, Pos2Z.inj_xO, IH, Pos2Z.inj_succ, Z.pow_succ_r by lia.
    ring.
Qed.

Lemma Zdigits2_shiftl (m : positive) (d : positive) :
  Zdigits2 (Zpos m * 2 ^ Zpos d) = Zdigits2 (Zpos m) + Zpos d.
Proof.
  assert (0 < 2 ^ Zpos d) by (apply Z.pow_pos_nonneg; lia).
  rewrite !Zdigits2_log2 by nia.
  rewrite <- Z.shiftl_mul_pow2 by lia. rewrite Z.log2_shiftl by lia. lia.
Qed.

Lemma binary_round_below (s : bool) (m : positive) (e k : Z) :
  Zdigits2 (Zpos m) + e <= k -> -1074 <= k <= 971 ->
  below (k + 1) (binary_round F64.prec F64.emax s m e).
Proof.
  intros HB Hk. unfold binary_round, shl_align.
  pose proof (Zdigits2_pos (Zpos m) ltac:(lia)) as Hd.
  change (Zpos (digits2_pos m)) with (Zdigits2 (Zpos m)).
  destruct (fexp F64.prec F64.emax (Zdigits2 (Zpos m) + e) - e) as [|d|d] eqn:Hsh.
  - apply binary_round_aux_below; lia.
  - apply binary_round_aux_below; lia.
  - apply binary_round_aux_below; [lia| |lia|lia].
    rewrite iter_xO_pow, Zdigits2_shiftl. lia.
Qed.

(** ** Whole numbers in binary64 *)

Lemma shr_1_double (k : Z) :
  0 <= k ->
  shr_1 {| shr_m := 2 * k; shr_r := false; shr_s := false |}
  = {| shr_m := k; shr_r := false; shr_s := false |}.
Proof. intros Hk. destruct k as [|p|p]; try lia; reflexivity. Qed.

(** Shifting out zeros leaves nothing to round. *)
Lemma iter_pos_shr_1_exact (p : positive) (k : Z) :
  0 <= k ->
  SpecFloat.iter_pos shr_1 p
    {| shr_m := k * 2 ^ Zpos p; shr_r := false; shr_s := false |}
  = {| shr_m := k; shr_r := false; shr_s := false |}.
Proof.
  revert k. induction p as [p IH|p IH|]; intros k Hk; cbn [SpecFloat.iter_pos].
  - assert (Hpos : 0 < 2 ^ Zpos p) by (apply Z.pow_pos_nonneg; lia).
    replace (k * 2 ^ Zpos p~1) with (2 * ((k * 2 ^ Zpos p) * 2 ^ Zpos p)).
    2: { replace (Zpos p~1) with (1 + Zpos p + Zpos p) by lia.
         rewrite !Z.pow_add_r by lia. change (2 ^ 1) with 2. ring. }
    rewrite shr_1_double by nia. rewrite IH by nia. by rewrite IH.
  - assert (Hpos : 0 < 2 ^ Zpos p) by (apply Z.pow_pos_nonneg; lia).
    replace (k * 2 ^ Zpos p~0) with ((k * 2 ^ Zpos p) * 2 ^ Zpos p).
    2: { replace (Zpos p~0) with (Zpos p + Zpos p) by lia.
         rewrite !Z.pow_add_r by lia. ring. }
    rewrite IH by nia. by rewrite IH.
  - replace (k * 2 ^ 1) with (2 * k) by (change (2 ^ 1) with 2; ring).
    by apply shr_1_double.
Qed.

Lemma Zdigits2_scaled (s j : Z) :
  0 < s -> 0 <= j -> Zdigits2 (s * 2 ^ j) = Zdigits2 s + j.
Proof.
  intros Hs Hj. destruct s as [|m|m]; try lia.
  destruct j as [|d|d]; try lia.
  - by rewrite Z.mul_1_r, Z.add_0_r.
  - apply Zdigits2_shiftl.
Qed.

(** A whole number of at most 53 bits, written with enough trailing zeros,
    is rounded to itself. *)
Lemma binary_round_aux_exact (s j : Z) :
  0 < s -> Zdigits2 s <= 53 -> 0 <= j -> 53 <= Zdigits2 s + j ->
  binary_round_aux F64.prec F64.emax false (s * 2 ^ j) (- j) loc_Exact
  = S754_finite false (Z.to_pos (s * 2 ^ (53 - Zdigits2 s))) (Zdigits2 s - 53).
Proof.
  intros Hs Hds Hj Hlen.
  assert (Hd0 : 0 < Zdigits2 s) by (by apply Zdigits2_pos).
  set (ds := Zdigits2 s) in *.
  assert (Hc : 0 < s * 2 ^ (53 - ds)).
  { assert (0 < 2 ^ (53 - ds)) by (apply Z.pow_pos_nonneg; lia). nia. }
  assert (Hfirst :
    shr_fexp F64.prec F64.emax (s * 2 ^ j) (- j) loc_Exact
    = ({| shr_m := s * 2 ^ (53 - ds); shr_r := false; shr_s := false |},
       ds - 53)).
  { unfold shr_fexp. rewrite Zdigits2_scaled by lia. fold ds.
    replace (fexp F64.prec F64.emax (ds + j + - j) - - j) with (ds - 53 + j)
      by (unfold fexp, emin, F64.prec, F64.emax; lia).
    unfold shr. simpl shr_record_of_loc.
    destruct (ds - 53 + j) as [|p|p] eqn:Hn; [|clear Hc|lia].
    - replace j with (53 - ds) by lia. f_equal. lia.
    - replace (s * 2 ^ j) with ((s * 2 ^ (53 - ds)) * 2 ^ Zpos p).
      2: { rewrite <- Z.mul_assoc, <- Z.pow_add_r by lia. do 2 f_equal. lia. }
      rewrite iter_pos_shr_1_exact.
      + f_equal. lia.
      + assert (0 < 2 ^ (53 - ds)) by (apply Z.pow_pos_nonneg; lia). nia. }
  assert (Hsecond :
    shr_fexp F64.prec F64.emax (s * 2 ^ (53 - ds)) (ds - 53) loc_Exact
    = ({| shr_m := s * 2 ^ (53 - ds); shr_r := false; shr_s := false |},
       ds - 53)).
  { unfold shr_fexp. rewrite Zdigits2_scaled by lia. fold ds.
    replace (fexp F64.prec F64.emax (ds + (53 - ds) + (ds - 53)) - (ds - 53))
      with 0 by (unfold fexp, emin, F64.prec, F64.emax; lia).
    reflexivity. }
  unfold binary_round_aux. rewrite Hfirst. simpl shr_m. simpl loc_of_shr_record.
  simpl round_nearest_even. rewrite Hsecond. simpl shr_m.
  destruct (s * 2 ^ (53 - ds)) as [|m|m] eqn:Hm; try lia.
  assert (Hle : (ds - 53 <=? F64.emax - F64.prec) = true)
    by (apply Z.leb_le; unfold F64.emax, F64.prec; lia).
  by rewrite Hle.
Qed.

(** [float(s)] for a whole number of at most 53 bits. *)
Lemma of_Z_exact (s : Z) :
  0 < s -> Zdigits2 s <= 53 ->
  F64.of_Z s
  = S754_finite false (Z.to_pos (s * 2 ^ (53 - Zdigits2 s))) (Zdigits2 s - 53).
Proof.
  intros Hs Hds. destruct s as [|m|m]; try lia.
  unfold F64.of_Z, binary_normalize, binary_round, shl_align.
  change (Zpos (digits2_pos m)) with (Zdigits2 (Zpos m)).
  set (ds := Zdigits2 (Zpos m)) in *.
  replace (fexp F64.prec F64.emax (ds + 0) - 0) with (ds - 53)
    by (unfold fexp, emin, F64.prec, F64.emax;
        pose proof (Zdigits2_pos (Zpos m) ltac:(lia)); fold ds in H; lia).
  replace (fexp F64.prec F64.emax (ds + 0)) with (ds - 53)
    by (unfold fexp, emin, F64.prec, F64.emax;
        pose proof (Zdigits2_pos (Zpos m) ltac:(lia)); fold ds in H; lia).
  destruct (ds - 53) as [|d|d] eqn:Hd.
  - pose proof (binary_round_aux_exact (Zpos m) 0 ltac:(lia) Hds ltac:(lia)) as H.
    fold ds in H. rewrite Z.mul_1_r in H. change (- 0) with 0 in H.
    rewrite H by lia. by rewrite Hd.
  - pose proof (Zdigits2_pos (Zpos m) ltac:(lia)). fold ds in Hds. lia.
  - pose proof (binary_round_aux_exact (Zpos m) (Zpos d) ltac:(lia) Hds
                  ltac:(lia)) as H.
    fold ds in H. rewrite iter_xO_pow.
    change (- Zpos d) with (Zneg d) in H. rewrite H by lia. by rewrite Hd.
Qed.

Lemma of_Z_exact_parts (s : Z) :
  0 < s -> Zdigits2 s <= 53 ->
  F64.ltb F64.zero (F64.of_Z s) = true
  /\ F64.trunc (F64.of_Z s) = Some s
  /\ F64.frac (F64.of_Z s) = F64.zero.
Proof.
  intros Hs Hds. rewrite (of_Z_exact s Hs Hds).
  pose proof (Zdigits2_pos s Hs) as Hd0.
  set (ds := Zdigits2 s) in *.
  assert (Hp : 0 < 2 ^ (53 - ds)) by (apply Z.pow_pos_nonneg; lia).
  assert (Hm : Zpos (Z.to_pos (s * 2 ^ (53 - ds))) = s * 2 ^ (53 - ds))
    by (apply Z2Pos.id; nia).
  split; [done|]. unfold F64.trunc, F64.frac.
  destruct (ds - 53) as [|k|k] eqn:Hk; [|lia|].
  - rewrite Hm. replace (53 - ds) with 0 by lia.
    rewrite Z.shiftl_mul_pow2 by lia. split; [|done]. f_equal.
    rewrite !Z.pow_0_r. lia.
  - rewrite Hm. replace (53 - ds) with (Zpos k) by lia. split.
    + rewrite Z.shiftr_div_pow2 by lia. f_equal. apply Z.div_mul. lia.
    + rewrite Z.land_ones by lia. by rewrite Z.mod_mul by lia.
Qed.

(** The mean of whole seconds that is itself a whole number is exact. *)
Lemma of_ratio_exact (s n : Z) :
  0 < s -> Zdigits2 s <= 53 -> 0 < n ->
  F64.of_ratio (s * n) n = F64.of_Z s.
Proof.
  intros Hs Hds Hn. rewrite (of_Z_exact s Hs Hds).
  destruct n as [|q|q]; try lia.
  destruct (s * Zpos q) as [|p|p] eqn:Hp; try nia.
  unfold F64.of_ratio, F64.div, SFdiv, SFdiv_core_binary.
  rewrite <- Hp.
  pose proof (Zdigits2_pos s Hs) as Hd0.
  pose proof (Zdigits2_pos (Zpos q) ltac:(lia)) as Hdq.
  pose proof (Zdigits2_mul s (Zpos q) ltac:(lia) ltac:(lia)) as Hupper.
  pose proof (Zdigits2_mono (Zpos q) (s * Zpos q) ltac:(lia) ltac:(nia)) as Hlower.
  set (d1 := Zdigits2 (s * Zpos q)) in *.
  set (d2 := Zdigits2 (Zpos q)) in *.
  set (ds := Zdigits2 s) in *.
  replace (Z.min (fexp F64.prec F64.emax (d1 + 0 - (d2 + 0))) (0 - 0))
    with (d1 - d2 - 53)
    by (unfold fexp, emin, F64.prec, F64.emax; lia).
  set (j := 53 - (d1 - d2)).
  replace (0 - 0 - (d1 - d2 - 53)) with j by (unfold j; lia).
  assert (Hj : 0 <= j) by (unfold j; lia).
  assert (Hpow : 0 < 2 ^ j) by (apply Z.pow_pos_nonneg; lia).
  set (m' := match j with
             | Z0 => s * Zpos q
             | Zpos _ => Z.shiftl (s * Zpos q) j
             | Zneg _ => 0
             end).
  assert (Hm' : m' = (s * 2 ^ j) * Zpos q).
  { unfold m'. destruct j as [|k|k] eqn:Hjk; [|rewrite Z.shiftl_mul_pow2 by lia|lia].
    - rewrite Z.pow_0_r. ring.
    - ring. }
  assert (Hq : m' / Zpos q = s * 2 ^ j) by (rewrite Hm'; apply Z.div_mul; lia).
  assert (Hr : m' mod Zpos q = 0) by (rewrite Hm'; apply Z.mod_mul; lia).
  unfold Z.div in Hq. unfold Z.modulo in Hr.
  destruct (Z.div_eucl m' (Zpos q)) as [quo r]. subst quo r.
  assert (Hloc : new_location (Zpos q) 0 = loc_Exact).
  { unfold new_location. by destruct (Z.even (Zpos q)). }
  rewrite Hloc.
  replace (d1 - d2 - 53) with (- j) by (unfold j; lia).
  apply binary_round_aux_exact; [done|done|done|]. fold ds. unfold j. lia.
Qed.

(** The fractional part is below 2 (it is below 1; the coarser bound is
    all that is needed). *)
Lemma frac_below (x : float) : F64.is_nan x = false -> below 1 (F64.frac x).
Proof.
  destruct x as [s|s| |s m e]; try done. intros _.
  unfold F64.frac. destruct e as [|p|p]; try done.
  set (r := Z.land (Zpos m) (Z.ones (Zpos p))).
  assert (Hr : 0 <= r < 2 ^ Zpos p).
  { unfold r. rewrite Z.land_ones by lia. apply Z.mod_pos_bound.
    apply Z.pow_pos_nonneg; lia. }
  unfold binary_normalize.
  assert (Hpos : forall q sg, Zpos q = r ->
            below 1 (binary_round F64.prec F64.emax sg q (Zneg p))).
  { intros q sg Hq. apply (binary_round_below sg q (Zneg p) 0); [|lia].
    rewrite Hq. pose proof (Zdigits2_le r (Zpos p) ltac:(lia) ltac:(lia)
                              ltac:(lia)). lia. }
  destruct s.
  - destruct (- r) as [|q|q] eqn:Hq; [done|lia|]. apply Hpos. lia.
  - destruct r as [|q|q] eqn:Hq; [done| |lia]. by apply Hpos.
Qed.

Lemma mul_below (k1 k2 : Z) (x y : float) :
  below k1 x -> below k2 y -> -1074 <= k1 + k2 <= 971 ->
  below (k1 + k2 + 1) (F64.mul x y).
Proof.
  intros Hx Hy Hk.
  destruct x as [sx|sx| |sx mx ex], y as [sy|sy| |sy my ey]; try done.
  unfold below in Hx, Hy. unfold F64.mul, SFmul.
  pose proof (Zdigits2_pos (Zpos mx) ltac:(lia)).
  pose proof (Zdigits2_pos (Zpos my) ltac:(lia)).
  apply binary_round_aux_below; [lia| |lia|lia].
  rewrite Pos2Z.inj_mul.
  pose proof (Zdigits2_mul (Zpos mx) (Zpos my) ltac:(lia) ltac:(lia)). lia.
Qed.

Lemma million_below : below 20 (F64.of_Z 1000000).
Proof. vm_compute. discriminate. Qed.

(** The microseconds of a delta built from a float below [2^k]. *)
Lemma total_microseconds_bound (k : Z) (x : float) :
  0 <= k -> below k x ->
  exists us,
    timedelta.total_microseconds x = Ok us
    /\ Z.abs us <= 2 ^ k * 1000000 + 2 ^ 22.
Proof.
  intros Hk Hx. unfold timedelta.total_microseconds.
  destruct (trunc_below k x Hk Hx) as (z & -> & Hz).
  assert (Hpow : 0 < 2 ^ k) by (apply Z.pow_pos_nonneg; lia).
  assert (H22 : 2 ^ 22 = 4194304) by done.
  destruct (F64.eqb (F64.frac x) F64.zero).
  { eexists. split; [reflexivity|]. lia. }
  assert (Hnan : F64.is_nan x = false) by (by destruct x).
  pose proof (mul_below 20 1 _ _ million_below (frac_below x Hnan) ltac:(lia))
    as Hdnum.
  destruct (trunc_below 22 _ ltac:(lia) Hdnum) as (z2 & -> & Hz2).
  eexists. split; [reflexivity|]. simpl default.
  set (toward := if F64.ltb _ F64.zero then -1 else 1).
  assert (Ht : -1 <= toward <= 1) by (unfold toward; destruct (F64.ltb _ _); lia).
  destruct (F64.compare _ F64.half) as [[]|]; try destruct (Z.odd _); lia.
Qed.

Lemma microseconds_to_delta_returns (us : Z) :
  Z.abs us <= 2 ^ 46 * 1000000 + 2 ^ 22 ->
  exists d, timedelta.microseconds_to_delta us = Ok d.
Proof.
  intros Hus. unfold timedelta.microseconds_to_delta, timedelta.MAX_DELTA_DAYS.
  change (2 ^ 46) with 70368744177664 in Hus.
  change (2 ^ 22) with 4194304 in Hus.
  assert (H : (- (999999999) <=? (us `div` 1000000) `div` 86400) = true
              /\ ((us `div` 1000000) `div` 86400 <=? 999999999) = true).
  { split; apply Z.leb_le; Z.div_mod_to_equations; lia. }
  destruct H as [-> ->]. by eexists.
Qed.

(** A float below [2^46] seconds, some 2.2 million years, can be turned
    into a delta. *)
Lemma of_seconds_returns (x : float) :
  below 46 x -> exists d, timedelta.of_seconds x = Ok d.
Proof.
  intros Hx. unfold timedelta.of_seconds.
  destruct (total_microseconds_bound 46 x ltac:(lia) Hx) as (us & -> & Hus).
  simpl. by apply microseconds_to_delta_returns.
Qed.

Lemma fold_add_bound (ds : list Z) (acc bound : Z) :
  Forall (fun d => Z.abs d <= bound) ds ->
  Z.abs (fold_left Z.add ds acc) <= Z.abs acc + len ds * bound.
Proof.
  intros Hds. revert acc. unfold len.
  induction Hds as [|d ds Hd _ IH]; intros acc; simpl fold_left.
  - simpl. lia.
  - specialize (IH (acc + d)). simpl length. lia.
Qed.

(** Integer division cannot overflow on a count and a larger count. *)
Lemma int_truediv_count (k n : Z) :
  0 <= k <= n -> 0 < n -> int_truediv k n = Ok (F64.of_ratio k n).
Proof.
  intros Hk Hn. unfold int_truediv.
  assert (Hn0 : (n =? 0) = false) by (apply Z.eqb_neq; lia). rewrite Hn0.
  pose proof (of_ratio_below k n 1 Hn ltac:(lia) ltac:(lia)) as H.
  by destruct (F64.of_ratio k n).
Qed.

(** ** Frames whose timestamps are whole seconds

    On int64 columns the durations are Python ints: they are subtracted and
    added exactly, and their mean is one division of two ints. *)

Lemma durations_of_whole (rs : list deal) :
  Forall (fun t => whole t = true) rs ->
  durations_of rs = Ok (map Int (int_durations rs)).
Proof.
  induction 1 as [|t rs Ht _ IH]; [done|].
  unfold int_durations in *. cbn [durations_of List.filter].
  unfold whole in Ht. unfold has_both at 1. unfold duration at 1.
  destruct (time_update t) as [[u|u]|] eqn:Hu,
           (time_setup t) as [[s|s]|] eqn:Hs;
    try done; rewrite IH; try done.
  simpl. by rewrite Hu, Hs.
Qed.

Lemma sum_from_ints (ds : list Z) (acc : Z) :
  sum_from (Int acc) (map Int ds) = Ok (Int (fold_left Z.add ds acc)).
Proof.
  revert acc. induction ds as [|d ds IH]; intros acc; [done|].
  simpl. apply IH.
Qed.

Lemma mean_or_zero_ints (ds : list Z) :
  mean_or_zero (map Int ds)
  = if negb (df_empty ds)
    then PyFloat <$> int_truediv (fold_left Z.add ds 0) (len ds)
    else Ok (PyInt 0).
Proof.
  unfold mean_or_zero, py_sum. rewrite sum_from_ints.
  unfold len. rewrite length_map. by destruct ds.
Qed.

Lemma avg_duration_seconds_whole (rs : list deal) :
  Forall (fun t => whole t = true) rs ->
  avg_duration_seconds rs
  = if negb (df_empty (int_durations rs))
    then PyFloat <$> int_truediv (fold_left Z.add (int_durations rs) 0)
                                  (len (int_durations rs))
    else Ok (PyInt 0).
Proof.
  intros Hw. unfold avg_duration_seconds, trade_durations.
  rewrite (durations_of_whole rs Hw). simpl. apply mean_or_zero_ints.
Qed.

(** With every duration below [2^45] seconds in magnitude the text of the
    duration metric can be built. *)
Lemma avg_duration_hours_returns (rs : list deal) :
  Forall (fun t => whole t = true) rs ->
  Forall (fun d => Z.abs d < 2 ^ 45) (int_durations rs) ->
  exists text, avg_duration_hours rs = Ok text.
Proof.
  intros Hw Hds. unfold avg_duration_hours.
  rewrite (avg_duration_seconds_whole rs Hw).
  destruct (int_durations rs) as [|d ds] eqn:Hd; [by eexists|].
  rewrite <- Hd in *.
  assert (Hne : negb (df_empty (int_durations rs)) = true) by (by rewrite Hd).
  rewrite Hne.
  set (total := fold_left Z.add (int_durations rs) 0).
  set (n := len (int_durations rs)).
  assert (Hn : 0 < n) by (unfold n, len; rewrite Hd; simpl length; lia).
  assert (Htotal : Z.abs total < n * 2 ^ 45).
  { pose proof (fold_add_bound (int_durations rs) 0 (2 ^ 45 - 1)) as H.
    fold total n in H. simpl Z.abs in H.
    assert (0 < 2 ^ 45) by done.
    enough (Z.abs total <= 0 + n * (2 ^ 45 - 1)) by nia.
    apply H. eapply Forall_impl; [exact Hds|]. simpl. lia. }
  pose proof (of_ratio_below total n 45 Hn Htotal ltac:(lia)) as Hmean.
  unfold int_truediv.
  assert (Hn0 : (n =? 0) = false) by (apply Z.eqb_neq; lia). rewrite Hn0.
  destruct (F64.of_ratio total n) as [s|s| |s m e] eqn:Hq; try done.
  - simpl. by eexists.
  - simpl. destruct (F64.ltb F64.zero (S754_finite s m e)); [|by eexists].
    destruct (of_seconds_returns (S754_finite s m e) Hmean) as (delta & ->).
    simpl. by eexists.
Qed.

(** The engine returns on every record set whose timestamps are whole
    seconds and whose durations are below [2^45] seconds, some 1.1 million
    years, in magnitude. *)
Lemma calculate_metrics_total (rs : list deal) (a : Account.t) :
  Forall (fun t => whole t = true) rs ->
  Forall (fun d => Z.abs d < 2 ^ 45) (int_durations rs) ->
  exists m, calculate_metrics rs a = Ok m.
Proof.
  intros Hw Hds. unfold calculate_metrics.
  destruct (df_empty rs); [by eexists|].
  destruct (avg_duration_hours_returns rs Hw Hds) as (text & ->).
  by eexists.
Qed.

(** ** The two paths of [calculate_metrics] *)

Lemma calculate_metrics_nonempty (rs : list deal) (a : Account.t) (m : Metrics.t) :
  rs <> [] ->
  calculate_metrics rs a = Ok m ->
  exists duration,
    avg_duration_hours rs = Ok duration /\
    m = {| Metrics.default := [
             Metric "Lots" (lots rs) false;
             Metric "Avg. RRR" (avg_rrr rs) false;
             Metric "Win Rate" (win_rate rs) false;
             Metric "Loss Rate" (loss_rate rs) false;
             Metric "Profit Factor" (profit_factor rs) false;
             Metric "Best Trade" (best_trade rs) false;
             Metric "Worst Trade" (worst_trade rs) false;
             Metric "Long Won" (long_won rs) false;
             Metric "Short Won" (short_won rs) false;
             Metric "Gross Profit" (PyFloat (gross_profit rs)) false;
             Metric "Gross Loss" (PyFloat (gross_loss rs)) false;
             Metric "Average Trade Duration" (PyStr duration) false;
             Metric "Average Profit per Trade" (avg_profit_per_trade rs) false;
             Metric "Average Loss per Trade" (avg_loss_per_trade rs) false ];
           Metrics.custom := [
             Metric "Custom ROI" (custom_roi a) true;
             Metric "Equity to Balance Ratio" (equity_to_balance a) true;
             Metric "Margin Level" (margin_level_metric a) true ] |}.
Proof.
  intros Hne Hm. unfold calculate_metrics in Hm.
  destruct rs as [|r rs]; [done|]. simpl df_empty in Hm. cbv iota in Hm.
  destruct (avg_duration_hours (r :: rs)) as [duration|e]; [|done].
  exists duration. split; [done|]. by injection Hm as <-.
Qed.

(** A frame that lacks a timestamp column has no durations. *)
Lemma durations_of_none (rs : list deal) :
  Forall (fun t => has_both t = false) rs -> durations_of rs = Ok [].
Proof.
  unfold has_both. induction 1 as [|t rs Ht _ IH]; [done|]. simpl.
  by destruct (time_update t), (time_setup t).
Qed.

(** Without a row that carries both timestamps nothing can raise. *)
Lemma calculate_metrics_returns (rs : list deal) (a : Account.t) :
  Forall (fun t => has_both t = false) rs ->
  exists m, calculate_metrics rs a = Ok m.
Proof.
  intros Hd. unfold calculate_metrics.
  destruct (df_empty rs); [by eexists|].
  unfold avg_duration_hours, avg_duration_seconds, trade_durations.
  rewrite (durations_of_none rs Hd). simpl.
  by eexists.
Qed.

(** On a non-empty record set whose timestamps are whole seconds and whose
    durations are below [2^45] seconds in magnitude the engine returns, and
    what it returns is the record of the general path. *)
Lemma calculate_metrics_general (rs : list deal) (a : Account.t) :
  rs <> [] ->
  Forall (fun t => whole t = true) rs ->
  Forall (fun d => Z.abs d < 2 ^ 45) (int_durations rs) ->
  exists duration,
    avg_duration_hours rs = Ok duration /\
    calculate_metrics rs a =
    Ok {| Metrics.default := [
            Metric "Lots" (lots rs) false;
            Metric "Avg. RRR" (avg_rrr rs) false;
            Metric "Win Rate" (win_rate rs) false;
            Metric "Loss Rate" (loss_rate rs) false;
            Metric "Profit Factor" (profit_factor rs) false;
            Metric "Best Trade" (best_trade rs) false;
            Metric "Worst Trade" (worst_trade rs) false;
            Metric "Long Won" (long_won rs) false;
            Metric "Short Won" (short_won rs) false;
            Metric "Gross Profit" (PyFloat (gross_profit rs)) false;
            Metric "Gross Loss" (PyFloat (gross_loss rs)) false;
            Metric "Average Trade Duration" (PyStr duration) false;
            Metric "Average Profit per Trade" (avg_profit_per_trade rs) false;
            Metric "Average Loss per Trade" (avg_loss_per_trade rs) false ];
          Metrics.custom := [
            Metric "Custom ROI" (custom_roi a) true;
            Metric "Equity to Balance Ratio" (equity_to_balance a) true;
            Metric "Margin Level" (margin_level_metric a) true ] |}.
Proof.
  intros Hne Hw Hds.
  destruct (calculate_metrics_total rs a Hw Hds) as (m & Hm).
  destruct (calculate_metrics_nonempty rs a m Hne Hm) as (duration & Hd & ->).
  by exists duration.
Qed.

(** Beyond the range of [timedelta] the engine raises. *)
Lemma calculate_metrics_can_raise :
  calculate_metrics aeon Scenario.account = Raise OverflowError.
Proof. vm_compute. reflexivity. Qed.

Ltac on_paths rs a m H :=
  let r := fresh "r" in
  let d := fresh "duration" in
  let Hd := fresh "Hduration" in
  destruct rs as [|r rs];
  [ injection H as <-
  | apply calculate_metrics_nonempty in H as (d & Hd & ->); [|done] ].

(** ** The claims *)

(** C1. With an empty record set and any account snapshot the result has a
    [default] list of exactly 14 metrics, each of value the integer 0 except
    "Average Trade Duration", which is the string "0h", and a [custom] list
    holding the single metric "Custom ROI", whose value is
    [profit / balance * 100] when [balance > 0] and 0 when [balance <= 0]. *)
Theorem C1_empty_record_set (a : Account.t) :
  exists m,
    calculate_metrics [] a = Ok m
    /\ length (Metrics.default m) = 14%nat
    /\ (forall x, x ∈ Metrics.default m ->
          name x <> "Average Trade Duration" -> value x = PyInt 0)
    /\ lookup_metric "Average Trade Duration" (Metrics.default m)
       = Some (PyStr "0h")
    /\ exists roi,
         Metrics.custom m = [Metric "Custom ROI" roi true]
         /\ (F64.ltb F64.zero (Account.balance a) = true ->
               roi = PyFloat (F64.mul (F64.div (Account.profit a)
                                               (Account.balance a)) hundred))
         /\ (F64.leb (Account.balance a) F64.zero = true -> roi = PyInt 0).
Proof.
  eexists. split; [reflexivity|]. simpl. repeat split.
  - intros x Hx Hn.
    repeat (apply elem_of_cons in Hx as [->|Hx]; [done|]).
    by apply elem_of_nil in Hx.
  - exists (custom_roi a). unfold custom_roi. repeat split.
    + by intros ->.
    + by intros ->%leb_zero_not_gt.
Qed.

Lemma C1_empty_record_set_witness :
  exists m, calculate_metrics [] Scenario.account = Ok m
            /\ Metrics.custom m = [Metric "Custom ROI" (PyFloat (F64.of_Z 5)) true].
Proof.
  destruct (C1_empty_record_set Scenario.account)
    as (m & Hm & _ & _ & _ & roi & Hc & Hpos & _).
  exists m. split; [exact Hm|].
  rewrite Hc, Hpos; [|vm_compute; reflexivity].
  vm_compute. reflexivity.
Defined.

(** C2. On a non-empty record set the [custom] list that is returned has
    exactly three entries, "Custom ROI", "Equity to Balance Ratio" and
    "Margin Level" in this order; the first two are [profit / balance * 100]
    and [equity / balance * 100] (0 when [balance <= 0]) and the third is
    [margin_level] (0 when [margin_level <= 0]). *)
Theorem C2_custom_metrics_nonempty (rs : list deal) (a : Account.t) (m : Metrics.t) :
  rs <> [] ->
  calculate_metrics rs a = Ok m ->
  exists roi ratio level,
    Metrics.custom m = [ Metric "Custom ROI" roi true;
                         Metric "Equity to Balance Ratio" ratio true;
                         Metric "Margin Level" level true ]
    /\ (F64.ltb F64.zero (Account.balance a) = true ->
          roi = PyFloat (F64.mul (F64.div (Account.profit a)
                                          (Account.balance a)) hundred)
          /\ ratio = PyFloat (F64.mul (F64.div (Account.equity a)
                                               (Account.balance a)) hundred))
    /\ (F64.leb (Account.balance a) F64.zero = true ->
          roi = PyInt 0 /\ ratio = PyInt 0)
    /\ (F64.ltb F64.zero (Account.margin_level a) = true ->
          level = PyFloat (Account.margin_level a))
    /\ (F64.leb (Account.margin_level a) F64.zero = true -> level = PyInt 0).
Proof.
  intros Hne Hm.
  apply calculate_metrics_nonempty in Hm as (duration & _ & ->); [|done].
  exists (custom_roi a), (equity_to_balance a), (margin_level_metric a).
  unfold custom_roi, equity_to_balance, margin_level_metric.
  split; [done|].
  split; [by intros ->|].
  split; [by intros ->%leb_zero_not_gt|].
  split; [by intros ->|].
  by intros ->%leb_zero_not_gt.
Qed.

Lemma C2_custom_metrics_nonempty_witness :
  Scenario.records <> []
  /\ calculate_metrics Scenario.records Scenario.account = Ok Scenario.result
  /\ exists roi ratio level,
       Metrics.custom Scenario.result
       = [ Metric "Custom ROI" roi true;
           Metric "Equity to Balance Ratio" ratio true;
           Metric "Margin Level" level true ].
Proof.
  assert (Hne : Scenario.records <> []) by discriminate.
  assert (Hm : calculate_metrics Scenario.records Scenario.account
               = Ok Scenario.result) by (vm_compute; reflexivity).
  split; [exact Hne|]. split; [exact Hm|].
  destruct (C2_custom_metrics_nonempty _ _ _ Hne Hm)
    as (roi & ratio & level & Hc & _).
  exists roi, ratio, level. exact Hc.
Defined.

(** C3. On the two-deal scenario the engine returns Lots 3, Win Rate 50,
    Loss Rate 50, Gross Profit 100, Gross Loss 50, Profit Factor 2, Best
    Trade 100, Worst Trade -50, Long Won 100, Short Won 0, Custom ROI 5,
    Equity to Balance Ratio 105 and Margin Level 200. *)
Theorem C3_scenario :
  exists m,
    calculate_metrics Scenario.records Scenario.account = Ok m
    /\ lookup_metric "Lots" (Metrics.default m) = Some (PyFloat (F64.of_Z 3))
    /\ lookup_metric "Win Rate" (Metrics.default m) = Some (PyFloat (F64.of_Z 50))
    /\ lookup_metric "Loss Rate" (Metrics.default m) = Some (PyFloat (F64.of_Z 50))
    /\ lookup_metric "Gross Profit" (Metrics.default m) = Some (PyFloat (F64.of_Z 100))
    /\ lookup_metric "Gross Loss" (Metrics.default m) = Some (PyFloat (F64.of_Z 50))
    /\ lookup_metric "Profit Factor" (Metrics.default m) = Some (PyFloat (F64.of_Z 2))
    /\ lookup_metric "Best Trade" (Metrics.default m) = Some (PyFloat (F64.of_Z 100))
    /\ lookup_metric "Worst Trade" (Metrics.default m) = Some (PyFloat (F64.of_Z (-50)))
    /\ lookup_metric "Long Won" (Metrics.default m) = Some (PyFloat (F64.of_Z 100))
    /\ lookup_metric "Short Won" (Metrics.default m) = Some (PyFloat (F64.of_Z 0))
    /\ lookup_metric "Custom ROI" (Metrics.custom m) = Some (PyFloat (F64.of_Z 5))
    /\ lookup_metric "Equity to Balance Ratio" (Metrics.custom m)
       = Some (PyFloat (F64.of_Z 105))
    /\ lookup_metric "Margin Level" (Metrics.custom m) = Some (PyFloat (F64.of_Z 200)).
Proof.
  exists Scenario.result. split; [vm_compute; reflexivity|].
  vm_compute. repeat split.
Qed.

(** C5. Whenever the "Gross Loss" metric that is returned equals 0, the
    "Profit Factor" metric is the integer 0, whatever the gross profit. *)
Theorem C5_profit_factor_zero
    (rs : list deal) (a : Account.t) (m : Metrics.t) (gl : pyval) :
  calculate_metrics rs a = Ok m ->
  lookup_metric "Gross Loss" (Metrics.default m) = Some gl ->
  py_eq0 gl = true ->
  lookup_metric "Profit Factor" (Metrics.default m) = Some (PyInt 0).
Proof.
  intros Hm Hgl H0. on_paths rs a m Hm; [done|].
  injection Hgl as <-. simpl in H0.
  unfold lookup_metric; simpl. unfold profit_factor.
  by rewrite (eqb_zero_not_gt _ H0).
Qed.

Lemma C5_profit_factor_zero_witness :
  calculate_metrics Scenario.one_win Scenario.account = Ok Scenario.one_win_result
  /\ lookup_metric "Gross Profit" (Metrics.default Scenario.one_win_result)
     = Some (PyFloat (F64.of_Z 100))
  /\ lookup_metric "Gross Loss" (Metrics.default Scenario.one_win_result)
     = Some (PyFloat F64.zero)
  /\ lookup_metric "Profit Factor" (Metrics.default Scenario.one_win_result)
     = Some (PyInt 0).
Proof.
  assert (Hm : calculate_metrics Scenario.one_win Scenario.account
               = Ok Scenario.one_win_result) by (vm_compute; reflexivity).
  assert (Hgl : lookup_metric "Gross Loss" (Metrics.default Scenario.one_win_result)
                = Some (PyFloat F64.zero)) by (vm_compute; reflexivity).
  split; [exact Hm|]. split; [vm_compute; reflexivity|]. split; [exact Hgl|].
  apply (C5_profit_factor_zero _ _ _ _ Hm Hgl). vm_compute; reflexivity.
Defined.

(** C7. On either path the "Gross Profit" and the "Gross Loss" metrics that
    are returned are numbers greater than or equal to 0. *)
Theorem C7_gross_nonneg (rs : list deal) (a : Account.t) (m : Metrics.t) :
  calculate_metrics rs a = Ok m ->
  exists gp gl,
    lookup_metric "Gross Profit" (Metrics.default m) = Some gp
    /\ lookup_metric "Gross Loss" (Metrics.default m) = Some gl
    /\ py_ge0 gp = true /\ py_ge0 gl = true.
Proof.
  intros Hm. on_paths rs a m Hm.
  - by exists (PyInt 0), (PyInt 0).
  - exists (PyFloat (gross_profit (r :: rs))), (PyFloat (gross_loss (r :: rs))).
    split; [done|]. split; [done|]. simpl.
    rewrite !leb_zero_nonneg. split.
    + apply gross_profit_nonneg.
    + apply gross_loss_nonneg.
Qed.

Lemma C7_gross_nonneg_witness :
  calculate_metrics Scenario.records Scenario.account = Ok Scenario.result
  /\ exists gp gl,
       lookup_metric "Gross Profit" (Metrics.default Scenario.result) = Some gp
       /\ lookup_metric "Gross Loss" (Metrics.default Scenario.result) = Some gl
       /\ py_ge0 gp = true /\ py_ge0 gl = true.
Proof.
  assert (Hm : calculate_metrics Scenario.records Scenario.account
               = Ok Scenario.result) by (vm_compute; reflexivity).
  split; [exact Hm|]. exact (C7_gross_nonneg _ _ _ Hm).
Defined.

(** C10. On both paths the [default] list that is returned holds exactly the
    14 default metrics, under the same names in the same order, each with
    [isCustom] false, and every metric of the [custom] list has [isCustom]
    true. *)
Theorem C10_metric_names (rs : list deal) (a : Account.t) (m : Metrics.t) :
  calculate_metrics rs a = Ok m ->
  length (Metrics.default m) = 14%nat
  /\ map name (Metrics.default m) = default_names
  /\ Forall (fun x => isCustom x = false) (Metrics.default m)
  /\ Forall (fun x => isCustom x = true) (Metrics.custom m).
Proof.
  intros Hm. on_paths rs a m Hm; simpl; repeat split; repeat constructor.
Qed.

Lemma C10_metric_names_witness :
  (calculate_metrics [] Scenario.account = Ok Scenario.empty_result
   /\ map name (Metrics.default Scenario.empty_result) = default_names)
  /\ (calculate_metrics Scenario.records Scenario.account = Ok Scenario.result
      /\ map name (Metrics.default Scenario.result) = default_names).
Proof.
  assert (He : calculate_metrics [] Scenario.account = Ok Scenario.empty_result)
    by (vm_compute; reflexivity).
  assert (Hm : calculate_metrics Scenario.records Scenario.account
               = Ok Scenario.result) by (vm_compute; reflexivity).
  split.
  - split; [exact He|]. exact (proj1 (proj2 (C10_metric_names _ _ _ He))).
  - split; [exact Hm|]. exact (proj1 (proj2 (C10_metric_names _ _ _ Hm))).
Defined.

(** ** Win rate and loss rate *)

Lemma flat_spec (t : deal) :
  flat t = F64.eqb (profit t) F64.zero || F64.is_nan (profit t).
Proof. unfold flat. by destruct (profit t) as [[]|[]| |[] ? ?]. Qed.

Lemma profit_and_loss_exclusive (x : float) :
  F64.ltb F64.zero x = true -> F64.ltb x F64.zero = true -> False.
Proof. by destruct x as [[]|[]| |[] ? ?]. Qed.

(** The profitable, the losing and the flat deals partition the record set. *)
Lemma count_partition (rs : list deal) :
  len (profitable_trades rs) + len (losing_trades rs)
  + len (List.filter (fun t => flat t) rs) = len rs.
Proof.
  unfold profitable_trades, losing_trades, len.
  induction rs as [|t rs IH]; [done|].
  simpl List.filter. unfold flat at 1.
  destruct (F64.ltb F64.zero (profit t)) eqn:Hp,
           (F64.ltb (profit t) F64.zero) eqn:Hl; simpl length.
  - destruct (profit_and_loss_exclusive _ Hp Hl).
  - lia.
  - lia.
  - lia.
Qed.

Lemma filter_flat_nil (rs : list deal) :
  len (List.filter (fun t => flat t) rs) = 0 <-> Forall (fun t => flat t = false) rs.
Proof.
  unfold len. induction rs as [|t rs IH]; [by split|].
  simpl List.filter. rewrite Forall_cons.
  destruct (flat t); simpl length.
  - split; [lia|]. intros [Hf _]. discriminate Hf.
  - rewrite IH. split; [by split|by intros [_ ?]].
Qed.

(** With exact division the two rates add up to at most 100. *)
Lemma exact_rates_le (p l n : Z) :
  0 < n -> 0 <= p -> 0 <= l -> p + l <= n ->
  (inject_Z p / inject_Z n * 100 + inject_Z l / inject_Z n * 100 <= 100)%Q.
Proof.
  intros Hn Hp Hl Hle.
  assert (Hn' : ~ (inject_Z n == 0)%Q).
  { intros H. unfold Qeq in H. simpl in H. lia. }
  assert (Hsum : (inject_Z p / inject_Z n * 100 + inject_Z l / inject_Z n * 100
                  == inject_Z (p + l) * 100 / inject_Z n)%Q)
    by (rewrite inject_Z_plus; field; exact Hn').
  rewrite Hsum.
  apply Qle_shift_div_r.
  - unfold Qlt. simpl. lia.
  - unfold Qle. simpl. lia.
Qed.

Lemma exact_rates_eq (p l n : Z) :
  0 < n ->
  (inject_Z p / inject_Z n * 100 + inject_Z l / inject_Z n * 100 == 100)%Q
  <-> p + l = n.
Proof.
  intros Hn.
  assert (Hn' : ~ (inject_Z n == 0)%Q).
  { intros H. unfold Qeq in H. simpl in H. lia. }
  assert (Hsum : (inject_Z p / inject_Z n * 100 + inject_Z l / inject_Z n * 100
                  == inject_Z (p + l) * 100 / inject_Z n)%Q)
    by (rewrite inject_Z_plus; field; exact Hn').
  rewrite Hsum.
  split.
  - intros H.
    assert (H' : (inject_Z (p + l) * 100 == 100 * inject_Z n)%Q).
    { transitivity (inject_Z n * (inject_Z (p + l) * 100 / inject_Z n))%Q.
      - symmetry. apply Qmult_div_r. exact Hn'.
      - rewrite H. ring. }
    unfold Qeq in H'. simpl in H'. lia.
  - intros <-. field. exact Hn'.
Qed.

(** C4, as stated, fails in binary64. With two winning and nine losing
    deals no profit is zero, and the metrics are 18.181818181818183 and
    81.81818181818183: their sum exceeds 100, as a float sum and exactly.
    With one winning and two losing deals no profit is zero either, and
    33.33333333333333 plus 66.66666666666666 stays below 100. *)
Lemma C4_rates_counterexample :
  (exists m w l,
     calculate_metrics Rounding.eleven Scenario.account = Ok m
     /\ Forall (fun t => F64.eqb (profit t) F64.zero = false) Rounding.eleven
     /\ w = S754_finite false 5117726849284655 (-48)
     /\ l = S754_finite false 5757442705445237 (-46)
     /\ lookup_metric "Win Rate" (Metrics.default m) = Some (PyFloat w)
     /\ lookup_metric "Loss Rate" (Metrics.default m) = Some (PyFloat l)
     /\ F64.leb (F64.add w l) hundred = false
     /\ F64.ltb hundred (F64.add w l) = true
     /\ exact_sum_cmp w l hundred = Some Gt)
  /\ (exists m w l,
        calculate_metrics Rounding.three Scenario.account = Ok m
        /\ Forall (fun t => F64.eqb (profit t) F64.zero = false) Rounding.three
        /\ w = S754_finite false 4691249611844266 (-47)
        /\ l = S754_finite false 4691249611844266 (-46)
        /\ lookup_metric "Win Rate" (Metrics.default m) = Some (PyFloat w)
        /\ lookup_metric "Loss Rate" (Metrics.default m) = Some (PyFloat l)
        /\ F64.eqb (F64.add w l) hundred = false
        /\ exact_sum_cmp w l hundred = Some Lt).
Proof.
  split.
  - exists (Scenario.run Rounding.eleven Scenario.account).
    do 2 eexists. split; [vm_compute; reflexivity|].
    split; [repeat constructor|].
    split; [reflexivity|]. split; [reflexivity|].
    repeat split; vm_compute; reflexivity.
  - exists (Scenario.run Rounding.three Scenario.account).
    do 2 eexists. split; [vm_compute; reflexivity|].
    split; [repeat constructor|].
    split; [reflexivity|]. split; [reflexivity|].
    repeat split; vm_compute; reflexivity.
Qed.

(** C4, as amended. On a non-empty record set the two metrics are the
    binary64 values of [count(profitable) / total * 100] and
    [count(losing) / total * 100]. A deal with [profit == 0] is in neither
    subset and is counted in the total, which is the number of all deals.
    The exact rates add up to at most 100, and to 100 exactly when no deal
    has a profit that is zero or NaN. *)
Theorem C4_rates (rs : list deal) (a : Account.t) (m : Metrics.t) :
  rs <> [] ->
  calculate_metrics rs a = Ok m ->
  let p := len (profitable_trades rs) in
  let l := len (losing_trades rs) in
  let n := total_trades rs in
  lookup_metric "Win Rate" (Metrics.default m) = Some (PyFloat (percentage p n))
  /\ lookup_metric "Loss Rate" (Metrics.default m) = Some (PyFloat (percentage l n))
  /\ n = p + l + len (List.filter (fun t => flat t) rs)
  /\ (forall t, t ∈ rs -> F64.eqb (profit t) F64.zero = true ->
        flat t = true /\ (t ∉ profitable_trades rs) /\ (t ∉ losing_trades rs))
  /\ (inject_Z p / inject_Z n * 100 + inject_Z l / inject_Z n * 100 <= 100)%Q
  /\ ((inject_Z p / inject_Z n * 100 + inject_Z l / inject_Z n * 100 == 100)%Q
      <-> Forall (fun t => F64.eqb (profit t) F64.zero = false
                           /\ F64.is_nan (profit t) = false) rs).
Proof.
  intros Hne Hm p l n.
  apply calculate_metrics_nonempty in Hm as (duration & _ & ->); [|done].
  pose proof (count_partition rs) as Hpart. fold p l in Hpart.
  assert (Hn : 0 < n).
  { unfold n, total_trades, len. destruct rs; [done|]. simpl length. lia. }
  assert (Hp : 0 <= p) by (unfold p, len; lia).
  assert (Hl : 0 <= l) by (unfold l, len; lia).
  assert (Hf : 0 <= len (List.filter (fun t => flat t) rs)) by (unfold len; lia).
  assert (Hnn : n = len rs) by done.
  split; [|split; [|split; [lia|split; [|split]]]].
  - unfold lookup_metric; simpl. unfold win_rate. fold n p.
    by apply Z.ltb_lt in Hn as ->.
  - unfold lookup_metric; simpl. unfold loss_rate. fold n l.
    by apply Z.ltb_lt in Hn as ->.
  - intros t Ht H0. split; [by rewrite flat_spec, H0|].
    split; intros Hin; apply list_elem_of_In, filter_In in Hin as [_ Hin].
    + by rewrite (eqb_zero_not_gt _ H0) in Hin.
    + by destruct (profit t) as [[]|[]| |[] ? ?].
  - apply exact_rates_le; lia.
  - rewrite (exact_rates_eq p l n Hn).
    assert (Hflat : Forall (fun t => flat t = false) rs
                    <-> Forall (fun t => F64.eqb (profit t) F64.zero = false
                                         /\ F64.is_nan (profit t) = false) rs).
    { apply Forall_proper; [|done]. intros t. rewrite flat_spec.
      apply orb_false_iff. }
    rewrite <- Hflat, <- filter_flat_nil. lia.
Qed.

Lemma C4_rates_witness :
  Scenario.records <> []
  /\ calculate_metrics Scenario.records Scenario.account = Ok Scenario.result
  /\ lookup_metric "Win Rate" (Metrics.default Scenario.result)
     = Some (PyFloat (percentage 1 2))
  /\ lookup_metric "Loss Rate" (Metrics.default Scenario.result)
     = Some (PyFloat (percentage 1 2)).
Proof.
  assert (Hne : Scenario.records <> []) by discriminate.
  assert (Hm : calculate_metrics Scenario.records Scenario.account
               = Ok Scenario.result) by (vm_compute; reflexivity).
  split; [exact Hne|]. split; [exact Hm|].
  destruct (C4_rates _ _ _ Hne Hm) as (Hw & Hl & _).
  split; [exact Hw|exact Hl].
Defined.

(** ** Average trade duration *)

(** In a frame with both columns every row has a duration. *)
Lemma int_durations_all (rs : list deal) :
  Forall (fun t => has_both t = true) rs ->
  int_durations rs = map duration rs.
Proof.
  intros Hall. unfold int_durations. f_equal.
  induction Hall as [|t rs Ht _ IH]; simpl; [done|]. by rewrite Ht, IH.
Qed.

Lemma int_durations_none (rs : list deal) :
  Forall (fun t => has_both t = false) rs ->
  int_durations rs = [].
Proof.
  intros Hnone. unfold int_durations.
  induction Hnone as [|t rs Ht _ IH]; simpl; [done|]. by rewrite Ht.
Qed.

Lemma before_dot_app (a b : string) :
  dotless a = true -> before_dot (a +:+ b) = a +:+ before_dot b.
Proof.
  induction a as [|c a IH]; simpl; [done|].
  destruct (Ascii.eqb c "."); simpl; [done|]. intros H. by rewrite IH.
Qed.

Lemma before_dot_dotless (a : string) : dotless a = true -> before_dot a = a.
Proof.
  induction a as [|c a IH]; simpl; [done|].
  destruct (Ascii.eqb c "."); simpl; [done|]. intros H. by rewrite IH.
Qed.

Lemma dotless_app (a b : string) :
  dotless a = true -> dotless b = true -> dotless (a +:+ b) = true.
Proof.
  induction a as [|c a IH]; simpl; [done|].
  destruct (Ascii.eqb c "."); simpl; [done|]. auto.
Qed.

Lemma dotless_pretty_N_char (x : N) (s : string) :
  dotless (String (pretty_N_char x) s) = dotless s.
Proof.
  destruct x as [|p]; [done|].
  do 4 (destruct p as [p|p|]; try done).
Qed.

Lemma dotless_pretty_N_go (x : N) (s : string) :
  dotless s = true -> dotless (pretty_N_go x s) = true.
Proof.
  revert s. induction (N.lt_wf_0 x) as [x _ IH]; intros s Hs.
  destruct (decide (0 < x)%N) as [Hx|Hx].
  - rewrite pretty_N_go_step by done. apply IH.
    + by apply N.div_lt.
    + by rewrite dotless_pretty_N_char.
  - assert (x = 0%N) as -> by lia. by rewrite pretty_N_go_0.
Qed.

Lemma dotless_pretty_Z (z : Z) : dotless (pretty z) = true.
Proof.
  assert (HN : forall n : N, dotless (pretty n) = true).
  { intros n. unfold pretty, pretty_N. case_decide; [done|].
    by apply dotless_pretty_N_go. }
  destruct z as [|p|p]; [done|apply HN|].
  unfold pretty, pretty_Z. apply dotless_app; [done|apply HN].
Qed.

Lemma dotless_zeros (n : nat) : dotless (zeros n) = true.
Proof. induction n; simpl; auto. Qed.

Lemma dotless_zero_pad (w : nat) (s : string) :
  dotless s = true -> dotless (zero_pad w s) = true.
Proof. intros Hs. apply dotless_app; [apply dotless_zeros|done]. Qed.

Lemma append_assoc (a b c : string) : (a +:+ b) +:+ c = a +:+ (b +:+ c).
Proof.
  induction a as [|x a IH]; [done|].
  change (String x ((a +:+ b) +:+ c) = String x (a +:+ (b +:+ c))).
  by rewrite IH.
Qed.

Lemma append_empty_r (a : string) : a +:+ "" = a.
Proof.
  induction a as [|x a IH]; [done|].
  change (String x (a +:+ "") = String x a). by rewrite IH.
Qed.

Lemma dotless_hms (s : Z) : dotless (hms s) = true.
Proof.
  unfold hms, fmt_d, fmt_02d.
  apply dotless_app; [apply dotless_pretty_Z|].
  apply dotless_app; [done|].
  apply dotless_app; [apply dotless_zero_pad, dotless_pretty_Z|].
  apply dotless_app; [done|].
  apply dotless_zero_pad, dotless_pretty_Z.
Qed.

(** The text of a delta cut at its first dot: the microseconds go, the days
    stay. *)
Lemma before_dot_str (d : timedelta.t) :
  before_dot (timedelta.str d)
  = if timedelta.days d =? 0 then hms (timedelta.seconds d)
    else day_prefix (timedelta.days d) +:+ hms (timedelta.seconds d).
Proof.
  unfold timedelta.str.
  assert (Hclock :
    fmt_d ((timedelta.seconds d `div` 60) `div` 60) +:+ ":"
      +:+ fmt_02d ((timedelta.seconds d `div` 60) `mod` 60) +:+ ":"
      +:+ fmt_02d (timedelta.seconds d `mod` 60)
    = hms (timedelta.seconds d)).
  { unfold hms. by rewrite Z.div_div by lia. }
  rewrite Hclock.
  assert (Hcut : before_dot
            (if timedelta.microseconds d =? 0 then hms (timedelta.seconds d)
             else hms (timedelta.seconds d) +:+ "."
                    +:+ fmt_06d (timedelta.microseconds d))
          = hms (timedelta.seconds d)).
  { destruct (timedelta.microseconds d =? 0).
    - apply before_dot_dotless, dotless_hms.
    - rewrite before_dot_app by apply dotless_hms.
      apply append_empty_r. }
  destruct (timedelta.days d =? 0); [exact Hcut|].
  unfold day_prefix, fmt_d. rewrite !append_assoc.
  rewrite before_dot_app by apply dotless_pretty_Z.
  rewrite before_dot_app by done.
  rewrite before_dot_app
    by (by destruct ((timedelta.days d =? 1) || (timedelta.days d =? -1))).
  rewrite before_dot_app by done.
  by rewrite Hcut.
Qed.

Lemma microseconds_to_delta_range (us : Z) (d : timedelta.t) :
  timedelta.microseconds_to_delta us = Ok d ->
  0 <= timedelta.seconds d < 86400
  /\ 0 <= timedelta.microseconds d < 1000000
  /\ - timedelta.MAX_DELTA_DAYS <= timedelta.days d <= timedelta.MAX_DELTA_DAYS.
Proof.
  unfold timedelta.microseconds_to_delta.
  destruct (_ && _)%bool eqn:Hrange; [|done].
  intros [= <-]; simpl. apply andb_true_iff in Hrange as [H1 H2].
  split; [apply Z.mod_pos_bound; lia|].
  split; [apply Z.mod_pos_bound; lia|]. lia.
Qed.

Lemma of_seconds_range (x : float) (d : timedelta.t) :
  timedelta.of_seconds x = Ok d -> 0 <= timedelta.seconds d < 86400.
Proof.
  unfold timedelta.of_seconds.
  destruct (timedelta.total_microseconds x) as [us|e]; simpl; [|done].
  intros H. by apply microseconds_to_delta_range in H as [? _].
Qed.

Lemma avg_duration_hours_none (rs : list deal) :
  Forall (fun t => has_both t = false) rs -> avg_duration_hours rs = Ok "0h".
Proof.
  intros Hd. unfold avg_duration_hours, avg_duration_seconds, trade_durations.
  by rewrite (durations_of_none rs Hd).
Qed.

Lemma avg_duration_hours_mean (rs : list deal) (mean : float) :
  Forall (fun t => whole t = true) rs ->
  int_durations rs <> [] ->
  int_truediv (fold_left Z.add (int_durations rs) 0) (len (int_durations rs))
  = Ok mean ->
  avg_duration_hours rs
  = if F64.ltb F64.zero mean
    then (fun d => before_dot (timedelta.str d)) <$> timedelta.of_seconds mean
    else Ok "0h".
Proof.
  intros Hw Hd Hmean. unfold avg_duration_hours.
  rewrite (avg_duration_seconds_whole rs Hw).
  destruct (int_durations rs) as [|x ds]; [done|].
  simpl df_empty. cbv iota. simpl negb. cbv iota.
  by rewrite Hmean.
Qed.

(** *** Whole means *)

Lemma of_seconds_whole (s : Z) :
  0 < s < 86400 * 1000000000 ->
  timedelta.of_seconds (F64.of_Z s)
  = Ok (timedelta.Make (s `div` 86400) (s `mod` 86400) 0).
Proof.
  intros Hs.
  assert (Hds : Zdigits2 s <= 53) by (apply Zdigits2_le; lia).
  destruct (of_Z_exact_parts s ltac:(lia) Hds) as (_ & Htrunc & Hfrac).
  unfold timedelta.of_seconds, timedelta.total_microseconds.
  rewrite Htrunc, Hfrac. simpl.
  unfold timedelta.microseconds_to_delta, timedelta.MAX_DELTA_DAYS.
  rewrite Z.div_mul, Z.mod_mul by lia.
  assert (H : (- (999999999) <=? s `div` 86400) = true
              /\ (s `div` 86400 <=? 999999999) = true).
  { split; apply Z.leb_le; Z.div_mod_to_equations; lia. }
  destruct H as [-> ->]. reflexivity.
Qed.

Lemma duration_text_spec (s : Z) :
  0 < s ->
  before_dot (timedelta.str (timedelta.Make (s `div` 86400) (s `mod` 86400) 0))
  = duration_text s.
Proof.
  intros Hs. rewrite before_dot_str. simpl. unfold duration_text.
  destruct (s <? 86400) eqn:Hlt.
  - apply Z.ltb_lt in Hlt.
    rewrite Z.div_small, Z.mod_small by lia. reflexivity.
  - apply Z.ltb_ge in Hlt.
    assert (H : (s `div` 86400 =? 0) = false).
    { apply Z.eqb_neq. Z.div_mod_to_equations; lia. }
    by rewrite H.
Qed.

(** The text for a mean that is a whole number of seconds. *)
Lemma whole_mean_text (s : Z) :
  0 < s < 86400 * 1000000000 ->
  (if F64.ltb F64.zero (F64.of_Z s)
   then (fun d => before_dot (timedelta.str d))
          <$> timedelta.of_seconds (F64.of_Z s)
   else Ok "0h")
  = Ok (duration_text s).
Proof.
  intros Hs.
  assert (Hds : Zdigits2 s <= 53) by (apply Zdigits2_le; lia).
  destruct (of_Z_exact_parts s ltac:(lia) Hds) as (-> & _ & _).
  rewrite (of_seconds_whole s Hs). simpl. f_equal.
  apply duration_text_spec. lia.
Qed.

Lemma int_truediv_exact (s n : Z) :
  0 < s < 86400 * 1000000000 -> 0 < n ->
  int_truediv (s * n) n = Ok (F64.of_Z s).
Proof.
  intros Hs Hn.
  assert (Hds : Zdigits2 s <= 53) by (apply Zdigits2_le; lia).
  unfold int_truediv.
  assert (Hn0 : (n =? 0) = false) by (apply Z.eqb_neq; lia). rewrite Hn0.
  rewrite (of_ratio_exact s n ltac:(lia) Hds Hn).
  by rewrite (of_Z_exact s ltac:(lia) Hds).
Qed.

(** *** Frames whose timestamps are floats *)

(** A 64-bit integer is converted without an error. *)
Lemma float_of_int_small (n : Z) :
  Z.abs n < 2 ^ 63 -> float_of_int n = Ok (F64.of_Z n).
Proof.
  intros Hn. unfold float_of_int, F64.of_Z, binary_normalize.
  assert (H : forall sg p, Zpos p < 2 ^ 63 ->
            match binary_round F64.prec F64.emax sg p 0 with
            | S754_infinity _ => False
            | _ => True
            end).
  { intros sg p Hp. pose proof (binary_round_below sg p 0 63) as H.
    destruct (binary_round _ _ _ _ _) as [s|s| |s m e]; try done.
    apply H; [|lia].
    pose proof (Zdigits2_le (Zpos p) 63 ltac:(lia) ltac:(lia) Hp). lia. }
  destruct n as [|p|p]; [done| |].
  - specialize (H false p ltac:(lia)). by destruct (binary_round _ _ _ _ _).
  - specialize (H true p ltac:(lia)). by destruct (binary_round _ _ _ _ _).
Qed.

Lemma durations_of_floats (rs : list deal) :
  Forall (fun t => floating t = true) rs ->
  Forall (fun t => int64 (time_update t) && int64 (time_setup t) = true) rs ->
  durations_of rs = Ok (map Float (map float_duration rs)).
Proof.
  intros Hf. induction Hf as [|t rs Ht _ IH]; intros Hi; [done|].
  apply Forall_cons in Hi as [Hit Hi].
  cbn [durations_of map]. rewrite (IH Hi).
  change (float_duration t)
    with (F64.sub (float_of (time_update t)) (float_of (time_setup t))).
  unfold floating, has_both, whole in Ht.
  apply andb_true_iff in Hit as [Hu Hs].
  destruct (time_update t) as [[u|u]|], (time_setup t) as [[s|s]|];
    try done; unfold py_sub, to_float, int64 in *.
  - apply Z.ltb_lt in Hu. rewrite (float_of_int_small u Hu). reflexivity.
  - apply Z.ltb_lt in Hs. rewrite (float_of_int_small s Hs). reflexivity.
Qed.

Lemma sum_from_floats (fs : list float) (acc : float) :
  sum_from (Float acc) (map Float fs) = Ok (Float (fold_left F64.add fs acc)).
Proof.
  revert acc. induction fs as [|f fs IH]; intros acc; [done|].
  simpl. apply IH.
Qed.

Lemma py_sum_floats (fs : list float) :
  fs <> [] ->
  py_sum (map Float fs) = Ok (Float (fold_left F64.add fs F64.zero)).
Proof.
  destruct fs as [|f fs]; [done|]. intros _.
  unfold py_sum. cbn [map sum_from].
  change (py_add (Int 0) (Float f)) with (Ok (Float (F64.add F64.zero f))).
  simpl. apply sum_from_floats.
Qed.

(** The length of a list is below the largest Python index. *)
Lemma avg_duration_seconds_floats (rs : list deal) :
  rs <> [] ->
  Forall (fun t => floating t = true) rs ->
  Forall (fun t => int64 (time_update t) && int64 (time_setup t) = true) rs ->
  len rs < 2 ^ 63 ->
  avg_duration_seconds rs
  = Ok (PyFloat (F64.div (fold_left F64.add (map float_duration rs) F64.zero)
                         (F64.of_Z (len rs)))).
Proof.
  intros Hne Hf Hi Hlen. unfold avg_duration_seconds, trade_durations.
  rewrite (durations_of_floats rs Hf Hi). simpl mbind.
  unfold mean_or_zero.
  assert (Hne' : map float_duration rs <> []) by (by destruct rs).
  rewrite (py_sum_floats _ Hne').
  assert (Hn : len (map Float (map float_duration rs)) = len rs)
    by (unfold len; by rewrite !length_map).
  rewrite Hn.
  assert (Hemp : negb (df_empty (map Float (map float_duration rs))) = true)
    by (by destruct rs).
  rewrite Hemp.
  assert (Hpos : 0 < len rs) by (unfold len; destruct rs; [done|simpl; lia]).
  remember (len rs) as n eqn:Hneq. simpl.
  rewrite float_of_int_small by lia. simpl.
  assert (Hn0 : (n =? 0) = false) by (apply Z.eqb_neq; lia).
  by rewrite Hn0.
Qed.

Lemma add_nan (x y : float) :
  F64.is_nan x = true \/ F64.is_nan y = true -> F64.is_nan (F64.add x y) = true.
Proof. by destruct x as [[]|[]| |[] ? ?], y as [[]|[]| |[] ? ?]; intros [|]. Qed.

Lemma sub_nan (x y : float) :
  F64.is_nan x = true \/ F64.is_nan y = true -> F64.is_nan (F64.sub x y) = true.
Proof. by destruct x as [[]|[]| |[] ? ?], y as [[]|[]| |[] ? ?]; intros [|]. Qed.

Lemma fold_add_nan (fs : list float) (acc : float) :
  F64.is_nan acc = true \/ Exists (fun f => F64.is_nan f = true) fs ->
  F64.is_nan (fold_left F64.add fs acc) = true.
Proof.
  revert acc. induction fs as [|f fs IH]; intros acc H; simpl.
  - destruct H as [H|H]; [done|]. by apply Exists_nil in H.
  - apply IH. destruct H as [H|H].
    + left. apply add_nan. by left.
    + apply Exists_cons in H as [H|H]; [|by right].
      left. apply add_nan. by right.
Qed.

(** One missing timestamp makes the mean NaN. *)
Lemma missing_timestamp_mean (rs : list deal) (n : float) :
  Exists (fun t => lacks_timestamp t = true) rs ->
  F64.ltb F64.zero
    (F64.div (fold_left F64.add (map float_duration rs) F64.zero) n) = false.
Proof.
  intros Hm.
  assert (Hnan : F64.is_nan (fold_left F64.add (map float_duration rs) F64.zero)
                 = true).
  { apply fold_add_nan. right. apply Exists_exists in Hm as (t & Ht & Hl).
    apply Exists_exists. exists (float_duration t).
    split; [apply list_elem_of_fmap; by exists t|].
    unfold lacks_timestamp in Hl. unfold float_duration.
    apply sub_nan. by apply orb_true_iff in Hl as [|]; [left|right]. }
  by destruct (fold_left F64.add _ F64.zero).
Qed.

Lemma calculate_metrics_duration (rs : list deal) (a : Account.t) (text : string) :
  rs <> [] ->
  avg_duration_hours rs = Ok text ->
  exists m,
    calculate_metrics rs a = Ok m
    /\ lookup_metric "Average Trade Duration" (Metrics.default m)
       = Some (PyStr text).
Proof.
  intros Hne Ht. unfold calculate_metrics.
  destruct rs as [|r rs]; [done|]. simpl df_empty. cbv iota.
  rewrite Ht. by eexists.
Qed.

Lemma calculate_metrics_raises (rs : list deal) (a : Account.t) (e : exn) :
  rs <> [] ->
  avg_duration_hours rs = Raise e ->
  calculate_metrics rs a = Raise e.
Proof.
  intros Hne Ht. unfold calculate_metrics.
  destruct rs as [|r rs]; [done|]. simpl df_empty. cbv iota.
  by rewrite Ht.
Qed.




(** ** The /connect handler *)

Section GatewayFacts.

Context {terminal : Type}.
Variable mt5_shutdown : terminal -> terminal.
Variable mt5_initialize : json -> Z -> json -> json -> terminal -> bool * terminal.
Variable mt5_last_error : terminal -> string.
Variable mt5_account_info : terminal -> option Account.t.
Variable mt5_history_deals_get : terminal -> option (list deal).
Variable int_of_str : string -> result Z.

Local Abbreviation connect :=
  (connect_mt5 terminal mt5_shutdown mt5_initialize mt5_last_error
               mt5_account_info mt5_history_deals_get int_of_str).

(** The login is converted before anything is validated: without a login
    the conversion of [None] raises and the check is never reached. *)
Lemma connect_without_login (data : gmap string json) (s : session terminal) :
  data !! "login" = None ->
  connect data s = (Raise TypeError, s).
Proof.
  intros Hlogin. unfold connect_mt5, dict_get. rewrite Hlogin. reflexivity.
Qed.

(** With a login that converts, a missing or empty credential is answered
    by the fixed message and the session is left as it was. *)
Lemma connect_missing_credentials
    (data : gmap string json) (login : Z) (s : session terminal) :
  py_int int_of_str (dict_get data "login") = Ok login ->
  py_all [JInt login; dict_get data "password"; dict_get data "server"] = false ->
  connect data s = (Ok (Response 400 (Failure MISSING)), s).
Proof.
  intros Hlogin Hall. unfold connect_mt5.
  unfold mbind, handler_bind, lift. rewrite Hlogin, Hall. reflexivity.
Qed.

Lemma connect_without_password_or_server
    (data : gmap string json) (login : Z) (s : session terminal) :
  py_int int_of_str (dict_get data "login") = Ok login ->
  data !! "password" = None \/ data !! "server" = None ->
  connect data s = (Ok (Response 400 (Failure MISSING)), s).
Proof.
  intros Hlogin Hmiss. apply (connect_missing_credentials data login s Hlogin).
  unfold py_all, dict_get. simpl.
  destruct Hmiss as [-> | ->]; simpl; by rewrite ?andb_false_r.
Qed.

(** C8 fails on the code when the login is the missing field: the body
    [{password, server}] makes [int(None)] raise [TypeError], the client
    receives status 500 and not the 400 answer with the fixed message. The
    session is untouched. *)
Theorem C8_missing_login_raises (s : session terminal) :
  no_login !! "login" = None
  /\ connect no_login s = (Raise TypeError, s)
  /\ status (served (connect no_login s).1) = 500
  /\ served (connect no_login s).1 <> Response 400 (Failure MISSING).
Proof.
  assert (Hlogin : no_login !! "login" = None) by (vm_compute; reflexivity).
  split; [exact Hlogin|].
  rewrite (connect_without_login no_login s Hlogin). simpl.
  split; [reflexivity|]. split; [reflexivity|]. discriminate.
Qed.

(** The same request with the password as the missing field is answered
    as the claim says. *)
Lemma connect_no_password (s : session terminal) :
  connect no_password s = (Ok (Response 400 (Failure MISSING)), s).
Proof.
  apply (connect_without_password_or_server no_password 12345 s).
  - vm_compute; reflexivity.
  - left. vm_compute; reflexivity.
Qed.

End GatewayFacts.

(** ** The engine and the store *)

Section StoreFacts.

Implicit Types sigma : gmap positive (list deal).
Implicit Types df : positive.
Implicit Types rs : list deal.

Lemma bind_run {A B : Type} (c : Store.prog A) (k : A -> Store.prog B)
    sigma (a : A) sigma' :
  c sigma = (a, sigma') -> (c ≫= k) sigma = k a sigma'.
Proof. intros H. unfold mbind, Store.prog_bind. by rewrite H. Qed.

Lemma rows_lookup sigma df rs : sigma !! df = Some rs -> Store.rows df sigma = rs.
Proof. intros H. unfold Store.rows. by rewrite H. Qed.

Lemma empty_run sigma df rs :
  sigma !! df = Some rs -> Store.empty df sigma = (df_empty rs, sigma).
Proof. intros H. unfold Store.empty. by rewrite (rows_lookup _ _ _ H). Qed.

Lemma length_of_run sigma df rs :
  sigma !! df = Some rs -> Store.length_of df sigma = (len rs, sigma).
Proof. intros H. unfold Store.length_of. by rewrite (rows_lookup _ _ _ H). Qed.

Lemma column_run sigma df rs (cell : deal -> float) :
  sigma !! df = Some rs -> Store.column df cell sigma = (map cell rs, sigma).
Proof. intros H. unfold Store.column. by rewrite (rows_lookup _ _ _ H). Qed.

Lemma itertuples_run sigma df rs :
  sigma !! df = Some rs -> Store.itertuples df sigma = (rs, sigma).
Proof. intros H. unfold Store.itertuples. by rewrite (rows_lookup _ _ _ H). Qed.

(** Indexing by a mask allocates: the frames that exist stay as they are
    and the new frame holds the selected rows. *)
Lemma getitem_mask_run sigma df rs (mask : deal -> bool) :
  sigma !! df = Some rs ->
  exists new sigma',
    Store.getitem_mask df mask sigma = (new, sigma')
    /\ sigma ⊆ sigma'
    /\ sigma' !! new = Some (List.filter mask rs).
Proof.
  intros H. unfold Store.getitem_mask. rewrite (rows_lookup _ _ _ H).
  eexists _, _. split; [reflexivity|]. split.
  - apply insert_subseteq, not_elem_of_dom, is_fresh.
  - apply lookup_insert_eq.
Qed.

Lemma rate_run sigma df rs (total : Z) :
  sigma !! df = Some rs ->
  Store.rate df total sigma
  = (if 0 <? total then PyFloat (percentage (len rs) total) else PyInt 0, sigma).
Proof.
  intros H. unfold Store.rate. destruct (0 <? total); [|done].
  by rewrite (bind_run _ _ _ _ _ (length_of_run _ _ _ H)).
Qed.

Lemma reduce_or_zero_run sigma df rs (cell : deal -> float)
    (reduce : list float -> float) :
  sigma !! df = Some rs ->
  Store.reduce_or_zero df cell reduce sigma
  = (if negb (df_empty rs) then PyFloat (reduce (map cell rs)) else PyInt 0,
     sigma).
Proof.
  intros H. unfold Store.reduce_or_zero.
  rewrite (bind_run _ _ _ _ _ (empty_run _ _ _ H)).
  destruct (negb (df_empty rs)); [|done].
  by rewrite (bind_run _ _ _ _ _ (column_run _ _ _ _ H)).
Qed.

Lemma won_share_run sigma df rs :
  sigma !! df = Some rs ->
  exists sigma',
    Store.won_share df sigma
    = (if 0 <? len rs
       then PyFloat (percentage
               (len (List.filter (fun t => F64.ltb F64.zero (profit t)) rs))
               (len rs))
       else PyInt 0, sigma')
    /\ sigma ⊆ sigma'.
Proof.
  intros H. unfold Store.won_share.
  rewrite (bind_run _ _ _ _ _ (length_of_run _ _ _ H)).
  destruct (0 <? len rs); [|by eexists].
  destruct (getitem_mask_run sigma df rs
              (fun t => F64.ltb F64.zero (profit t)) H)
    as (won & sigma' & Hrun & Hsub & Hwon).
  rewrite (bind_run _ _ _ _ _ Hrun).
  rewrite (bind_run _ _ _ _ _ (length_of_run _ _ _ Hwon)).
  rewrite (bind_run _ _ _ _ _
             (length_of_run _ _ _ (lookup_weaken _ _ _ _ H Hsub))).
  by eexists.
Qed.

(** The engine over the store computes what [calculate_metrics] computes
    on the rows of its argument and leaves every frame that existed,
    its argument among them, as it was. *)
Lemma store_calculate_metrics_run sigma df rs (a : Account.t) :
  sigma !! df = Some rs ->
  exists sigma',
    Store.calculate_metrics df a sigma = (calculate_metrics rs a, sigma')
    /\ sigma ⊆ sigma'.
Proof.
  intros H. unfold Store.calculate_metrics.
  rewrite (bind_run _ _ _ _ _ (empty_run _ _ _ H)).
  unfold calculate_metrics.
  destruct (df_empty rs) eqn:Hempty; [by eexists|].
  destruct (getitem_mask_run sigma df rs
              (fun t => F64.ltb F64.zero (profit t)) H)
    as (won & s1 & Hrun1 & Hsub1 & Hwon).
  rewrite (bind_run _ _ _ _ _ Hrun1).
  pose proof (lookup_weaken _ _ _ _ H Hsub1) as H1.
  destruct (getitem_mask_run s1 df rs
              (fun t => F64.ltb (profit t) F64.zero) H1)
    as (lost & s2 & Hrun2 & Hsub2 & Hlost).
  rewrite (bind_run _ _ _ _ _ Hrun2).
  pose proof (lookup_weaken _ _ _ _ H1 Hsub2) as H2.
  pose proof (lookup_weaken _ _ _ _ Hwon Hsub2) as Hwon2.
  rewrite (bind_run _ _ _ _ _ (length_of_run _ _ _ H2)).
  rewrite (bind_run _ _ _ _ _ (reduce_or_zero_run _ _ _ _ _ H2)).
  rewrite (bind_run _ _ _ _ _ (rate_run _ _ _ _ Hwon2)).
  rewrite (bind_run _ _ _ _ _ (rate_run _ _ _ _ Hlost)).
  rewrite (bind_run _ _ _ _ _ (column_run _ _ _ _ Hwon2)).
  rewrite (bind_run _ _ _ _ _ (column_run _ _ _ _ Hlost)).
  rewrite (bind_run _ _ _ _ _ (reduce_or_zero_run _ _ _ _ _ Hwon2)).
  rewrite (bind_run _ _ _ _ _ (reduce_or_zero_run _ _ _ _ _ Hlost)).
  destruct (getitem_mask_run s2 df rs
              (fun t => entry t =? mt5.ORDER_TYPE_BUY) H2)
    as (long & s3 & Hrun3 & Hsub3 & Hlong).
  rewrite (bind_run _ _ _ _ _ Hrun3).
  pose proof (lookup_weaken _ _ _ _ H2 Hsub3) as H3.
  destruct (getitem_mask_run s3 df rs
              (fun t => entry t =? mt5.ORDER_TYPE_SELL) H3)
    as (short & s4 & Hrun4 & Hsub4 & Hshort).
  rewrite (bind_run _ _ _ _ _ Hrun4).
  pose proof (lookup_weaken _ _ _ _ Hlong Hsub4) as Hlong4.
  destruct (won_share_run s4 long _ Hlong4) as (s5 & Hrun5 & Hsub5).
  rewrite (bind_run _ _ _ _ _ Hrun5).
  pose proof (lookup_weaken _ _ _ _ Hshort Hsub5) as Hshort5.
  destruct (won_share_run s5 short _ Hshort5) as (s6 & Hrun6 & Hsub6).
  rewrite (bind_run _ _ _ _ _ Hrun6).
  assert (Hsub : sigma ⊆ s6).
  { repeat (etrans; [eassumption|]). done. }
  pose proof (lookup_weaken _ _ _ _ H Hsub) as H6.
  assert (Hsub26 : s2 ⊆ s6).
  { repeat (etrans; [eassumption|]). done. }
  pose proof (lookup_weaken _ _ _ _ Hwon2 Hsub26) as Hwon6.
  pose proof (lookup_weaken _ _ _ _ Hlost Hsub26) as Hlost6.
  rewrite (bind_run _ _ _ _ _ (itertuples_run _ _ _ H6)).
  rewrite (bind_run _ _ _ _ _ (reduce_or_zero_run _ _ _ _ _ Hwon6)).
  rewrite (bind_run _ _ _ _ _ (reduce_or_zero_run _ _ _ _ _ Hlost6)).
  exists s6. split; [|exact Hsub].
  reflexivity.
Qed.

End StoreFacts.

(** C9. The engine is a function of the rows of its argument and of the
    account alone: run on two stores whose argument frames hold the same
    rows in the same order, it returns the same result, which is the value
    of [calculate_metrics] on these rows; and after each run the argument
    frame holds the rows it held before, in the same order, as does every
    other frame that existed. *)
Theorem C9_pure_deterministic
    (sigma1 sigma2 : gmap positive (list deal)) (df1 df2 : positive)
    (rs : list deal) (a : Account.t) :
  sigma1 !! df1 = Some rs ->
  sigma2 !! df2 = Some rs ->
  exists out sigma1' sigma2',
    Store.calculate_metrics df1 a sigma1 = (out, sigma1')
    /\ Store.calculate_metrics df2 a sigma2 = (out, sigma2')
    /\ out = calculate_metrics rs a
    /\ sigma1' !! df1 = Some rs
    /\ sigma2' !! df2 = Some rs
    /\ sigma1 ⊆ sigma1'
    /\ sigma2 ⊆ sigma2'.
Proof.
  intros H1 H2.
  destruct (store_calculate_metrics_run sigma1 df1 rs a H1) as (s1 & Hrun1 & Hsub1).
  destruct (store_calculate_metrics_run sigma2 df2 rs a H2) as (s2 & Hrun2 & Hsub2).
  exists (calculate_metrics rs a), s1, s2.
  split; [exact Hrun1|]. split; [exact Hrun2|]. split; [reflexivity|].
  split; [exact (lookup_weaken _ _ _ _ H1 Hsub1)|].
  split; [exact (lookup_weaken _ _ _ _ H2 Hsub2)|].
  split; [exact Hsub1|exact Hsub2].
Qed.

Lemma C9_pure_deterministic_witness :
  exists out sigma1' sigma2',
    Store.calculate_metrics 1 Scenario.account {[ 1%positive := Scenario.records ]}
    = (out, sigma1')
    /\ Store.calculate_metrics 7 Scenario.account
         {[ 7%positive := Scenario.records; 2%positive := Scenario.one_win ]}
       = (out, sigma2')
    /\ out = calculate_metrics Scenario.records Scenario.account
    /\ sigma1' !! 1%positive = Some Scenario.records
    /\ sigma2' !! 7%positive = Some Scenario.records.
Proof.
  destruct (C9_pure_deterministic
              {[ 1%positive := Scenario.records ]}
              {[ 7%positive := Scenario.records; 2%positive := Scenario.one_win ]}
              1%positive 7%positive Scenario.records Scenario.account)
    as (out & s1 & s2 & Hrun1 & Hrun2 & Hout & Hkeep1 & Hkeep2 & _).
  - apply lookup_singleton_eq.
  - apply lookup_insert_eq.
  - exists out, s1, s2. repeat split; assumption.
Defined.

(** ** More on the /connect handler *)

Section GatewayRuns.

Context {terminal : Type}.
Variable mt5_shutdown : terminal -> terminal.
Variable mt5_initialize : json -> Z -> json -> json -> terminal -> bool * terminal.
Variable mt5_last_error : terminal -> string.
Variable mt5_account_info : terminal -> option Account.t.
Variable mt5_history_deals_get : terminal -> option (list deal).
Variable int_of_str : string -> result Z.

Local Abbreviation connect :=
  (connect_mt5 terminal mt5_shutdown mt5_initialize mt5_last_error
               mt5_account_info mt5_history_deals_get int_of_str).

(** The credentials as the handler reads them from the body. *)
Local Abbreviation password_of data := (dict_get data "password").
Local Abbreviation server_of data := (dict_get data "server").
Local Abbreviation path_of data :=
  (dict_get_or data "path" (JStr default_path)).

(** What the handler does once the credentials are accepted, spelled out
    on the answers of the terminal. *)
Lemma connect_run (data : gmap string json) (login : Z) (s : session terminal) :
  py_int int_of_str (dict_get data "login") = Ok login ->
  py_all [JInt login; password_of data; server_of data] = true ->
  let init := Initialize (path_of data) login (password_of data) (server_of data) in
  let closed := mt5_shutdown (term terminal s) in
  let ok := (mt5_initialize (path_of data) login (password_of data)
                            (server_of data) closed).1 in
  let t := (mt5_initialize (path_of data) login (password_of data)
                           (server_of data) closed).2 in
  connect data s =
  if negb ok then
    (Ok (Response 400 (Failure (mt5_last_error t))),
     Session terminal t (calls terminal s ++ [Shutdown; init; LastError]))
  else
    match mt5_account_info t with
    | None =>
        (Ok (Response 400 (Failure (mt5_last_error t))),
         Session terminal (mt5_shutdown t)
           (calls terminal s ++ [Shutdown; init; AccountInfo; LastError; Shutdown]))
    | Some account =>
        match frame_of (mt5_history_deals_get t) with
        | Raise e =>
            (Raise e,
             Session terminal t
               (calls terminal s ++ [Shutdown; init; AccountInfo; HistoryDealsGet]))
        | Ok trades_df =>
            match calculate_metrics trades_df account with
            | Raise e =>
                (Raise e,
                 Session terminal t
                   (calls terminal s
                      ++ [Shutdown; init; AccountInfo; HistoryDealsGet]))
            | Ok metrics =>
                (Ok (Response 200 (Success metrics)),
                 Session terminal (mt5_shutdown t)
                   (calls terminal s
                      ++ [Shutdown; init; AccountInfo; HistoryDealsGet; Shutdown]))
            end
        end
    end.
Proof.
  intros Hlogin Hall init closed ok t. subst init closed ok t.
  unfold connect_mt5, mbind, handler_bind, mret, handler_ret, lift.
  rewrite Hlogin, Hall.
  unfold shutdown, initialize, last_error, account_info, history_deals_get.
  cbn -[calculate_metrics].
  destruct (mt5_initialize _ _ _ _ _) as [ok t]. cbn -[calculate_metrics].
  destruct ok; cbn -[calculate_metrics].
  - destruct (mt5_account_info t) as [account|]; cbn -[calculate_metrics].
    + unfold frame_of.
      destruct (mt5_history_deals_get t) as [[|r rows]|];
        try destruct (calculate_metrics _ account);
        cbn -[calculate_metrics]; rewrite <- ?app_assoc; reflexivity.
    + rewrite <- ?app_assoc. reflexivity.
  - rewrite <- ?app_assoc. reflexivity.
Qed.

(** X1. With a login that converts, a login of 0, or a password or a server
    that is missing or empty, is answered by status 400 and the fixed
    message, and the terminal is not called. *)
Theorem connect_rejects_incomplete
    (data : gmap string json) (login : Z) (s : session terminal) :
  py_int int_of_str (dict_get data "login") = Ok login ->
  login = 0 \/ truthy (password_of data) = false
  \/ truthy (server_of data) = false ->
  connect data s = (Ok (Response 400 (Failure MISSING)), s).
Proof.
  intros Hlogin Hbad. unfold connect_mt5, mbind, handler_bind, lift.
  rewrite Hlogin.
  assert (Hall : py_all [JInt login; password_of data; server_of data] = false).
  { unfold py_all. simpl forallb.
    destruct Hbad as [-> | [-> | ->]]; simpl; by rewrite ?andb_false_r. }
  by rewrite Hall.
Qed.

(** X2. When the conversion of the login raises (a missing login, a list, an
    object, a text that is no number, a float that is NaN or infinite), the
    handler raises the same exception before the credentials are checked:
    the client gets status 500 even when the password or the server is
    missing too, and the terminal is not called. *)
Theorem connect_conversion_error
    (data : gmap string json) (e : exn) (s : session terminal) :
  py_int int_of_str (dict_get data "login") = Raise e ->
  connect data s = (Raise e, s)
  /\ status (served (connect data s).1) = 500.
Proof.
  intros Hlogin. unfold connect_mt5, mbind, handler_bind, lift.
  by rewrite Hlogin.
Qed.

(** X3. The handler only adds calls to the session. When it calls the
    terminal at all, it first shuts the previous session down and then
    initializes with the path of the body or else the default path and with
    the login, password and server of the body; at most three calls
    follow. *)
Theorem connect_calls (data : gmap string json) (s : session terminal) :
  exists more : list mt5_call,
    calls terminal (connect data s).2 = (calls terminal s ++ more)%list
    /\ (more = []
        \/ exists login rest,
             py_int int_of_str (dict_get data "login") = Ok login
             /\ more = Shutdown
                       :: Initialize (path_of data) login (password_of data)
                                     (server_of data)
                       :: rest
             /\ (length rest <= 3)%nat).
Proof.
  destruct (py_int int_of_str (dict_get data "login")) as [login|e] eqn:Hlogin.
  2: { exists []. unfold connect_mt5, mbind, handler_bind, lift.
       rewrite Hlogin. split; [by rewrite app_nil_r|by left]. }
  destruct (py_all [JInt login; password_of data; server_of data]) eqn:Hall.
  2: { rewrite (connect_missing_credentials mt5_shutdown mt5_initialize
                  mt5_last_error mt5_account_info mt5_history_deals_get
                  int_of_str data login s Hlogin Hall).
       exists []. split; [by rewrite app_nil_r|by left]. }
  rewrite (connect_run data login s Hlogin Hall).
  destruct (mt5_initialize _ _ _ _ _) as [ok t]. simpl fst. simpl snd.
  destruct ok; simpl negb; cbv iota.
  - destruct (mt5_account_info t) as [account|].
    + destruct (frame_of (mt5_history_deals_get t)) as [rows|e].
      * destruct (calculate_metrics rows account);
          eexists; (split; [reflexivity|]); right; eexists _, _;
          (split; [reflexivity|]); (split; [reflexivity|]); simpl; lia.
      * eexists; (split; [reflexivity|]); right; eexists _, _;
          (split; [reflexivity|]); (split; [reflexivity|]); simpl; lia.
    + eexists; (split; [reflexivity|]); right; eexists _, _;
        (split; [reflexivity|]); (split; [reflexivity|]); simpl; lia.
  - eexists; (split; [reflexivity|]); right; eexists _, _;
      (split; [reflexivity|]); (split; [reflexivity|]); simpl; lia.
Qed.

(** X4. When the terminal refuses to initialize, the answer is status 400
    with the terminal's error text; the calls are the shutdown, the
    initialization and the request for the error, and the session is not
    shut down again. *)
Theorem connect_init_failure
    (data : gmap string json) (login : Z) (s : session terminal) :
  py_int int_of_str (dict_get data "login") = Ok login ->
  py_all [JInt login; password_of data; server_of data] = true ->
  let opened := mt5_initialize (path_of data) login (password_of data)
                               (server_of data) (mt5_shutdown (term terminal s)) in
  opened.1 = false ->
  connect data s =
  (Ok (Response 400 (Failure (mt5_last_error opened.2))),
   Session terminal opened.2
     (calls terminal s
        ++ [Shutdown;
            Initialize (path_of data) login (password_of data) (server_of data);
            LastError])).
Proof.
  intros Hlogin Hall opened Hok. subst opened.
  rewrite (connect_run data login s Hlogin Hall). by rewrite Hok.
Qed.

(** X5. When the terminal initializes and has no account information, the
    answer is status 400 with the terminal's error text, and the session is
    shut down after the error was read. *)
Theorem connect_no_account
    (data : gmap string json) (login : Z) (s : session terminal) :
  py_int int_of_str (dict_get data "login") = Ok login ->
  py_all [JInt login; password_of data; server_of data] = true ->
  let opened := mt5_initialize (path_of data) login (password_of data)
                               (server_of data) (mt5_shutdown (term terminal s)) in
  opened.1 = true ->
  mt5_account_info opened.2 = None ->
  connect data s =
  (Ok (Response 400 (Failure (mt5_last_error opened.2))),
   Session terminal (mt5_shutdown opened.2)
     (calls terminal s
        ++ [Shutdown;
            Initialize (path_of data) login (password_of data) (server_of data);
            AccountInfo; LastError; Shutdown])).
Proof.
  intros Hlogin Hall opened Hok Hacc. subst opened.
  rewrite (connect_run data login s Hlogin Hall). by rewrite Hok, Hacc.
Qed.

(** X6. When the terminal initializes, knows the account and reports deals,
    and the engine returns, the answer is status 200 with the metrics of
    these deals and this account; the terminal is asked for the account and
    the history once each, in this order, and the session is shut down at
    the end. *)
Theorem connect_success
    (data : gmap string json) (login : Z) (s : session terminal)
    (account : Account.t) (rows : list deal) (metrics : Metrics.t) :
  py_int int_of_str (dict_get data "login") = Ok login ->
  py_all [JInt login; password_of data; server_of data] = true ->
  let opened := mt5_initialize (path_of data) login (password_of data)
                               (server_of data) (mt5_shutdown (term terminal s)) in
  opened.1 = true ->
  mt5_account_info opened.2 = Some account ->
  frame_of (mt5_history_deals_get opened.2) = Ok rows ->
  calculate_metrics rows account = Ok metrics ->
  connect data s =
  (Ok (Response 200 (Success metrics)),
   Session terminal (mt5_shutdown opened.2)
     (calls terminal s
        ++ [Shutdown;
            Initialize (path_of data) login (password_of data) (server_of data);
            AccountInfo; HistoryDealsGet; Shutdown])).
Proof.
  intros Hlogin Hall opened Hok Hacc Hrows Hm. subst opened.
  rewrite (connect_run data login s Hlogin Hall).
  by rewrite Hok, Hacc, Hrows, Hm.
Qed.

(** X7. When the terminal reports a history without any deal (an empty
    tuple, not [None]), the handler raises [IndexError] while it builds the
    frame: the client gets status 500, and the session that was opened is
    not shut down. *)
Theorem connect_empty_history
    (data : gmap string json) (login : Z) (s : session terminal)
    (account : Account.t) :
  py_int int_of_str (dict_get data "login") = Ok login ->
  py_all [JInt login; password_of data; server_of data] = true ->
  let opened := mt5_initialize (path_of data) login (password_of data)
                               (server_of data) (mt5_shutdown (term terminal s)) in
  opened.1 = true ->
  mt5_account_info opened.2 = Some account ->
  mt5_history_deals_get opened.2 = Some [] ->
  connect data s =
  (Raise IndexError,
   Session terminal opened.2
     (calls terminal s
        ++ [Shutdown;
            Initialize (path_of data) login (password_of data) (server_of data);
            AccountInfo; HistoryDealsGet]))
  /\ status (served (connect data s).1) = 500
  /\ last (calls terminal (connect data s).2) = Some HistoryDealsGet.
Proof.
  intros Hlogin Hall opened Hok Hacc Hhist. subst opened.
  rewrite (connect_run data login s Hlogin Hall).
  rewrite Hok, Hacc, Hhist. simpl.
  split; [done|]. split; [done|]. by rewrite last_app.
Qed.

(** X8. When the terminal has no history at all ([None]), the answer is
    status 200 with the metrics of the empty record set: fourteen default
    metrics, the integer 0 but for the text "0h", and the account's
    "Custom ROI" alone. *)
Theorem connect_no_history
    (data : gmap string json) (login : Z) (s : session terminal)
    (account : Account.t) :
  py_int int_of_str (dict_get data "login") = Ok login ->
  py_all [JInt login; password_of data; server_of data] = true ->
  let opened := mt5_initialize (path_of data) login (password_of data)
                               (server_of data) (mt5_shutdown (term terminal s)) in
  opened.1 = true ->
  mt5_account_info opened.2 = Some account ->
  mt5_history_deals_get opened.2 = None ->
  exists metrics,
    (connect data s).1 = Ok (Response 200 (Success metrics))
    /\ map name (Metrics.default metrics) = default_names
    /\ map value (Metrics.default metrics)
       = (replicate 11 (PyInt 0) ++ [PyStr "0h"; PyInt 0; PyInt 0])%list
    /\ Metrics.custom metrics = [Metric "Custom ROI" (custom_roi account) true].
Proof.
  intros Hlogin Hall opened Hok Hacc Hhist. subst opened.
  rewrite (connect_run data login s Hlogin Hall).
  rewrite Hok, Hacc, Hhist. simpl. by eexists.
Qed.

(** X9. When the engine raises on the deals of the terminal, the handler
    raises the same exception, and the session that was opened is not shut
    down. *)
Theorem connect_engine_raises
    (data : gmap string json) (login : Z) (s : session terminal)
    (account : Account.t) (rows : list deal) (e : exn) :
  py_int int_of_str (dict_get data "login") = Ok login ->
  py_all [JInt login; password_of data; server_of data] = true ->
  let opened := mt5_initialize (path_of data) login (password_of data)
                               (server_of data) (mt5_shutdown (term terminal s)) in
  opened.1 = true ->
  mt5_account_info opened.2 = Some account ->
  frame_of (mt5_history_deals_get opened.2) = Ok rows ->
  calculate_metrics rows account = Raise e ->
  (connect data s).1 = Raise e
  /\ term terminal (connect data s).2 = opened.2
  /\ last (calls terminal (connect data s).2) = Some HistoryDealsGet.
Proof.
  intros Hlogin Hall opened Hok Hacc Hrows Hm. subst opened.
  rewrite (connect_run data login s Hlogin Hall).
  rewrite Hok, Hacc, Hrows, Hm. simpl.
  split; [done|]. split; [done|]. by rewrite last_app.
Qed.

(** X10. An answer of the handler is either status 400 with an error text
    or status 200 with metrics; and status 200 is given only after the
    terminal was shut down, initialized, asked for the account and for the
    history, and shut down again. *)
Theorem connect_answers
    (data : gmap string json) (s : session terminal) (resp : response) :
  (connect data s).1 = Ok resp ->
  (status resp = 400 /\ exists error, body resp = Failure error)
  \/ (status resp = 200
      /\ (exists metrics, body resp = Success metrics)
      /\ exists login : Z,
           calls terminal (connect data s).2
           = (calls terminal s
                ++ [Shutdown;
                    Initialize (path_of data) login (password_of data)
                               (server_of data);
                    AccountInfo; HistoryDealsGet; Shutdown])%list).
Proof.
  destruct (py_int int_of_str (dict_get data "login")) as [login|e] eqn:Hlogin.
  2: { unfold connect_mt5, mbind, handler_bind, lift. by rewrite Hlogin. }
  destruct (py_all [JInt login; password_of data; server_of data]) eqn:Hall.
  2: { rewrite (connect_missing_credentials mt5_shutdown mt5_initialize
                  mt5_last_error mt5_account_info mt5_history_deals_get
                  int_of_str data login s Hlogin Hall).
       intros [= <-]. left. split; [done|by eexists]. }
  rewrite (connect_run data login s Hlogin Hall).
  destruct (mt5_initialize _ _ _ _ _) as [ok t]. simpl fst. simpl snd.
  destruct ok; simpl negb; cbv iota.
  - destruct (mt5_account_info t) as [account|].
    + destruct (frame_of (mt5_history_deals_get t)) as [rows|e]; [|done].
      destruct (calculate_metrics rows account) as [metrics|e]; [|done].
      intros [= <-]. right. split; [done|]. split; [by eexists|].
      by exists login.
    + intros [= <-]. left. split; [done|by eexists].
  - intros [= <-]. left. split; [done|by eexists].
Qed.

End GatewayRuns.

Ltac demo_run := vm_compute; reflexivity.

Lemma connect_rejects_incomplete_witness :
  truthy (dict_get Demo.empty_password "password") = false
  /\ Demo.connect Demo.empty_password (Demo.start Demo.good)
     = (Ok (Response 400 (Failure MISSING)), Demo.start Demo.good).
Proof.
  split; [demo_run|].
  apply (connect_rejects_incomplete Demo.shutdown Demo.initialize
           Demo.last_error Demo.account Demo.history Demo.int_of_str
           Demo.empty_password 12345).
  - demo_run.
  - right. left. demo_run.
Defined.

Lemma connect_conversion_error_witness :
  Demo.connect Demo.list_login (Demo.start Demo.good)
  = (Raise TypeError, Demo.start Demo.good)
  /\ status (served (Demo.connect Demo.list_login (Demo.start Demo.good)).1) = 500.
Proof.
  apply (connect_conversion_error Demo.shutdown Demo.initialize
           Demo.last_error Demo.account Demo.history Demo.int_of_str
           Demo.list_login TypeError).
  demo_run.
Defined.

Lemma connect_init_failure_witness :
  (Demo.connect Demo.body (Demo.start Demo.refusing)).1
  = Ok (Response 400 (Failure "(-6, 'Terminal: Authorization failed')")).
Proof.
  unfold Demo.connect.
  rewrite (connect_init_failure Demo.shutdown Demo.initialize
             Demo.last_error Demo.account Demo.history Demo.int_of_str
             Demo.body 12345 (Demo.start Demo.refusing)).
  - reflexivity.
  - demo_run.
  - demo_run.
  - demo_run.
Defined.

Lemma connect_no_account_witness :
  calls Demo.config (Demo.connect Demo.body (Demo.start Demo.no_account)).2
  = [ Shutdown;
      Initialize (JStr default_path) 12345 (JStr "secret") (JStr "Demo-Server");
      AccountInfo; LastError; Shutdown ].
Proof.
  unfold Demo.connect.
  rewrite (connect_no_account Demo.shutdown Demo.initialize
             Demo.last_error Demo.account Demo.history Demo.int_of_str
             Demo.body 12345 (Demo.start Demo.no_account)).
  - demo_run.
  - demo_run.
  - demo_run.
  - demo_run.
  - demo_run.
Defined.

Lemma connect_success_witness :
  (Demo.connect Demo.body (Demo.start Demo.good)).1
  = Ok (Response 200 (Success Scenario.result)).
Proof.
  unfold Demo.connect.
  rewrite (connect_success Demo.shutdown Demo.initialize
             Demo.last_error Demo.account Demo.history Demo.int_of_str
             Demo.body 12345 (Demo.start Demo.good)
             Scenario.account Scenario.records Scenario.result).
  - reflexivity.
  - demo_run.
  - demo_run.
  - demo_run.
  - demo_run.
  - demo_run.
  - demo_run.
Defined.

Lemma connect_empty_history_witness :
  (Demo.connect Demo.body (Demo.start Demo.no_deals)).1 = Raise IndexError
  /\ status (served (Demo.connect Demo.body (Demo.start Demo.no_deals)).1) = 500.
Proof.
  destruct (connect_empty_history Demo.shutdown Demo.initialize
              Demo.last_error Demo.account Demo.history Demo.int_of_str
              Demo.body 12345 (Demo.start Demo.no_deals) Scenario.account)
    as (Hrun & Hstatus & _).
  - demo_run.
  - demo_run.
  - demo_run.
  - demo_run.
  - demo_run.
  - split; [|exact Hstatus].
    unfold Demo.connect. by rewrite Hrun.
Defined.

Lemma connect_no_history_witness :
  exists metrics,
    (Demo.connect Demo.body (Demo.start Demo.no_history)).1
    = Ok (Response 200 (Success metrics))
    /\ Metrics.custom metrics
       = [Metric "Custom ROI" (custom_roi Scenario.account) true].
Proof.
  destruct (connect_no_history Demo.shutdown Demo.initialize
              Demo.last_error Demo.account Demo.history Demo.int_of_str
              Demo.body 12345 (Demo.start Demo.no_history) Scenario.account)
    as (metrics & Hrun & _ & _ & Hcustom).
  - demo_run.
  - demo_run.
  - demo_run.
  - demo_run.
  - demo_run.
  - exists metrics. split; [exact Hrun|exact Hcustom].
Defined.

Lemma connect_engine_raises_witness :
  (Demo.connect Demo.body (Demo.start Demo.far_apart)).1 = Raise OverflowError.
Proof.
  destruct (connect_engine_raises Demo.shutdown Demo.initialize
              Demo.last_error Demo.account Demo.history Demo.int_of_str
              Demo.body 12345 (Demo.start Demo.far_apart) Scenario.account
              aeon OverflowError)
    as (Hrun & _).
  - demo_run.
  - demo_run.
  - demo_run.
  - demo_run.
  - demo_run.
  - demo_run.
  - exact Hrun.
Defined.

Lemma connect_answers_witness :
  status (Response 200 (Success Scenario.result)) = 200
  /\ exists metrics,
       body (Response 200 (Success Scenario.result)) = Success metrics.
Proof.
  destruct (connect_answers Demo.shutdown Demo.initialize
              Demo.last_error Demo.account Demo.history Demo.int_of_str
              Demo.body (Demo.start Demo.good)
              (Response 200 (Success Scenario.result)))
    as [[Hstatus _] | (Hstatus & Hbody & _)].
  - demo_run.
  - discriminate Hstatus.
  - split; [exact Hstatus|exact Hbody].
Defined.

(** ** More on the engine *)

(** ** The order of binary64 values *)

Lemma finite_leb_pos (m1 m2 : positive) (e1 e2 : Z) :
  F64.leb (S754_finite false m1 e1) (S754_finite false m2 e2) = true
  <-> e1 < e2 \/ (e1 = e2 /\ (m1 <= m2)%positive).
Proof.
  unfold F64.leb, SFleb, SFcompare.
  destruct (Z.compare_spec e1 e2) as [->|Hlt|Hgt].
  - rewrite Pos.compare_cont_spec. simpl.
    destruct (Pos.compare_spec m1 m2); split; try done; try lia.
  - split; [by left|done].
  - split; [done|lia].
Qed.

Lemma finite_leb_neg (m1 m2 : positive) (e1 e2 : Z) :
  F64.leb (S754_finite true m1 e1) (S754_finite true m2 e2) = true
  <-> e2 < e1 \/ (e1 = e2 /\ (m2 <= m1)%positive).
Proof.
  unfold F64.leb, SFleb, SFcompare.
  destruct (Z.compare_spec e1 e2) as [->|Hlt|Hgt].
  - rewrite Pos.compare_cont_spec. simpl.
    destruct (Pos.compare_spec m1 m2); simpl; split; try done; try lia.
  - split; [done|lia].
  - split; [by left|done].
Qed.

Lemma leb_refl (a : float) : F64.is_nan a = false -> F64.leb a a = true.
Proof.
  destruct a as [[]|[]| |[] m e]; try done; intros _.
  - apply finite_leb_neg. lia.
  - apply finite_leb_pos. lia.
Qed.

Lemma leb_trans (a b c : float) :
  F64.leb a b = true -> F64.leb b c = true -> F64.leb a c = true.
Proof.
  destruct a as [[]|[]| |[] m1 e1], b as [[]|[]| |[] m2 e2],
           c as [[]|[]| |[] m3 e3]; try done.
  - rewrite !finite_leb_neg. lia.
  - rewrite !finite_leb_pos. lia.
Qed.

Lemma ltb_leb (a b : float) : F64.ltb a b = true -> F64.leb a b = true.
Proof.
  unfold F64.ltb, F64.leb, SFltb, SFleb.
  by destruct (SFcompare a b) as [[]|].
Qed.

(** Two floats that are not NaN are comparable. *)
Lemma not_ltb_leb (a b : float) :
  F64.is_nan a = false -> F64.is_nan b = false ->
  F64.ltb a b = false -> F64.leb b a = true.
Proof.
  destruct a as [[]|[]| |[] m1 e1], b as [[]|[]| |[] m2 e2]; try done;
    intros _ _ H; apply not_true_iff_false in H.
  - rewrite finite_leb_neg.
    unfold F64.ltb, SFltb, SFcompare in H.
    destruct (Z.compare_spec e1 e2) as [->|Hlt|Hgt]; [|done || lia..].
    rewrite Pos.compare_cont_spec in H. simpl in H.
    destruct (Pos.compare_spec m1 m2); simpl in H; try done; lia.
  - rewrite finite_leb_pos.
    unfold F64.ltb, SFltb, SFcompare in H.
    destruct (Z.compare_spec e1 e2) as [->|Hlt|Hgt]; [|done || lia..].
    rewrite Pos.compare_cont_spec in H. simpl in H.
    destruct (Pos.compare_spec m1 m2); simpl in H; try done; lia.
Qed.

Lemma fmax_cases (a b : float) : fmax a b = a \/ fmax a b = b.
Proof. unfold fmax. destruct (F64.ltb a b); auto. Qed.

Lemma fmin_cases (a b : float) : fmin a b = a \/ fmin a b = b.
Proof. unfold fmin. destruct (F64.ltb b a); auto. Qed.

Lemma fmax_ge (a b : float) :
  F64.is_nan a = false -> F64.is_nan b = false ->
  F64.leb a (fmax a b) = true /\ F64.leb b (fmax a b) = true.
Proof.
  intros Ha Hb. unfold fmax. destruct (F64.ltb a b) eqn:Hab.
  - split; [by apply ltb_leb|by apply leb_refl].
  - split; [by apply leb_refl|by apply not_ltb_leb].
Qed.

Lemma fmin_le (a b : float) :
  F64.is_nan a = false -> F64.is_nan b = false ->
  F64.leb (fmin a b) a = true /\ F64.leb (fmin a b) b = true.
Proof.
  intros Ha Hb. unfold fmin. destruct (F64.ltb b a) eqn:Hba.
  - split; [by apply ltb_leb|by apply leb_refl].
  - split; [by apply leb_refl|by apply not_ltb_leb].
Qed.

(** The fold that [Series.max] runs returns an element of the column that
    no element exceeds. *)
Lemma fold_fmax_spec (r : list float) (x : float) :
  Forall (fun y => F64.is_nan y = false) (x :: r) ->
  fold_left fmax r x ∈ x :: r
  /\ forall y, y ∈ x :: r -> F64.leb y (fold_left fmax r x) = true.
Proof.
  revert x. induction r as [|b r IH]; intros x Hnan; simpl.
  - apply Forall_cons in Hnan as [Hx _]. split; [by left|].
    intros y ->%list_elem_of_singleton. by apply leb_refl.
  - apply Forall_cons in Hnan as [Hx Hnan].
    apply Forall_cons in Hnan as [Hb Hr].
    assert (Hm : F64.is_nan (fmax x b) = false)
      by (by destruct (fmax_cases x b) as [-> | ->]).
    destruct (IH (fmax x b)) as [Hin Hmax]; [by apply Forall_cons|].
    destruct (fmax_ge x b Hx Hb) as [Hxm Hbm].
    split.
    + apply elem_of_cons in Hin as [->|Hin].
      * destruct (fmax_cases x b) as [-> | ->]; [by left|right; by left].
      * by do 2 right.
    + intros y Hy.
      assert (Hfirst : F64.leb (fmax x b) (fold_left fmax r (fmax x b)) = true)
        by (apply Hmax; by left).
      apply elem_of_cons in Hy as [->|Hy]; [by eapply leb_trans|].
      apply elem_of_cons in Hy as [->|Hy]; [by eapply leb_trans|].
      apply Hmax. by right.
Qed.

Lemma fold_fmin_spec (r : list float) (x : float) :
  Forall (fun y => F64.is_nan y = false) (x :: r) ->
  fold_left fmin r x ∈ x :: r
  /\ forall y, y ∈ x :: r -> F64.leb (fold_left fmin r x) y = true.
Proof.
  revert x. induction r as [|b r IH]; intros x Hnan; simpl.
  - apply Forall_cons in Hnan as [Hx _]. split; [by left|].
    intros y ->%list_elem_of_singleton. by apply leb_refl.
  - apply Forall_cons in Hnan as [Hx Hnan].
    apply Forall_cons in Hnan as [Hb Hr].
    assert (Hm : F64.is_nan (fmin x b) = false)
      by (by destruct (fmin_cases x b) as [-> | ->]).
    destruct (IH (fmin x b)) as [Hin Hmin]; [by apply Forall_cons|].
    destruct (fmin_le x b Hx Hb) as [Hxm Hbm].
    split.
    + apply elem_of_cons in Hin as [->|Hin].
      * destruct (fmin_cases x b) as [-> | ->]; [by left|right; by left].
      * by do 2 right.
    + intros y Hy.
      assert (Hfirst : F64.leb (fold_left fmin r (fmin x b)) (fmin x b) = true)
        by (apply Hmin; by left).
      apply elem_of_cons in Hy as [->|Hy]; [by eapply leb_trans|].
      apply elem_of_cons in Hy as [->|Hy]; [by eapply leb_trans|].
      apply Hmin. by right.
Qed.

Lemma filter_all {A : Type} (f : A -> bool) (l : list A) :
  Forall (fun x => f x = true) l -> List.filter f l = l.
Proof.
  induction 1 as [|x l Hx _ IH]; simpl; [done|]. by rewrite Hx, IH.
Qed.

Lemma filter_none {A : Type} (f : A -> bool) (l : list A) :
  Forall (fun x => f x = false) l -> List.filter f l = [].
Proof.
  induction 1 as [|x l Hx _ IH]; simpl; [done|]. by rewrite Hx.
Qed.

(** [Series.max] on a column without NaN and with at least one cell. *)
Lemma series_max_spec (xs : list float) :
  xs <> [] -> Forall (fun y => F64.is_nan y = false) xs ->
  series_max xs ∈ xs
  /\ forall y, y ∈ xs -> F64.leb y (series_max xs) = true.
Proof.
  intros Hne Hnan. unfold series_max.
  rewrite filter_all
    by (eapply Forall_impl; [exact Hnan|]; by intros y ->).
  destruct xs as [|x r]; [done|]. by apply fold_fmax_spec.
Qed.

Lemma series_min_spec (xs : list float) :
  xs <> [] -> Forall (fun y => F64.is_nan y = false) xs ->
  series_min xs ∈ xs
  /\ forall y, y ∈ xs -> F64.leb (series_min xs) y = true.
Proof.
  intros Hne Hnan. unfold series_min.
  rewrite filter_all
    by (eapply Forall_impl; [exact Hnan|]; by intros y ->).
  destruct xs as [|x r]; [done|]. by apply fold_fmin_spec.
Qed.

(** ** Signs of quotients and products *)

Lemma mul_hundred_nonneg (x : float) :
  nonneg x = true -> nonneg (F64.mul x hundred) = true.
Proof.
  destruct x as [[]|[]| |[] m e]; try done. intros _.
  change hundred with (S754_finite false 7036874417766400 (-46)).
  unfold F64.mul, SFmul. simpl xorb.
  pose proof (binary_round_aux_sign false
                (Zpos (m * 7036874417766400)) (e + -46) loc_Exact ltac:(lia)) as H.
  destruct (binary_round_aux _ _ _ _ _ _) as [s|s| |s m' e']; try done;
    by subst s.
Qed.

Lemma percentage_nonneg (k n : Z) :
  0 <= k -> 0 < n -> nonneg (percentage k n) = true.
Proof. intros Hk Hn. by apply mul_hundred_nonneg, of_ratio_nonneg. Qed.

Lemma len_nonneg {A : Type} (l : list A) : 0 <= len l.
Proof. unfold len. lia. Qed.

(** ** The two ends of a rate *)

Lemma of_ratio_same (n : Z) : 0 < n -> F64.of_ratio n n = F64.of_Z 1.
Proof.
  destruct n as [|p|p]; try lia; intros _.
  unfold F64.of_ratio, F64.div, SFdiv, SFdiv_core_binary.
  replace (Zdigits2 (Zpos p) + 0 - (Zdigits2 (Zpos p) + 0)) with 0 by lia.
  change (0 - 0 - Z.min (fexp F64.prec F64.emax 0) (0 - 0)) with 53.
  change (Z.min (fexp F64.prec F64.emax 0) (0 - 0)) with (-53).
  cbv iota. rewrite Z.shiftl_mul_pow2 by lia.
  assert (Hq : (Zpos p * 2 ^ 53) / Zpos p = 2 ^ 53).
  { rewrite Z.mul_comm. apply Z.div_mul. lia. }
  assert (Hr : (Zpos p * 2 ^ 53) mod Zpos p = 0).
  { rewrite Z.mul_comm. apply Z.mod_mul. lia. }
  unfold Z.div in Hq. unfold Z.modulo in Hr.
  destruct (Z.div_eucl (Zpos p * 2 ^ 53) (Zpos p)) as [q r]. subst q r.
  assert (Hloc : new_location (Zpos p) 0 = loc_Exact).
  { unfold new_location. by destruct (Z.even (Zpos p)). }
  rewrite Hloc. vm_compute. reflexivity.
Qed.

Lemma percentage_all (n : Z) : 0 < n -> percentage n n = hundred.
Proof.
  intros Hn. unfold percentage. rewrite of_ratio_same by done.
  vm_compute. reflexivity.
Qed.

Lemma percentage_none (n : Z) : percentage 0 n = F64.zero.
Proof. vm_compute. reflexivity. Qed.

(** ** Record sets without a winner or without a loser *)

Lemma total_trades_pos (r : deal) (rs : list deal) : (0 <? total_trades (r :: rs)) = true.
Proof. apply Z.ltb_lt. unfold total_trades, len. simpl length. lia. Qed.

Lemma elem_of_Forall_false {A : Type} (f : A -> bool) (l : list A) :
  (forall t, t ∈ l -> f t = false) -> Forall (fun t => f t = false) l.
Proof. intros H. by apply Forall_forall. Qed.

(** X15. Without a losing deal every metric of the losing side is at its
    fallback: "Loss Rate" and "Gross Loss" are the float 0.0, "Profit
    Factor", "Worst Trade", "Average Loss per Trade" and "Avg. RRR" are the
    integer 0, whatever was won. *)
Theorem no_losing_deal (rs : list deal) (a : Account.t) (m : Metrics.t) :
  rs <> [] ->
  (forall t, t ∈ rs -> F64.ltb (profit t) F64.zero = false) ->
  calculate_metrics rs a = Ok m ->
  lookup_metric "Loss Rate" (Metrics.default m) = Some (PyFloat F64.zero)
  /\ lookup_metric "Gross Loss" (Metrics.default m) = Some (PyFloat F64.zero)
  /\ lookup_metric "Profit Factor" (Metrics.default m) = Some (PyInt 0)
  /\ lookup_metric "Worst Trade" (Metrics.default m) = Some (PyInt 0)
  /\ lookup_metric "Average Loss per Trade" (Metrics.default m) = Some (PyInt 0)
  /\ lookup_metric "Avg. RRR" (Metrics.default m) = Some (PyInt 0).
Proof.
  intros Hne Hnone Hm.
  assert (Hl : losing_trades rs = []).
  { apply filter_none. by apply elem_of_Forall_false. }
  on_paths rs a m Hm; [done|].
  unfold lookup_metric; simpl.
  unfold loss_rate, gross_loss, profit_factor, worst_trade, avg_rrr,
    avg_loss_per_trade, gross_loss.
  rewrite Hl, total_trades_pos. simpl. by rewrite percentage_none.
Qed.

Lemma no_losing_deal_witness :
  lookup_metric "Loss Rate" (Metrics.default Scenario.one_win_result)
  = Some (PyFloat F64.zero)
  /\ lookup_metric "Avg. RRR" (Metrics.default Scenario.one_win_result)
     = Some (PyInt 0).
Proof.
  assert (H : Scenario.one_win <> []
              /\ (forall t, t ∈ Scenario.one_win ->
                    F64.ltb (profit t) F64.zero = false)
              /\ calculate_metrics Scenario.one_win Scenario.account
                 = Ok Scenario.one_win_result).
  { split; [discriminate|]. split; [|vm_compute; reflexivity].
    intros t Ht. apply list_elem_of_singleton in Ht as ->.
    vm_compute. reflexivity. }
  destruct H as (Hne & Hnone & Hm).
  destruct (no_losing_deal _ _ _ Hne Hnone Hm) as (H1 & _ & _ & _ & _ & H6).
  split; [exact H1|exact H6].
Defined.

(** X16. Without a profitable deal "Win Rate" and "Gross Profit" are the float
    0.0, "Best Trade" and "Average Profit per Trade" are the integer 0, and
    "Profit Factor", "Long Won" and "Short Won" are zero. *)
Theorem no_profitable_deal (rs : list deal) (a : Account.t) (m : Metrics.t) :
  rs <> [] ->
  (forall t, t ∈ rs -> F64.ltb F64.zero (profit t) = false) ->
  calculate_metrics rs a = Ok m ->
  lookup_metric "Win Rate" (Metrics.default m) = Some (PyFloat F64.zero)
  /\ lookup_metric "Gross Profit" (Metrics.default m) = Some (PyFloat F64.zero)
  /\ lookup_metric "Best Trade" (Metrics.default m) = Some (PyInt 0)
  /\ lookup_metric "Average Profit per Trade" (Metrics.default m) = Some (PyInt 0)
  /\ forall n, n ∈ ["Profit Factor"; "Long Won"; "Short Won"] ->
       exists v, lookup_metric n (Metrics.default m) = Some v /\ py_eq0 v = true.
Proof.
  intros Hne Hnone Hm.
  assert (Hp : profitable_trades rs = []).
  { apply filter_none. by apply elem_of_Forall_false. }
  assert (Hsub : forall f : deal -> bool,
            List.filter (fun t => F64.ltb F64.zero (profit t)) (List.filter f rs)
            = []).
  { intros f. apply filter_none, Forall_forall. intros t Ht.
    apply Hnone. by apply list_elem_of_In, filter_In in Ht as [?%list_elem_of_In _]. }
  on_paths rs a m Hm; [done|].
  unfold lookup_metric; simpl.
  unfold win_rate, gross_profit, best_trade, avg_profit_per_trade.
  rewrite Hp, total_trades_pos. simpl. rewrite percentage_none.
  split; [done|]. split; [done|]. split; [done|]. split; [done|].
  intros n Hn.
  apply elem_of_cons in Hn as [->|Hn]; [|apply elem_of_cons in Hn as [->|Hn];
    [|apply list_elem_of_singleton in Hn as ->]]; simpl.
  - unfold profit_factor, gross_profit. rewrite Hp. simpl.
    destruct (F64.ltb F64.zero (gross_loss (r :: rs))) eqn:Hgl;
      [|by eexists].
    eexists. split; [reflexivity|]. simpl.
    change (series_sum []) with F64.zero.
    by destruct (gross_loss (r :: rs)) as [[]|[]| |[] ? ?].
  - unfold long_won, long_trades. rewrite Hsub.
    destruct (0 <? _); eexists; (split; [reflexivity|]); [|done].
    simpl. by rewrite percentage_none.
  - unfold short_won, short_trades. rewrite Hsub.
    destruct (0 <? _); eexists; (split; [reflexivity|]); [|done].
    simpl. by rewrite percentage_none.
Qed.

Lemma no_profitable_deal_witness :
  exists m,
    calculate_metrics Samples.only_losses Scenario.account = Ok m
    /\ lookup_metric "Win Rate" (Metrics.default m) = Some (PyFloat F64.zero)
    /\ lookup_metric "Best Trade" (Metrics.default m) = Some (PyInt 0).
Proof.
  exists (Scenario.run Samples.only_losses Scenario.account).
  assert (H : Samples.only_losses <> []
              /\ (forall t, t ∈ Samples.only_losses ->
                    F64.ltb F64.zero (profit t) = false)
              /\ calculate_metrics Samples.only_losses Scenario.account
                 = Ok (Scenario.run Samples.only_losses Scenario.account)).
  { split; [discriminate|]. split; [|vm_compute; reflexivity].
    intros t Ht. apply elem_of_replicate in Ht as [-> _].
    vm_compute. reflexivity. }
  destruct H as (Hne & Hnone & Hm). split; [exact Hm|].
  destruct (no_profitable_deal _ _ _ Hne Hnone Hm) as (H1 & _ & H3 & _).
  split; [exact H1|exact H3].
Defined.

(** X17. When every deal is profitable "Win Rate" is exactly 100 and "Loss Rate"
    exactly 0; when every deal is losing it is the other way round. *)
Theorem rates_at_the_ends (rs : list deal) (a : Account.t) (m : Metrics.t) :
  rs <> [] ->
  calculate_metrics rs a = Ok m ->
  ((forall t, t ∈ rs -> F64.ltb F64.zero (profit t) = true) ->
     lookup_metric "Win Rate" (Metrics.default m) = Some (PyFloat (F64.of_Z 100))
     /\ lookup_metric "Loss Rate" (Metrics.default m) = Some (PyFloat F64.zero))
  /\ ((forall t, t ∈ rs -> F64.ltb (profit t) F64.zero = true) ->
        lookup_metric "Win Rate" (Metrics.default m) = Some (PyFloat F64.zero)
        /\ lookup_metric "Loss Rate" (Metrics.default m)
           = Some (PyFloat (F64.of_Z 100))).
Proof.
  intros Hne Hm.
  on_paths rs a m Hm; [done|].
  assert (Hn : 0 < total_trades (r :: rs))
    by (apply Z.ltb_lt, total_trades_pos).
  unfold lookup_metric; simpl. unfold win_rate, loss_rate.
  rewrite total_trades_pos.
  split; intros Hall.
  - assert (Hp : profitable_trades (r :: rs) = r :: rs)
      by (by apply filter_all, Forall_forall).
    assert (Hl : losing_trades (r :: rs) = []).
    { apply filter_none, Forall_forall. intros t Ht.
      destruct (F64.ltb (profit t) F64.zero) eqn:Hlt; [|done].
      destruct (profit_and_loss_exclusive _ (Hall t Ht) Hlt). }
    rewrite Hp, Hl. fold (total_trades (r :: rs)).
    by rewrite percentage_all, percentage_none.
  - assert (Hl : losing_trades (r :: rs) = r :: rs)
      by (by apply filter_all, Forall_forall).
    assert (Hp : profitable_trades (r :: rs) = []).
    { apply filter_none, Forall_forall. intros t Ht.
      destruct (F64.ltb F64.zero (profit t)) eqn:Hlt; [|done].
      destruct (profit_and_loss_exclusive _ Hlt (Hall t Ht)). }
    rewrite Hp, Hl. fold (total_trades (r :: rs)).
    by rewrite percentage_all, percentage_none.
Qed.

Lemma rates_at_the_ends_witness :
  lookup_metric "Win Rate" (Metrics.default Scenario.one_win_result)
  = Some (PyFloat (F64.of_Z 100))
  /\ lookup_metric "Loss Rate" (Metrics.default Scenario.one_win_result)
     = Some (PyFloat F64.zero).
Proof.
  assert (Hne : Scenario.one_win <> []) by discriminate.
  assert (Hm : calculate_metrics Scenario.one_win Scenario.account
               = Ok Scenario.one_win_result) by (vm_compute; reflexivity).
  apply (rates_at_the_ends _ _ _ Hne Hm).
  intros t Ht. apply list_elem_of_singleton in Ht as ->.
  vm_compute. reflexivity.
Defined.

(** ** Signs of the rates and of the lots *)

(** X18. "Win Rate", "Loss Rate", "Long Won" and "Short Won" are numbers that
    are greater than or equal to 0, never NaN and never negative. *)
Theorem rates_nonneg (rs : list deal) (a : Account.t) (m : Metrics.t) (n : string) :
  calculate_metrics rs a = Ok m ->
  n ∈ ["Win Rate"; "Loss Rate"; "Long Won"; "Short Won"] ->
  exists v, lookup_metric n (Metrics.default m) = Some v /\ py_ge0 v = true.
Proof.
  intros Hm Hn.
  assert (Hshare : forall k t : Z, 0 <= k ->
            py_ge0 (if 0 <? t then PyFloat (percentage k t) else PyInt 0) = true).
  { intros k t Hk. destruct (0 <? t) eqn:Ht; [|done]. simpl.
    rewrite leb_zero_nonneg. apply percentage_nonneg; [done|].
    by apply Z.ltb_lt. }
  on_paths rs a m Hm.
  - repeat (apply elem_of_cons in Hn as [->|Hn]; [by exists (PyInt 0)|]).
    by apply elem_of_nil in Hn.
  - repeat (apply elem_of_cons in Hn as
              [->|Hn]; [eexists; split; [reflexivity|]; apply Hshare, len_nonneg|]).
    by apply elem_of_nil in Hn.
Qed.

Lemma rates_nonneg_witness :
  exists v,
    lookup_metric "Short Won" (Metrics.default Scenario.result) = Some v
    /\ py_ge0 v = true.
Proof.
  apply (rates_nonneg Scenario.records Scenario.account).
  - vm_compute. reflexivity.
  - do 3 right. left.
Defined.

(** X19. "Lots" is greater than or equal to 0 when no volume is negative; a
    volume that is missing (NaN) counts as 0. *)
Theorem lots_nonneg (rs : list deal) (a : Account.t) (m : Metrics.t) :
  (forall t, t ∈ rs ->
     nonneg (volume t) = true \/ F64.is_nan (volume t) = true) ->
  calculate_metrics rs a = Ok m ->
  exists v, lookup_metric "Lots" (Metrics.default m) = Some v /\ py_ge0 v = true.
Proof.
  intros Hvol Hm. on_paths rs a m Hm; [by exists (PyInt 0)|].
  exists (PyFloat (series_sum (map volume (r :: rs)))). split; [done|].
  unfold py_ge0. rewrite leb_zero_nonneg.
  apply series_sum_nonneg_cells, Forall_forall. intros x Hx.
  apply list_elem_of_fmap in Hx as (t & -> & Ht). by apply Hvol.
Qed.

Lemma lots_nonneg_witness :
  exists v,
    lookup_metric "Lots" (Metrics.default Scenario.result) = Some v
    /\ py_ge0 v = true.
Proof.
  apply (lots_nonneg Scenario.records Scenario.account).
  - intros t Ht. left.
    apply elem_of_cons in Ht as [->|Ht]; [vm_compute; reflexivity|].
    apply list_elem_of_singleton in Ht as ->. vm_compute; reflexivity.
  - vm_compute. reflexivity.
Defined.

(** ** Best and worst trade *)

Lemma leb_not_ltb (a b : float) : F64.leb a b = true -> F64.ltb b a = false.
Proof.
  destruct a as [[]|[]| |[] m1 e1], b as [[]|[]| |[] m2 e2]; try done.
  - rewrite finite_leb_neg. intros H.
    unfold F64.ltb, SFltb, SFcompare.
    destruct (Z.compare_spec e2 e1) as [->|Hlt|Hgt]; [|done || lia..].
    rewrite Pos.compare_cont_spec. simpl.
    destruct (Pos.compare_spec m2 m1); simpl; try done; lia.
  - rewrite finite_leb_pos. intros H.
    unfold F64.ltb, SFltb, SFcompare.
    destruct (Z.compare_spec e2 e1) as [->|Hlt|Hgt]; [|done || lia..].
    rewrite Pos.compare_cont_spec. simpl.
    destruct (Pos.compare_spec m2 m1); simpl; try done; lia.
Qed.

Lemma ltb_nan_r (a b : float) : F64.is_nan b = true -> F64.ltb a b = false.
Proof. by destruct a as [[]|[]| |[] ? ?], b. Qed.

Lemma ltb_nan_l (a b : float) : F64.is_nan a = true -> F64.ltb a b = false.
Proof. by destruct a, b. Qed.

Lemma zero_not_nan : F64.is_nan F64.zero = false.
Proof. done. Qed.

(** A float that is not above 0 is not above a float that is. *)
Lemma not_above_positive (x b : float) :
  F64.ltb F64.zero b = true -> F64.ltb F64.zero x = false -> F64.ltb b x = false.
Proof.
  intros Hb Hx. destruct (F64.is_nan x) eqn:Hnan; [by apply ltb_nan_r|].
  apply leb_not_ltb, leb_trans with F64.zero.
  - by apply not_ltb_leb.
  - by apply ltb_leb.
Qed.

Lemma not_below_negative (x b : float) :
  F64.ltb b F64.zero = true -> F64.ltb x F64.zero = false -> F64.ltb x b = false.
Proof.
  intros Hb Hx. destruct (F64.is_nan x) eqn:Hnan; [by apply ltb_nan_l|].
  apply leb_not_ltb, leb_trans with F64.zero.
  - by apply ltb_leb.
  - apply not_ltb_leb; [done..|]. exact Hx.
Qed.

Lemma profitable_trades_spec (rs : list deal) (t : deal) :
  t ∈ profitable_trades rs <-> t ∈ rs /\ F64.ltb F64.zero (profit t) = true.
Proof.
  unfold profitable_trades. by rewrite !list_elem_of_In, filter_In.
Qed.

Lemma losing_trades_spec (rs : list deal) (t : deal) :
  t ∈ losing_trades rs <-> t ∈ rs /\ F64.ltb (profit t) F64.zero = true.
Proof.
  unfold losing_trades. by rewrite !list_elem_of_In, filter_In.
Qed.

(** X13. As soon as one deal is profitable, "Best Trade" is the profit of a
    profitable deal of the record set, and no deal of the record set has a
    greater profit. *)
Theorem best_trade_is_maximum
    (rs : list deal) (a : Account.t) (m : Metrics.t) (w : deal) :
  w ∈ rs -> F64.ltb F64.zero (profit w) = true ->
  calculate_metrics rs a = Ok m ->
  exists t,
    t ∈ rs
    /\ F64.ltb F64.zero (profit t) = true
    /\ lookup_metric "Best Trade" (Metrics.default m) = Some (PyFloat (profit t))
    /\ forall u, u ∈ rs -> F64.ltb (profit t) (profit u) = false.
Proof.
  intros Hw Hpos Hm.
  assert (Hin : w ∈ profitable_trades rs) by (by apply profitable_trades_spec).
  assert (Hne : map profit (profitable_trades rs) <> []).
  { destruct (profitable_trades rs); [by apply elem_of_nil in Hin|done]. }
  assert (Hnan : Forall (fun y => F64.is_nan y = false)
                   (map profit (profitable_trades rs))).
  { eapply Forall_impl; [apply profitable_trades_positive|].
    apply ltb_zero_not_nan. }
  destruct (series_max_spec _ Hne Hnan) as [Hmax Hupper].
  apply list_elem_of_fmap in Hmax as (t & Hbest & [Ht Htpos]%profitable_trades_spec).
  exists t. split; [done|]. split; [done|]. split.
  - on_paths rs a m Hm; [by apply elem_of_nil in Hw|].
    unfold lookup_metric; simpl. unfold best_trade.
    destruct (profitable_trades (r :: rs)); [done|]. simpl negb. cbv iota.
    by rewrite Hbest.
  - intros u Hu. rewrite <- Hbest.
    destruct (F64.ltb F64.zero (profit u)) eqn:Hupos.
    + apply leb_not_ltb, Hupper, list_elem_of_fmap.
      exists u. split; [done|]. by apply profitable_trades_spec.
    + rewrite Hbest. by apply not_above_positive.
Qed.

Lemma best_trade_is_maximum_witness :
  exists t,
    t ∈ Scenario.records
    /\ F64.ltb F64.zero (profit t) = true
    /\ lookup_metric "Best Trade" (Metrics.default Scenario.result)
       = Some (PyFloat (profit t))
    /\ forall u, u ∈ Scenario.records -> F64.ltb (profit t) (profit u) = false.
Proof.
  apply (best_trade_is_maximum Scenario.records Scenario.account Scenario.result
           (Deal (F64.of_Z 100) (F64.of_Z 1) mt5.ORDER_TYPE_BUY None None)).
  - by left.
  - vm_compute. reflexivity.
  - vm_compute. reflexivity.
Defined.

(** X14. As soon as one deal is losing, "Worst Trade" is the profit of a
    losing deal of the record set, and no deal of the record set has a
    smaller profit. *)
Theorem worst_trade_is_minimum
    (rs : list deal) (a : Account.t) (m : Metrics.t) (w : deal) :
  w ∈ rs -> F64.ltb (profit w) F64.zero = true ->
  calculate_metrics rs a = Ok m ->
  exists t,
    t ∈ rs
    /\ F64.ltb (profit t) F64.zero = true
    /\ lookup_metric "Worst Trade" (Metrics.default m) = Some (PyFloat (profit t))
    /\ forall u, u ∈ rs -> F64.ltb (profit u) (profit t) = false.
Proof.
  intros Hw Hneg Hm.
  assert (Hin : w ∈ losing_trades rs) by (by apply losing_trades_spec).
  assert (Hne : map profit (losing_trades rs) <> []).
  { destruct (losing_trades rs); [by apply elem_of_nil in Hin|done]. }
  assert (Hnan : Forall (fun y => F64.is_nan y = false)
                   (map profit (losing_trades rs))).
  { eapply Forall_impl; [apply losing_trades_negative|].
    apply ltb_neg_not_nan. }
  destruct (series_min_spec _ Hne Hnan) as [Hmin Hlower].
  apply list_elem_of_fmap in Hmin as (t & Hworst & [Ht Htneg]%losing_trades_spec).
  exists t. split; [done|]. split; [done|]. split.
  - on_paths rs a m Hm; [by apply elem_of_nil in Hw|].
    unfold lookup_metric; simpl. unfold worst_trade.
    destruct (losing_trades (r :: rs)); [done|]. simpl negb. cbv iota.
    by rewrite Hworst.
  - intros u Hu. rewrite <- Hworst.
    destruct (F64.ltb (profit u) F64.zero) eqn:Huneg.
    + apply leb_not_ltb, Hlower, list_elem_of_fmap.
      exists u. split; [done|]. by apply losing_trades_spec.
    + rewrite Hworst. by apply not_below_negative.
Qed.

Lemma worst_trade_is_minimum_witness :
  exists t,
    t ∈ Scenario.records
    /\ F64.ltb (profit t) F64.zero = true
    /\ lookup_metric "Worst Trade" (Metrics.default Scenario.result)
       = Some (PyFloat (profit t))
    /\ forall u, u ∈ Scenario.records -> F64.ltb (profit u) (profit t) = false.
Proof.
  apply (worst_trade_is_minimum Scenario.records Scenario.account Scenario.result
           (Deal (F64.of_Z (-50)) (F64.of_Z 2) mt5.ORDER_TYPE_SELL None None)).
  - right. by left.
  - vm_compute. reflexivity.
  - vm_compute. reflexivity.
Defined.

(** ** What the engine raises *)

Lemma total_microseconds_finite (s : bool) (m : positive) (e : Z) :
  exists us, timedelta.total_microseconds (S754_finite s m e) = Ok us.
Proof.
  unfold timedelta.total_microseconds. simpl F64.trunc. cbv iota.
  destruct (F64.eqb _ F64.zero); by eexists.
Qed.

Lemma float_of_int_raises (z : Z) (e : exn) :
  float_of_int z = Raise e -> e = OverflowError.
Proof.
  unfold float_of_int. destruct (F64.of_Z z); try done. by intros [= <-].
Qed.

Lemma to_float_raises (x : number) (e : exn) :
  to_float x = Raise e -> e = OverflowError.
Proof. destruct x; [apply float_of_int_raises|done]. Qed.

Lemma py_sub_raises (x y : number) (e : exn) :
  py_sub x y = Raise e -> e = OverflowError.
Proof.
  unfold py_sub. destruct x as [a|a], y as [b|b]; try done; simpl;
    repeat match goal with
           | |- context [float_of_int ?z] =>
               destruct (float_of_int z) eqn:?; simpl
           end;
    try done; intros [= <-]; by eapply float_of_int_raises.
Qed.

Lemma py_add_raises (x y : number) (e : exn) :
  py_add x y = Raise e -> e = OverflowError.
Proof.
  unfold py_add. destruct x as [a|a], y as [b|b]; try done; simpl;
    repeat match goal with
           | |- context [float_of_int ?z] =>
               destruct (float_of_int z) eqn:?; simpl
           end;
    try done; intros [= <-]; by eapply float_of_int_raises.
Qed.

Lemma durations_of_raises (rs : list deal) (e : exn) :
  durations_of rs = Raise e -> e = OverflowError.
Proof.
  induction rs as [|t rs IH]; [done|]. cbn [durations_of].
  destruct (time_update t) as [u|], (time_setup t) as [s|]; try exact IH.
  destruct (py_sub u s) eqn:Hsub; simpl.
  - destruct (durations_of rs); [done|]. simpl. intros [= <-]. by apply IH.
  - intros [= <-]. by eapply py_sub_raises.
Qed.

Lemma sum_from_raises (xs : list number) (acc : number) (e : exn) :
  sum_from acc xs = Raise e -> e = OverflowError.
Proof.
  revert acc. induction xs as [|x xs IH]; intros acc; [done|]. simpl.
  destruct (py_add acc x) eqn:Hadd; simpl; [apply IH|].
  intros [= <-]. by eapply py_add_raises.
Qed.

Lemma py_truediv_raises (x : number) (n : Z) (e : exn) :
  n <> 0 -> py_truediv x n = Raise e -> e = OverflowError.
Proof.
  intros Hn. apply Z.eqb_neq in Hn. unfold py_truediv, int_truediv.
  rewrite Hn. destruct x as [a|f].
  - destruct (F64.of_ratio a n); try done. by intros [= <-].
  - destruct (float_of_int n) eqn:Hb; simpl; [done|].
    intros [= <-]. by eapply float_of_int_raises.
Qed.

Lemma mean_or_zero_raises (durations : list number) (e : exn) :
  mean_or_zero durations = Raise e -> e = OverflowError.
Proof.
  unfold mean_or_zero. destruct durations as [|d ds]; [done|].
  simpl df_empty. simpl negb. cbv iota.
  destruct (py_sum (d :: ds)) as [total|e'] eqn:Hsum; simpl.
  - destruct (py_truediv total (len (d :: ds))) eqn:Hdiv; simpl; [done|].
    intros [= <-]. eapply py_truediv_raises; [|exact Hdiv].
    unfold len. simpl length. lia.
  - intros [= <-]. by eapply sum_from_raises.
Qed.

(** A positive number of seconds that cannot be turned into a delta is too
    large. *)
Lemma of_seconds_raises (x : float) (e : exn) :
  F64.ltb F64.zero x = true ->
  timedelta.of_seconds x = Raise e -> e = OverflowError.
Proof.
  intros Hpos. unfold timedelta.of_seconds.
  destruct x as [s|s| |s m k]; try done.
  - simpl. by intros [= <-].
  - destruct (total_microseconds_finite s m k) as (us & ->). simpl.
    unfold timedelta.microseconds_to_delta.
    destruct (_ && _)%bool; simpl; [done|]. by intros [= <-].
Qed.

Lemma avg_duration_hours_raises (rs : list deal) (e : exn) :
  avg_duration_hours rs = Raise e -> e = OverflowError.
Proof.
  unfold avg_duration_hours, avg_duration_seconds, trade_durations.
  destruct (durations_of rs) as [ds|e'] eqn:Hds; simpl.
  2: { intros [= <-]. by eapply durations_of_raises. }
  destruct (mean_or_zero ds) as [avg|e'] eqn:Havg; simpl.
  2: { intros [= <-]. by eapply mean_or_zero_raises. }
  destruct (py_gt0 avg) eqn:Hgt; [|done].
  destruct avg as [z|mean|text]; simpl in Hgt.
  - unfold mean_or_zero in Havg. destruct ds; [|simpl in Havg].
    + by injection Havg as <-.
    + destruct (py_sum _); simpl in Havg; [|done].
      by destruct (py_truediv _ _).
  - simpl as_float. destruct (timedelta.of_seconds mean) eqn:Hdelta; simpl;
      [done|].
    intros [= <-]. by eapply of_seconds_raises.
  - done.
Qed.

(** X12. The engine raises nothing but [OverflowError]; and when the
    timestamps are whole seconds, only on a record set with a row that
    carries both timestamps at least [2^45] seconds, some 1.1 million
    years, apart. *)
Theorem engine_raises_only_overflow (rs : list deal) (a : Account.t) (e : exn) :
  calculate_metrics rs a = Raise e ->
  e = OverflowError
  /\ (Forall (fun t => whole t = true) rs ->
      exists t, t ∈ rs /\ has_both t = true /\ 2 ^ 45 <= Z.abs (duration t)).
Proof.
  intros Hr. split.
  - unfold calculate_metrics in Hr. destruct (df_empty rs); [done|].
    destruct (avg_duration_hours rs) as [text|e'] eqn:Hd; [done|].
    simpl in Hr. injection Hr as <-. by eapply avg_duration_hours_raises.
  - intros Hw.
    assert (Hbig : ~ Forall (fun d => Z.abs d < 2 ^ 45) (int_durations rs)).
    { intros Hall. destruct (calculate_metrics_total rs a Hw Hall) as [m Hm].
      congruence. }
    apply not_Forall_Exists in Hbig; [|intros d; apply Z_lt_dec].
    apply Exists_exists in Hbig as (d & Hd & Hlarge).
    unfold int_durations in Hd.
    apply list_elem_of_fmap in Hd as (t & -> & Ht).
    apply list_elem_of_In, filter_In in Ht as [Ht Hboth].
    exists t. split; [by apply list_elem_of_In|]. split; [done|].
    unfold compose in Hlarge. lia.
Qed.

Lemma engine_raises_only_overflow_witness :
  calculate_metrics aeon Scenario.account = Raise OverflowError
  /\ exists t, t ∈ aeon /\ has_both t = true /\ 2 ^ 45 <= Z.abs (duration t).
Proof.
  assert (Hr : calculate_metrics aeon Scenario.account = Raise OverflowError)
    by (vm_compute; reflexivity).
  split; [exact Hr|].
  apply (proj2 (engine_raises_only_overflow _ _ _ Hr)).
  repeat constructor.
Defined.

(** ** The order of the deals *)

Lemma filter_Permutation {A : Type} (f : A -> bool) (l l' : list A) :
  l ≡ₚ l' -> List.filter f l ≡ₚ List.filter f l'.
Proof.
  induction 1 as [|x l l' _ IH|x y l|l l' l'' _ IH1 _ IH2]; simpl.
  - done.
  - destruct (f x); by rewrite IH.
  - destruct (f x), (f y); try done. apply perm_swap.
  - by etrans.
Qed.

Lemma len_Permutation {A : Type} (l l' : list A) : l ≡ₚ l' -> len l = len l'.
Proof. intros H. unfold len. by rewrite (Permutation_length H). Qed.

Lemma df_empty_Permutation {A : Type} (l l' : list A) :
  l ≡ₚ l' -> df_empty l = df_empty l'.
Proof.
  intros H. destruct l, l'; try done.
  - by apply Permutation_nil_cons in H.
  - symmetry in H. by apply Permutation_nil_cons in H.
Qed.

Lemma fold_add_Permutation (l l' : list Z) (acc : Z) :
  l ≡ₚ l' -> fold_left Z.add l acc = fold_left Z.add l' acc.
Proof.
  intros H. revert acc.
  induction H as [|x l l' _ IH|x y l|l l' l'' _ IH1 _ IH2]; intros acc; simpl.
  - done.
  - apply IH.
  - f_equal. lia.
  - by rewrite IH1.
Qed.

Lemma int_durations_Permutation (rs rs' : list deal) :
  rs ≡ₚ rs' -> int_durations rs ≡ₚ int_durations rs'.
Proof.
  intros H. unfold int_durations.
  by apply Permutation_map, filter_Permutation.
Qed.

(** Whole seconds are added exactly, in any order. *)
Lemma avg_duration_hours_Permutation (rs rs' : list deal) :
  Forall (fun t => whole t = true) rs ->
  rs ≡ₚ rs' -> avg_duration_hours rs = avg_duration_hours rs'.
Proof.
  intros Hw Hperm.
  assert (Hw' : Forall (fun t => whole t = true) rs') by (by rewrite <- Hperm).
  apply int_durations_Permutation in Hperm as H.
  unfold avg_duration_hours.
  rewrite (avg_duration_seconds_whole rs Hw), (avg_duration_seconds_whole rs' Hw').
  by rewrite (df_empty_Permutation _ _ H), (fold_add_Permutation _ _ 0 H),
    (len_Permutation _ _ H).
Qed.

Lemma leb_antisym_pos (a b : float) :
  F64.ltb F64.zero a = true ->
  F64.leb a b = true -> F64.leb b a = true -> a = b.
Proof.
  destruct a as [[]|[]| |[] m1 e1], b as [[]|[]| |[] m2 e2]; try done.
  intros _. rewrite !finite_leb_pos. intros H1 H2.
  assert (e1 = e2) as -> by lia. f_equal. lia.
Qed.

Lemma leb_antisym_neg (a b : float) :
  F64.ltb a F64.zero = true ->
  F64.leb a b = true -> F64.leb b a = true -> a = b.
Proof.
  destruct a as [[]|[]| |[] m1 e1], b as [[]|[]| |[] m2 e2]; try done.
  intros _. rewrite !finite_leb_neg. intros H1 H2.
  assert (e1 = e2) as -> by lia. f_equal. lia.
Qed.

Lemma series_max_Permutation (xs ys : list float) :
  xs ≡ₚ ys -> Forall (fun x => F64.ltb F64.zero x = true) xs ->
  series_max xs = series_max ys.
Proof.
  intros Hperm Hpos.
  destruct xs as [|x xs]; [by apply Permutation_nil in Hperm as ->|].
  assert (Hne : ys <> []).
  { intros ->. symmetry in Hperm. by apply Permutation_nil_cons in Hperm. }
  assert (Hnx : Forall (fun y => F64.is_nan y = false) (x :: xs)).
  { eapply Forall_impl; [exact Hpos|]. apply ltb_zero_not_nan. }
  assert (Hny : Forall (fun y => F64.is_nan y = false) ys)
    by (by rewrite <- Hperm).
  destruct (series_max_spec (x :: xs) ltac:(done) Hnx) as [Hin1 Hup1].
  destruct (series_max_spec ys Hne Hny) as [Hin2 Hup2].
  apply leb_antisym_pos.
  - rewrite Forall_forall in Hpos. by apply Hpos.
  - apply Hup2. by rewrite <- Hperm.
  - apply Hup1. by rewrite Hperm.
Qed.

Lemma series_min_Permutation (xs ys : list float) :
  xs ≡ₚ ys -> Forall (fun x => F64.ltb x F64.zero = true) xs ->
  series_min xs = series_min ys.
Proof.
  intros Hperm Hneg.
  destruct xs as [|x xs]; [by apply Permutation_nil in Hperm as ->|].
  assert (Hne : ys <> []).
  { intros ->. symmetry in Hperm. by apply Permutation_nil_cons in Hperm. }
  assert (Hnx : Forall (fun y => F64.is_nan y = false) (x :: xs)).
  { eapply Forall_impl; [exact Hneg|]. apply ltb_neg_not_nan. }
  assert (Hny : Forall (fun y => F64.is_nan y = false) ys)
    by (by rewrite <- Hperm).
  destruct (series_min_spec (x :: xs) ltac:(done) Hnx) as [Hin1 Hlo1].
  destruct (series_min_spec ys Hne Hny) as [Hin2 Hlo2].
  apply leb_antisym_neg.
  - rewrite Forall_forall in Hneg. by apply Hneg.
  - apply Hlo1. by rewrite Hperm.
  - apply Hlo2. by rewrite <- Hperm.
Qed.

(** X20. The metrics that count or compare do not depend on the order in
    which the terminal reports the deals: when the engine returns on a
    record set whose timestamps are whole seconds, it returns on each of
    its permutations, with the same "Win Rate", "Loss Rate", "Best Trade",
    "Worst Trade", "Long Won", "Short Won" and "Average Trade Duration" and
    the same custom metrics. (The sums "Lots", "Gross Profit" and "Gross
    Loss" are added up in binary64, in an order that depends on the rows.) *)
Theorem order_of_deals (rs rs' : list deal) (a : Account.t) (m : Metrics.t) :
  Forall (fun t => whole t = true) rs ->
  rs ≡ₚ rs' ->
  calculate_metrics rs a = Ok m ->
  exists m',
    calculate_metrics rs' a = Ok m'
    /\ Metrics.custom m' = Metrics.custom m
    /\ forall n,
         n ∈ ["Win Rate"; "Loss Rate"; "Best Trade"; "Worst Trade";
              "Long Won"; "Short Won"; "Average Trade Duration"] ->
         lookup_metric n (Metrics.default m') = lookup_metric n (Metrics.default m).
Proof.
  intros Hw Hperm Hm.
  destruct rs as [|r rs].
  { apply Permutation_nil in Hperm as ->. by exists m. }
  destruct rs' as [|r' rs'];
    [symmetry in Hperm; by apply Permutation_nil_cons in Hperm|].
  apply calculate_metrics_nonempty in Hm as (text & Ht & ->); [|done].
  rewrite (avg_duration_hours_Permutation _ _ Hw Hperm) in Ht.
  unfold calculate_metrics at 1. simpl df_empty. cbv iota. rewrite Ht.
  eexists. split; [reflexivity|]. split; [done|].
  assert (Hp : profitable_trades (r :: rs) ≡ₚ profitable_trades (r' :: rs'))
    by (by apply filter_Permutation).
  assert (Hl : losing_trades (r :: rs) ≡ₚ losing_trades (r' :: rs'))
    by (by apply filter_Permutation).
  assert (Hlong : long_trades (r :: rs) ≡ₚ long_trades (r' :: rs'))
    by (by apply filter_Permutation).
  assert (Hshort : short_trades (r :: rs) ≡ₚ short_trades (r' :: rs'))
    by (by apply filter_Permutation).
  pose proof (filter_Permutation (fun t => F64.ltb F64.zero (profit t)) _ _ Hlong)
    as Hlw.
  pose proof (filter_Permutation (fun t => F64.ltb F64.zero (profit t)) _ _ Hshort)
    as Hsw.
  intros n Hn. unfold lookup_metric.
  repeat (apply elem_of_cons in Hn as [->|Hn]); simpl; [..|by apply elem_of_nil in Hn];
    f_equal.
  - unfold win_rate, total_trades.
    by rewrite (len_Permutation _ _ Hperm), (len_Permutation _ _ Hp).
  - unfold loss_rate, total_trades.
    by rewrite (len_Permutation _ _ Hperm), (len_Permutation _ _ Hl).
  - unfold best_trade. rewrite (df_empty_Permutation _ _ Hp).
    rewrite (series_max_Permutation (map profit (profitable_trades (r :: rs)))
               (map profit (profitable_trades (r' :: rs')))); [done| |].
    + by apply Permutation_map.
    + apply profitable_trades_positive.
  - unfold worst_trade. rewrite (df_empty_Permutation _ _ Hl).
    rewrite (series_min_Permutation (map profit (losing_trades (r :: rs)))
               (map profit (losing_trades (r' :: rs')))); [done| |].
    + by apply Permutation_map.
    + apply losing_trades_negative.
  - unfold long_won.
    by rewrite (len_Permutation _ _ Hlong), (len_Permutation _ _ Hlw).
  - unfold short_won.
    by rewrite (len_Permutation _ _ Hshort), (len_Permutation _ _ Hsw).
Qed.

Lemma order_of_deals_witness :
  exists m',
    calculate_metrics Samples.reversed Scenario.account = Ok m'
    /\ lookup_metric "Best Trade" (Metrics.default m')
       = Some (PyFloat (F64.of_Z 100)).
Proof.
  destruct (order_of_deals Scenario.records Samples.reversed Scenario.account
              Scenario.result) as (m' & Hm' & _ & Hsame).
  - repeat constructor.
  - apply Permutation_rev.
  - vm_compute. reflexivity.
  - exists m'. split; [exact Hm'|].
    rewrite Hsame; [vm_compute; reflexivity|]. do 2 right. left.
Defined.

(** ** Deals without profit or loss *)

Lemma filter_insert {A : Type} (f : A -> bool) (l1 l2 : list A) (x : A) :
  f x = false -> List.filter f (l1 ++ x :: l2) = List.filter f (l1 ++ l2).
Proof.
  intros Hx. rewrite !List.filter_app. simpl. by rewrite Hx.
Qed.

(** X21. A deal with a profit of zero (or a missing one) changes nothing about
    the money metrics: inserted anywhere into a non-empty record set it
    leaves "Gross Profit", "Gross Loss", "Profit Factor", "Best Trade",
    "Worst Trade", "Average Profit per Trade", "Average Loss per Trade" and
    "Avg. RRR" as they were. *)
Theorem flat_deal_ignored
    (rs1 rs2 : list deal) (t : deal) (a : Account.t) (m m' : Metrics.t) :
  flat t = true ->
  (rs1 ++ rs2)%list <> [] ->
  calculate_metrics (rs1 ++ rs2) a = Ok m ->
  calculate_metrics (rs1 ++ t :: rs2) a = Ok m' ->
  forall n,
    n ∈ ["Gross Profit"; "Gross Loss"; "Profit Factor"; "Best Trade";
         "Worst Trade"; "Average Profit per Trade"; "Average Loss per Trade";
         "Avg. RRR"] ->
    lookup_metric n (Metrics.default m') = lookup_metric n (Metrics.default m).
Proof.
  intros Hflat Hne Hm Hm' n Hn.
  apply andb_true_iff in Hflat as [Hp%negb_true_iff Hl%negb_true_iff].
  apply calculate_metrics_nonempty in Hm as (text & _ & ->); [|done].
  apply calculate_metrics_nonempty in Hm' as (text' & _ & ->);
    [|by destruct rs1].
  assert (Hpt : profitable_trades (rs1 ++ t :: rs2) = profitable_trades (rs1 ++ rs2))
    by (by apply filter_insert).
  assert (Hlt : losing_trades (rs1 ++ t :: rs2) = losing_trades (rs1 ++ rs2))
    by (by apply filter_insert).
  unfold lookup_metric.
  repeat (apply elem_of_cons in Hn as [->|Hn]); simpl; [..|by apply elem_of_nil in Hn];
    f_equal;
    unfold gross_profit, gross_loss, profit_factor, gross_profit, gross_loss,
      best_trade, worst_trade, avg_rrr, avg_profit_per_trade, avg_loss_per_trade;
    by rewrite ?Hpt, ?Hlt.
Qed.

Lemma flat_deal_ignored_witness :
  exists m',
    calculate_metrics Samples.with_break_even Scenario.account = Ok m'
    /\ lookup_metric "Profit Factor" (Metrics.default m')
       = Some (PyFloat (F64.of_Z 2))
    /\ lookup_metric "Win Rate" (Metrics.default m')
       <> lookup_metric "Win Rate" (Metrics.default Scenario.result).
Proof.
  exists (Scenario.run Samples.with_break_even Scenario.account).
  assert (Hm' : calculate_metrics Samples.with_break_even Scenario.account
                = Ok (Scenario.run Samples.with_break_even Scenario.account))
    by (vm_compute; reflexivity).
  split; [exact Hm'|]. split.
  - rewrite (flat_deal_ignored
               [Deal (F64.of_Z 100) (F64.of_Z 1) mt5.ORDER_TYPE_BUY None None]
               [Deal (F64.of_Z (-50)) (F64.of_Z 2) mt5.ORDER_TYPE_SELL None None]
               Samples.break_even Scenario.account Scenario.result
               (Scenario.run Samples.with_break_even Scenario.account)).
    + vm_compute. reflexivity.
    + vm_compute. reflexivity.
    + discriminate.
    + vm_compute. reflexivity.
    + exact Hm'.
    + do 2 right. left.
  - vm_compute. discriminate.
Defined.

(** ** Long and short deals *)

(** The share of winners among the deals that pass a filter, as "Long Won"
    and "Short Won" compute it. *)
Lemma won_share_cases (picked : list deal) :
  let share :=
    if 0 <? len picked
    then PyFloat
           (percentage
              (len (List.filter (fun t => F64.ltb F64.zero (profit t)) picked))
              (len picked))
    else PyInt 0 in
  (picked = [] -> share = PyInt 0)
  /\ (picked <> [] ->
      (forall t, t ∈ picked -> F64.ltb F64.zero (profit t) = true) ->
      share = PyFloat (F64.of_Z 100))
  /\ (picked <> [] ->
      (forall t, t ∈ picked -> F64.ltb F64.zero (profit t) = false) ->
      share = PyFloat F64.zero).
Proof.
  intros share. subst share. split; [by intros ->|].
  assert (Hpos : picked <> [] -> (0 <? len picked) = true).
  { intros Hne. apply Z.ltb_lt. unfold len. destruct picked; [done|].
    simpl length. lia. }
  split; intros Hne Hall; rewrite (Hpos Hne).
  - rewrite filter_all by (by apply Forall_forall).
    rewrite percentage_all; [done|]. by apply Z.ltb_lt, Hpos.
  - rewrite filter_none by (by apply Forall_forall).
    by rewrite percentage_none.
Qed.

(** X22. "Long Won" looks only at the deals whose entry is
    [mt5.ORDER_TYPE_BUY] and "Short Won" only at those whose entry is
    [mt5.ORDER_TYPE_SELL]; deals with another entry count for neither.
    Without a deal of its side the metric is the integer 0; when all deals
    of its side are profitable it is exactly 100, and when none is it is
    the float 0.0. *)
Theorem long_short_won
    (rs : list deal) (a : Account.t) (m : Metrics.t) (side : Z) (n : string) :
  (side, n) ∈ [(mt5.ORDER_TYPE_BUY, "Long Won"); (mt5.ORDER_TYPE_SELL, "Short Won")] ->
  rs <> [] ->
  calculate_metrics rs a = Ok m ->
  let picked := List.filter (fun t => entry t =? side) rs in
  (picked = [] -> lookup_metric n (Metrics.default m) = Some (PyInt 0))
  /\ (picked <> [] ->
      (forall t, t ∈ picked -> F64.ltb F64.zero (profit t) = true) ->
      lookup_metric n (Metrics.default m) = Some (PyFloat (F64.of_Z 100)))
  /\ (picked <> [] ->
      (forall t, t ∈ picked -> F64.ltb F64.zero (profit t) = false) ->
      lookup_metric n (Metrics.default m) = Some (PyFloat F64.zero)).
Proof.
  intros Hside Hne Hm picked.
  apply calculate_metrics_nonempty in Hm as (text & _ & ->); [|done].
  pose proof (won_share_cases picked) as (Hnone & Hall & Hno).
  apply elem_of_cons in Hside as [[= -> ->]|Hside];
    [|apply list_elem_of_singleton in Hside as [= -> ->]];
    unfold lookup_metric; simpl find; simpl fmap.
  - unfold long_won, long_trades. fold picked.
    split; [|split]; intros; f_equal; auto.
  - unfold short_won, short_trades. fold picked.
    split; [|split]; intros; f_equal; auto.
Qed.

Lemma long_short_won_witness :
  lookup_metric "Long Won" (Metrics.default Scenario.result)
  = Some (PyFloat (F64.of_Z 100)).
Proof.
  destruct (long_short_won Scenario.records Scenario.account Scenario.result
              mt5.ORDER_TYPE_BUY "Long Won") as (_ & Hall & _).
  - by left.
  - discriminate.
  - vm_compute. reflexivity.
  - apply Hall; [discriminate|].
    intros t Ht. apply list_elem_of_singleton in Ht as ->.
    vm_compute. reflexivity.
Defined.
